(** * Word Appendix Manager: the coordinator and its PDF backend

    A shallow embedding of [core/appendix_manager.py], [core/pdf_handler.py],
    the three methods of [core/word_manager.py] the coordinator calls and the
    title generator of [gui/controller.py], with the properties of the
    specification proved about it.

    Conventions of the embedding:
    - a Python call either returns a value or raises: [Outcome];
    - the objects the code mutates (the coordinator's lists, the PDF
      handler's temp bookkeeping, the document, the file system, the logger)
      live in one explicit [State] threaded through every call; a mutation
      done before an exception is raised is kept, as in Python;
    - a path is the list of its components; [str(path)] joins them with "/";
    - the third-party libraries (python-docx, pypdf, the operating system)
      are not part of the repository: what they answer is read from an
      environment record [Env]. *)

From stdpp Require Import gmap strings list pretty.
From Stdlib Require Import ZArith Lia.

#[local] Set Warnings "-clear-no-such-hyp".

Local Open Scope string_scope.
Local Open Scope list_scope.
Local Open Scope Z_scope.

(** ** Paths *)

Abbreviation path := (list string).

(** [str(Path(...))]: the components joined with the separator. *)
Definition path_str (p : path) : string := String.concat "/" p.

(** [Path(p) / name]. *)
Definition joinpath (p : path) (name : string) : path := p ++ [name].


(** ** Exceptions ([utils/exceptions.py]) *)

Inductive ExnClass : Type :=
  | AppendixError
  | WordDocumentError
  | PDFError
  | PDFNotFoundError
  | PDFCorruptedError
  | FileSystemError
  | BuiltinError (name : string).

#[global] Instance ExnClass_eq_dec : EqDecision ExnClass.
Proof. solve_decision. Defined.

(** An exception instance: its class, the [message] it was built with and the
    exception that was being handled when it was raised ([__context__]). *)
#[warnings="-register-all"]
Inductive Exn : Type :=
  | MkExn (cls : ExnClass) (message : string) (context : option Exn).

Definition exn_class (e : Exn) : ExnClass :=
  match e with MkExn c _ _ => c end.
Definition exn_message (e : Exn) : string :=
  match e with MkExn _ m _ => m end.
Definition exn_context (e : Exn) : option Exn :=
  match e with MkExn _ _ c => c end.

(** [ApplicationError.error_code], as each subclass passes it to
    [super().__init__]; a builtin exception has none. *)
Definition error_code (c : ExnClass) : option string :=
  match c with
  | AppendixError => Some "APPENDIX_ERROR"
  | WordDocumentError => Some "WORD_ERROR"
  | PDFError | PDFNotFoundError | PDFCorruptedError => Some "PDF_ERROR"
  | FileSystemError => Some "FILESYSTEM_ERROR"
  | BuiltinError _ => None
  end.

(** [str(e)]: [ApplicationError.__str__] is ["[{error_code}] {message}"]. *)
Definition str_exn (e : Exn) : string :=
  match error_code (exn_class e) with
  | Some code => "[" +:+ code +:+ "] " +:+ exn_message e
  | None => exn_message e
  end.

(** [PDFNotFoundError(pdf_path)]. *)
Definition mk_PDFNotFoundError (p : path) (ctx : option Exn) : Exn :=
  MkExn PDFNotFoundError ("PDF file not found: " +:+ path_str p) ctx.

(** [PDFCorruptedError(pdf_path, details)]. *)
Definition mk_PDFCorruptedError (p : path) (details : string)
    (ctx : option Exn) : Exn :=
  MkExn PDFCorruptedError
    ("PDF file is corrupted or unreadable: " +:+ path_str p +:+
     (if decide (details = "") then "" else " (" +:+ details +:+ ")")) ctx.

(** ** Outcomes and the state monad *)

Inductive Outcome (A : Type) : Type :=
  | Return (a : A)
  | Raise (e : Exn).
Arguments Return {A} a.
Arguments Raise {A} e.

(** The call raised an exception of class [c]. *)
Definition raises_class {A} (o : Outcome A) (c : ExnClass) : Prop :=
  ∃ e, o = Raise e ∧ exn_class e = c.

Module Py.
Section Monad.
Context {S : Type}.

Definition M (A : Type) : Type := S → Outcome A * S.

Definition ret {A} (a : A) : M A := λ s, (Return a, s).
Definition raise {A} (e : Exn) : M A := λ s, (Raise e, s).
Definition bind {A B} (m : M A) (k : A → M B) : M B :=
  λ s, match m s with
       | (Return a, s') => k a s'
       | (Raise e, s') => (Raise e, s')
       end.
(** [try: m  except Exception as e: h e]. *)
Definition try_except {A} (m : M A) (h : Exn → M A) : M A :=
  λ s, match m s with
       | (Return a, s') => (Return a, s')
       | (Raise e, s') => h e s'
       end.
(** [try: m  finally: f]: [f] runs on both exits and does not raise. *)
Definition try_finally {A} (m : M A) (f : S → S) : M A :=
  λ s, let '(o, s') := m s in (o, f s').
Definition get : M S := λ s, (Return s, s).
Definition modify (f : S → S) : M unit := λ s, (Return tt, f s).
End Monad.
End Py.

Notation "'do' x <- m ; k" := (Py.bind m (λ x, k))
  (at level 10, x name, m at level 100, k at level 200,
   format "'[v' 'do'  x  <-  m ; '/' k ']'").
Notation "'run' m ; k" := (Py.bind m (λ _, k))
  (at level 10, m at level 100, k at level 200,
   format "'[v' 'run'  m ; '/' k ']'").

(** ** Data of the coordinator *)

(** [settings.heading_style]. *)
Record HeadingStyle : Type := {
  font_name : string;
  font_size : Z;
  bold : bool;
  italic : bool
}.

(** What the core reads of [config/settings.py]: two properties and
    [get('advanced.temp_directory')]. *)
Record Settings : Type := {
  heading_style : HeadingStyle;
  max_pdf_size_mb : Z;
  advanced_temp_directory : option path
}.

(** The [appendix_data] dict handed to [add_appendix]: the keys the
    coordinator reads.  [None] is an absent key (or the value [None]). *)
Record AppendixData : Type := {
  data_path : option path;
  data_title : option string;
  data_page_count : option Z
}.

(** The [appendix_info] dict appended to [appendices_added]. *)
Record AppendixInfo : Type := {
  title : string;
  pdf_path : path;
  page_count : Z;
  start_page : Z;
  end_page : Z
}.

(** The dict returned by [get_document_info]: only ['name'] is read. *)
Record DocInfo : Type := { info_name : option string }.

Inductive LogLevel : Type := DEBUG | INFO | WARNING | ERROR.

(** What the code does to the outside, in the order it does it: logger
    records and the calls into the backends and the file system. *)
Inductive Event : Type :=
  | Log (level : LogLevel) (msg : string)
  | AddSection (appendix_title : string) (pages : Z)
  | Export (target : path)
  | Copy (src dst : path)
  | Merge (pdf_list : list path) (output_path : path).

(** The answers of everything that is not code of the repository. *)
Record Env : Type := {
  settings : option Settings;
  (** [Path.home()] *)
  home : path;
  (** the import probes at the top of [pdf_handler.py] *)
  PYPDF_AVAILABLE : bool;
  PYMUPDF_AVAILABLE : bool;
  (** [pdf_path.stat().st_size] *)
  st_size : path → Z;
  (** what the PDF library reports when it opens a file: the page count and
      the encryption flag, or the exception it raises *)
  open_pdf : path → Outcome (Z * bool);
  (** the exception [merger.append] / [insert_pdf] raises on an input *)
  append_error : path → option Exn;
  (** the exception writing the merged output raises *)
  write_error : path → option Exn;
  (** the exception [shutil.copy2] raises *)
  copy_error : path → path → option Exn;
  (** the exception [unlink] / [os.remove] raises on an existing path *)
  unlink_error : path → option Exn;
  (** [tempfile.mkdtemp], given the existing paths *)
  mkdtemp : gset path → Outcome path;
  (** the [OSError] that [Path(p).exists()] lets out: [exists] answers
      [False] when [stat] reports that nothing is there, and re-raises every
      other error of [stat] (no permission to search the folder, a name that
      is too long, ...) *)
  exists_error : path → option Exn
}.

(** The mutable objects: the coordinator ([appendices_added],
    [temp_files]), the PDF handler ([temp_dir], [_temp_files]), the document
    backend [word_manager], the file system and the record of events. *)
Record State (D : Type) : Type := MkState {
  appendices_added : list AppendixInfo;
  temp_files : list path;
  temp_dir : option path;
  _temp_files : list path;
  word_manager : D;
  files : gset path;
  events : list Event
}.
Arguments MkState {D}.
Arguments appendices_added {D}.
Arguments temp_files {D}.
Arguments temp_dir {D}.
Arguments _temp_files {D}.
Arguments word_manager {D}.
Arguments files {D}.
Arguments events {D}.

Section StateUpdates.
Context {D : Type}.
Implicit Type s : State D.

Definition set_appendices_added (l : list AppendixInfo) s : State D :=
  MkState l (temp_files s) (temp_dir s) (_temp_files s) (word_manager s)
          (files s) (events s).
Definition set_temp_files (l : list path) s : State D :=
  MkState (appendices_added s) l (temp_dir s) (_temp_files s)
          (word_manager s) (files s) (events s).
Definition set_temp_dir (d : option path) s : State D :=
  MkState (appendices_added s) (temp_files s) d (_temp_files s)
          (word_manager s) (files s) (events s).
Definition set__temp_files (l : list path) s : State D :=
  MkState (appendices_added s) (temp_files s) (temp_dir s) l
          (word_manager s) (files s) (events s).
Definition set_word_manager (d : D) s : State D :=
  MkState (appendices_added s) (temp_files s) (temp_dir s) (_temp_files s)
          d (files s) (events s).
Definition set_files (f : gset path) s : State D :=
  MkState (appendices_added s) (temp_files s) (temp_dir s) (_temp_files s)
          (word_manager s) f (events s).
Definition emit (e : Event) s : State D :=
  MkState (appendices_added s) (temp_files s) (temp_dir s) (_temp_files s)
          (word_manager s) (files s) (events s ++ [e]).

(** [self.logger.<level>(msg)]. *)
Definition log (level : LogLevel) (msg : string) : Py.M unit :=
  Py.modify (emit (Log level msg)).

(** [Path(p).exists()] inside a [try] block whose handler turns whatever is
    raised into the error of the function itself ([add_appendix],
    [create_final_pdf] and what it calls): there the call is taken to
    answer.  Where an error of [exists] takes a path of its own the call is
    [Path_exists], below. *)
Definition path_exists (p : path) : Py.M bool :=
  λ s, (Return (bool_decide (p ∈ files s)), s).
End StateUpdates.

(** The capability contract the coordinator relies on: it is handed a
    [word_manager] object and calls these three methods on it. *)
Class DocumentBackend (D : Type) : Type := {
  add_appendix_section :
    string → Z → option HeadingStyle → D → Outcome bool * D;
  export_as_pdf : path → D → gset path → Outcome bool * (D * gset path);
  get_document_info : D → DocInfo
}.

(** ** The PDF handler ([core/pdf_handler.py]) *)

(** [f"{x:.1f}"] for [x = size_bytes / (1024 * 1024)].  The quotient is a
    dyadic rational, exact as a float for any size below 2^53 bytes, and the
    format rounds it to one decimal, ties to even. *)
Definition fmt_mb_1f (size_bytes : Z) : string :=
  let q := (size_bytes * 10) `div` 1048576 in
  let r := (size_bytes * 10) `mod` 1048576 in
  let tenths :=
    if bool_decide (524288 < r) then q + 1
    else if bool_decide (r = 524288) && Z.odd q then q + 1
    else q in
  pretty (tenths `div` 10) +:+ "." +:+ pretty (tenths `mod` 10).

(** The dict [validate_pdf_file] returns: the keys its callers read.
    [size_mb] is [size_bytes / (1024 * 1024)]; it is kept as the byte count
    and compared exactly. *)
Record ValidationResult : Type := {
  result_path : path;
  name : string;
  size_bytes : Z;
  valid : bool;
  info_page_count : Z;
  encrypted : bool;
  warnings : list string
}.

(** [size_mb > limit] for an integer [limit]. *)
Definition size_mb_gt (size_bytes limit : Z) : bool :=
  bool_decide (limit * 1048576 < size_bytes).

Section PDFHandler.
Context {D : Type} (env : Env).

Abbreviation M := (@Py.M (State D)).

(** [Path(p).exists()], with the errors it re-raises. *)
Definition Path_exists (p : path) : M bool :=
  λ s, (match exists_error env p with
        | Some e => Raise e
        | None => Return (bool_decide (p ∈ files s))
        end, s).

(** [self.settings.max_pdf_size_mb if self.settings else 200]. *)
Definition max_size_mb : Z :=
  match settings env with Some st => max_pdf_size_mb st | None => 200 end.

(** [_get_pdf_info]: the library that is available reads the file; any
    failure becomes a [PDFCorruptedError]. *)
Definition _get_pdf_info (pdf_path : path) : M (Z * bool) :=
  Py.try_except
    (if PYMUPDF_AVAILABLE env || PYPDF_AVAILABLE env then
       λ s, (open_pdf env pdf_path, s)
     else
       Py.raise (MkExn PDFError "No PDF library available" None))
    (λ e, Py.raise (mk_PDFCorruptedError pdf_path (str_exn e) (Some e))).

(** [validate_pdf_file]. *)
Definition validate_pdf_file (pdf_path : path) : M ValidationResult :=
  do found <- Path_exists pdf_path;
  if negb found then Py.raise (mk_PDFNotFoundError pdf_path None)
  else
    Py.try_except
      (let file_size := st_size env pdf_path in
       run (if size_mb_gt file_size max_size_mb then
              log WARNING ("PDF file exceeds size limit: " +:+
                           fmt_mb_1f file_size +:+ "MB > " +:+
                           pretty max_size_mb +:+ "MB")
            else Py.ret tt);
       do pdf_info <- _get_pdf_info pdf_path;
       let warnings : list string :=
         ((if size_mb_gt file_size 50
           then ["Large file size: " +:+ fmt_mb_1f file_size +:+ "MB"]
           else []) ++
          (if bool_decide (1000 < pdf_info.1)
           then ["Many pages: " +:+ pretty pdf_info.1] else []) ++
          (if pdf_info.2 then ["PDF is encrypted"] else [])) in
       run log INFO ("PDF validated: " +:+ default "" (last pdf_path) +:+
                     " (" +:+ pretty pdf_info.1 +:+ " pages)");
       Py.ret {| result_path := pdf_path;
                 name := default "" (last pdf_path);
                 size_bytes := file_size;
                 valid := true;
                 info_page_count := pdf_info.1;
                 encrypted := pdf_info.2;
                 warnings := warnings |})
      (λ e,
         if bool_decide (exn_class e = PDFNotFoundError) then Py.raise e
         else
           run log ERROR ("PDF validation failed for " +:+
                          path_str pdf_path +:+ ": " +:+ str_exn e);
           Py.raise (mk_PDFCorruptedError pdf_path (str_exn e) (Some e))).

(** The [for] loop shared by [_merge_pdfs_pypdf] and
    [_merge_pdfs_pymupdf]: every input must exist, then it is appended. *)
Fixpoint merge_loop (pdf_list : list path) : M unit :=
  match pdf_list with
  | [] => Py.ret tt
  | pdf_path :: rest =>
      do found <- Path_exists pdf_path;
      if negb found then Py.raise (mk_PDFNotFoundError pdf_path None)
      else
        match append_error env pdf_path with
        | Some e => Py.raise e
        | None => merge_loop rest
        end
  end.

(** Writing the merged document: the output file exists afterwards. *)
Definition write_output (output_path : path) : M unit :=
  match write_error env output_path with
  | Some e => Py.raise e
  | None => Py.modify (λ s, set_files ({[output_path]} ∪ files s) s)
  end.

(** [_merge_pdfs_pypdf]; the [finally] clause closes the merger. *)
Definition _merge_pdfs_pypdf (pdf_list : list path) (output_path : path)
    : M bool :=
  Py.try_finally
    (run merge_loop pdf_list;
     run write_output output_path;
     run log INFO ("Merged " +:+ pretty (length pdf_list) +:+ " PDFs to " +:+
                   path_str output_path);
     Py.ret true)
    id.

(** [_merge_pdfs_pymupdf]; the [finally] clause closes the document. *)
Definition _merge_pdfs_pymupdf (pdf_list : list path) (output_path : path)
    : M bool :=
  Py.try_finally
    (run merge_loop pdf_list;
     run write_output output_path;
     run log INFO ("Merged " +:+ pretty (length pdf_list) +:+ " PDFs to " +:+
                   path_str output_path);
     Py.ret true)
    id.

(** [merge_pdfs]. *)
Definition merge_pdfs (pdf_list : list path) (output_path : path) : M bool :=
  run Py.modify (emit (Merge pdf_list output_path));
  match pdf_list with
  | [] => Py.raise (MkExn PDFError "No PDF files to merge" None)
  | _ :: _ =>
      Py.try_except
        (if PYPDF_AVAILABLE env then _merge_pdfs_pypdf pdf_list output_path
         else if PYMUPDF_AVAILABLE env then
           _merge_pdfs_pymupdf pdf_list output_path
         else
           Py.raise
             (MkExn PDFError "No PDF library available for merging" None))
        (λ e,
           run log ERROR ("PDF merge failed: " +:+ str_exn e);
           Py.raise (MkExn PDFError ("Failed to merge PDFs: " +:+ str_exn e)
                           (Some e)))
  end.

(** [create_temp_directory]. *)
Definition create_temp_directory : M path :=
  do s <- Py.get;
  match temp_dir s with
  | Some (c :: d) => Py.ret (c :: d)
  | _ =>
      let base_temp_dir := settings env ≫= advanced_temp_directory in
      run (match base_temp_dir with
           | Some (c :: b) =>
               Py.modify (λ s, set_files ({[c :: b]} ∪ files s) s)
           | _ => Py.ret tt
           end);
      do s' <- Py.get;
      do d <- (λ s, (mkdtemp env (files s'), s));
      run Py.modify (λ s, set_temp_dir (Some d)
                            (set_files ({[d]} ∪ files s) s));
      run log DEBUG ("Created temp directory: " +:+ path_str d);
      Py.ret d
  end.

(** [add_temp_file]. *)
Definition add_temp_file (file_path : path) : M unit :=
  Py.modify (λ s, set__temp_files (_temp_files s ++ [file_path]) s).

(** [Path(p).unlink()] / [os.remove(p)] on an existing path. *)
Definition unlink (p : path) : M unit :=
  match unlink_error env p with
  | Some e => Py.raise e
  | None => Py.modify (λ s, set_files (files s ∖ {[p]}) s)
  end.

(** A path [shutil.rmtree(d, ignore_errors=True)] cannot remove: it is, or
    it contains, something whose removal fails. *)
Definition stuck (fs : gset path) (p : path) : Prop :=
  set_Exists (λ q, p `prefix_of` q ∧ is_Some (unlink_error env q)) fs.

(** [shutil.rmtree(d, ignore_errors=True)]: everything at or under [d]
    goes, except what is stuck. *)
Definition rmtree (d : path) : M unit :=
  Py.modify (λ s,
    set_files (filter (λ p, ¬ d `prefix_of` p ∨ stuck (files s) p)
                      (files s)) s).

(** The [for] loop of the handler's [cleanup_temp_files]. *)
Fixpoint remove_loop (l : list path) : M unit :=
  match l with
  | [] => Py.ret tt
  | temp_file :: rest =>
      run Py.try_except
            (do found <- Path_exists temp_file;
             if found then unlink temp_file else Py.ret tt)
            (λ e, log WARNING ("Could not remove temp file " +:+
                               path_str temp_file +:+ ": " +:+ str_exn e));
      remove_loop rest
  end.

(** [PDFHandler.cleanup_temp_files]. *)
Definition handler_cleanup_temp_files : M unit :=
  Py.try_except
    (do s <- Py.get;
     run remove_loop (_temp_files s);
     run (match temp_dir s with
          | Some (c :: d) =>
              do found <- Path_exists (c :: d);
              if found then
                run rmtree (c :: d);
                log DEBUG ("Cleaned up temp directory: " +:+
                           path_str (c :: d))
              else Py.ret tt
          | _ => Py.ret tt
          end);
     run Py.modify (set__temp_files []);
     Py.modify (set_temp_dir None))
    (λ e, log ERROR ("Error during temp file cleanup: " +:+ str_exn e)).
End PDFHandler.

(** ** The coordinator ([core/appendix_manager.py]) *)

(** [f"{pdf_path}"] for the value of [appendix_data.get('path')]. *)
Definition fmt_opt_path (p : option path) : string :=
  match p with None => "None" | Some p => path_str p end.

(** [f"{title}"] for the value of [appendix_data.get('title')]. *)
Definition fmt_opt_string (t : option string) : string :=
  match t with None => "None" | Some t => t end.

(** [not pdf_path]: [None] and the empty string are falsy. *)
Definition falsy_path (p : option path) : bool :=
  match p with None | Some [] => true | Some (_ :: _) => false end.

(** The index of the last ["."] of a name ([name.rfind('.')]). *)
Fixpoint rfind_dot (s : string) : option nat :=
  match s with
  | EmptyString => None
  | String c r =>
      match rfind_dot r with
      | Some i => Some (S i)
      | None => if Ascii.eqb c (Ascii.ascii_of_nat 46) then Some O else None
      end
  end.

(** [Path(name).stem] for a file name (no separator in it): the name without
    its last suffix; a leading or a trailing dot starts no suffix. *)
Definition stem (name : string) : string :=
  match rfind_dot name with
  | Some i =>
      if bool_decide (0 < i < String.length name - 1)%nat
      then String.substring 0 i name else name
  | None => name
  end.

Section Coordinator.
Context {D : Type} `{!DocumentBackend D} (env : Env).

Abbreviation M := (@Py.M (State D)).

(** [AppendixManager.__init__]: nothing added, nothing tracked. *)
Definition init (wm : D) (fs : gset path) : State D :=
  MkState [] [] None [] wm fs [Log INFO "Appendix manager initialized"].

(** [_calculate_start_page]. *)
Definition _calculate_start_page : M Z :=
  λ s, (Return match last (appendices_added s) with
               | None => 10
               | Some last_appendix => end_page last_appendix + 1
               end, s).

(** [self.word_manager.add_appendix_section(...)]. *)
Definition call_add_appendix_section (appendix_title : string) (pages : Z)
    (style : option HeadingStyle) : M bool :=
  λ s, let '(o, wm) :=
         add_appendix_section appendix_title pages style (word_manager s) in
       (o, set_word_manager wm (emit (AddSection appendix_title pages) s)).

(** [add_appendix]. *)
Definition add_appendix (appendix_data : AppendixData) : M bool :=
  Py.try_except
    (let pdf_path := data_path appendix_data in
     let title := default "Appendix" (data_title appendix_data) in
     let page_count := default 0 (data_page_count appendix_data) in
     do found <- (if falsy_path pdf_path then Py.ret false
                  else path_exists (default [] pdf_path));
     if negb found then
       Py.raise (MkExn AppendixError
                   ("PDF file not found: " +:+ fmt_opt_path pdf_path) None)
     else if bool_decide (page_count ≤ 0) then
       Py.raise (MkExn AppendixError
                   ("Invalid page count: " +:+ pretty page_count) None)
     else
       let heading_style := heading_style <$> settings env in
       do success <-
         call_add_appendix_section title page_count heading_style;
       run (if success : bool then
              do start <- _calculate_start_page;
              do start' <- _calculate_start_page;
              let appendix_info :=
                {| title := title;
                   pdf_path := default [] pdf_path;
                   page_count := page_count;
                   start_page := start;
                   end_page := start' + page_count - 1 |} in
              run Py.modify (λ s, set_appendices_added
                                    (appendices_added s ++ [appendix_info]) s);
              log INFO ("Added appendix: " +:+ title +:+ " (" +:+
                        pretty page_count +:+ " pages)")
            else Py.ret tt);
       Py.ret success)
    (λ e,
       run log ERROR ("Failed to add appendix " +:+
                      default "Unknown" (data_title appendix_data) +:+
                      ": " +:+ str_exn e);
       Py.raise (MkExn AppendixError
                   ("Failed to add appendix: " +:+ str_exn e) (Some e))).

(** The body of the [for] loop of [add_multiple_appendices], with the
    running [success_count]. *)
Fixpoint add_multiple_loop (appendices_data : list AppendixData)
    (success_count : Z) : M Z :=
  match appendices_data with
  | [] => Py.ret success_count
  | appendix_data :: rest =>
      do success_count' <-
        Py.try_except
          (do ok <- add_appendix appendix_data;
           Py.ret (if ok : bool then success_count + 1 else success_count))
          (λ e,
             run log ERROR ("Failed to add appendix " +:+
                            fmt_opt_string (data_title appendix_data) +:+
                            ": " +:+ str_exn e);
             Py.ret success_count);
      add_multiple_loop rest success_count'
  end.

(** [add_multiple_appendices]. *)
Definition add_multiple_appendices (appendices_data : list AppendixData)
    : M Z :=
  do success_count <- add_multiple_loop appendices_data 0;
  run log INFO ("Added " +:+ pretty success_count +:+ "/" +:+
                pretty (length appendices_data) +:+ " appendices");
  Py.ret success_count.

(** [self.word_manager.export_as_pdf(str(temp_pdf))]. *)
Definition call_export_as_pdf (target : path) : M bool :=
  λ s, let '(o, (wm, fs)) :=
         export_as_pdf target (word_manager s) (files s) in
       (o, set_files fs (set_word_manager wm (emit (Export target) s))).

(** [_export_word_to_pdf]. *)
Definition _export_word_to_pdf : M path :=
  Py.try_except
    (do temp_dir <- create_temp_directory env;
     let temp_pdf := joinpath temp_dir "word_document.pdf" in
     do success <- call_export_as_pdf temp_pdf;
     do found <- path_exists temp_pdf;
     if negb success || negb found then
       Py.raise (MkExn WordDocumentError
                   "Failed to export Word document to PDF" None)
     else
       run Py.modify (λ s, set_temp_files (temp_files s ++ [temp_pdf]) s);
       Py.ret temp_pdf)
    (λ e, Py.raise (MkExn WordDocumentError
                      ("PDF export failed: " +:+ str_exn e) (Some e))).

(** [shutil.copy2(src, dst)]. *)
Definition copy2 (src dst : path) : M unit :=
  run Py.modify (emit (Copy src dst));
  do found <- path_exists src;
  if negb found then
    Py.raise (MkExn (BuiltinError "FileNotFoundError")
                ("[Errno 2] No such file or directory: '" +:+
                 path_str src +:+ "'") None)
  else
    match copy_error env src dst with
    | Some e => Py.raise e
    | None => Py.modify (λ s, set_files ({[dst]} ∪ files s) s)
    end.

(** The [while output_path.exists()] loop of [_replace_blank_pages], run
    for at most [fuel] tests of the condition. *)
Fixpoint unique_filename_loop (fuel : nat) (fs : gset path)
    (output_dir : path) (doc_name : string) (output_path : path)
    (counter : Z) : option path :=
  match fuel with
  | O => None
  | S fuel' =>
      if bool_decide (output_path ∈ fs) then
        unique_filename_loop fuel' fs output_dir doc_name
          (joinpath output_dir
             (doc_name +:+ "_with_appendices_" +:+ pretty counter +:+ ".pdf"))
          (counter + 1)
      else Some output_path
  end.

(** The [if not output_path:] block of [_replace_blank_pages]: the default
    output path.  One test more than there are files is enough fuel
    ([default_output_path_total]). *)
Definition default_output_path (doc_info : DocInfo) (fs : gset path)
    : option path :=
  let doc_name := stem (default "document" (info_name doc_info)) in
  let output_dir := joinpath (home env) "Documents" in
  unique_filename_loop (S (size fs)) fs output_dir doc_name
    (joinpath output_dir (doc_name +:+ "_with_appendices.pdf")) 1.

(** [_replace_blank_pages]. *)
Definition _replace_blank_pages (word_pdf_path : path)
    (output_path : option path) : M path :=
  Py.try_except
    (do output_path <-
       (if falsy_path output_path then
          do s <- Py.get;
          match default_output_path
                  (get_document_info (word_manager s)) (files s) with
          | Some p => Py.ret p
          | None => Py.raise (MkExn (BuiltinError "OutOfFuel") "" None)
          end
        else Py.ret (default [] output_path));
     run copy2 word_pdf_path output_path;
     do s <- Py.get;
     run (match appendices_added s with
          | [] => Py.ret tt
          | _ :: _ =>
              let pdf_list :=
                word_pdf_path :: (pdf_path <$> appendices_added s) in
              run merge_pdfs env pdf_list output_path;
              Py.ret tt
          end);
     Py.ret output_path)
    (λ e, Py.raise (MkExn PDFError
                      ("Failed to replace blank pages: " +:+ str_exn e)
                      (Some e))).

(** [create_final_pdf]. *)
Definition create_final_pdf (output_path : option path) : M path :=
  Py.try_except
    (do temp_word_pdf <- _export_word_to_pdf;
     do final_pdf <- _replace_blank_pages temp_word_pdf output_path;
     do found <- path_exists temp_word_pdf;
     run (if found then unlink env temp_word_pdf else Py.ret tt);
     run log INFO ("Created final PDF: " +:+ path_str final_pdf);
     Py.ret final_pdf)
    (λ e,
       run log ERROR ("Failed to create final PDF: " +:+ str_exn e);
       Py.raise (MkExn AppendixError
                   ("Failed to create final PDF: " +:+ str_exn e) (Some e))).

(** [f"Appendix {i + 1}"]. *)
Definition appendix_id (i : nat) : string :=
  "Appendix " +:+ pretty (i + 1)%nat.

(** The [for i, appendix in enumerate(...)] loop of [validate_appendices],
    from index [i] on, with the [errors] collected so far. *)
Fixpoint validate_loop (i : nat) (appendices_data : list AppendixData)
    (errors : list string) : M (list string) :=
  match appendices_data with
  | [] => Py.ret errors
  | appendix :: rest =>
      let pdf_path := data_path appendix in
      if falsy_path pdf_path then
        validate_loop (S i) rest
          (errors ++ [appendix_id i +:+ ": No PDF file specified"])
      else
        do found <- Path_exists env (default [] pdf_path);
        if negb found then
          validate_loop (S i) rest
            (errors ++ [appendix_id i +:+ ": PDF file not found: " +:+
                        fmt_opt_path pdf_path])
        else
          do errors' <-
            Py.try_except
              (do pdf_info <- validate_pdf_file env (default [] pdf_path);
               let errors1 : list string :=
                 (if negb (valid pdf_info) then
                    errors ++ [appendix_id i +:+ ": Invalid PDF file"]
                  else errors) in
               let errors2 : list string :=
                 (if bool_decide (info_page_count pdf_info ≤ 0) then
                    errors1 ++ [appendix_id i +:+ ": PDF has no pages"]
                  else errors1) in
               let errors3 : list string :=
                 (if size_mb_gt (size_bytes pdf_info) (max_size_mb env) then
                    errors2 ++
                    [appendix_id i +:+ ": File too large (" +:+
                     fmt_mb_1f (size_bytes pdf_info) +:+ "MB > " +:+
                     pretty (max_size_mb env) +:+ "MB)"]
                  else errors2) in
               Py.ret (errors3 ++
                       ((λ warning, appendix_id i +:+ ": " +:+ warning)
                          <$> warnings pdf_info)))
              (λ e, Py.ret (errors ++
                            [appendix_id i +:+ ": PDF validation failed: "
                             +:+ str_exn e]));
          validate_loop (S i) rest errors'
  end.

(** [validate_appendices]. *)
Definition validate_appendices (appendices_data : list AppendixData)
    : M (list string) :=
  validate_loop 0 appendices_data [].

(** The [for] loop of the coordinator's [cleanup_temp_files]. *)
Fixpoint unlink_loop (l : list path) : M unit :=
  match l with
  | [] => Py.ret tt
  | temp_file :: rest =>
      run Py.try_except
            (do found <- Path_exists env temp_file;
             if found then unlink env temp_file else Py.ret tt)
            (λ e, log WARNING ("Could not delete temp file " +:+
                               path_str temp_file +:+ ": " +:+ str_exn e));
      unlink_loop rest
  end.

(** [AppendixManager.cleanup_temp_files]. *)
Definition cleanup_temp_files : M unit :=
  do s <- Py.get;
  run unlink_loop (temp_files s);
  run Py.modify (set_temp_files []);
  run handler_cleanup_temp_files env;
  log INFO "Cleaned up temporary files".

(** [reset]. *)
Definition reset : M unit :=
  run Py.modify (set_appendices_added []);
  run cleanup_temp_files;
  log INFO "Appendix manager reset".
End Coordinator.

(** ** The document backend of the repository ([core/word_manager.py]) *)

(** What [add_appendix_section] puts into the document. *)
Inductive DocElement : Type :=
  | PageBreak
  | Heading (text : string) (style : option HeadingStyle)
  | TypedText (text : string) (style : option HeadingStyle)
  | Paragraph.

(** The fields of [WordManager] the three methods read.  [active_document]
    is the content added to the document so far; [document_name] is what the
    backend reports as the document's name. *)
Record WordManager : Type := {
  active_document : option (list DocElement);
  document_path : option path;
  document_name : string;
  com_available : bool
}.

Module WordManagerImpl.
(** The [for i in range(page_count - 1)] loops. *)
Definition blank_pages (page_count : Z) : list DocElement :=
  mjoin (replicate (Z.to_nat (page_count - 1)) [PageBreak; Paragraph]).

(** [_add_appendix_docx]. *)
Definition _add_appendix_docx (appendix_title : string) (page_count : Z)
    (style : option HeadingStyle) (doc : list DocElement)
    : list DocElement :=
  doc ++ [PageBreak; Heading appendix_title style] ++ blank_pages page_count.

(** [_add_appendix_com]. *)
Definition _add_appendix_com (appendix_title : string) (page_count : Z)
    (style : option HeadingStyle) (doc : list DocElement)
    : list DocElement :=
  doc ++ [PageBreak; TypedText appendix_title style; Paragraph] ++
  blank_pages page_count.

Definition with_document (doc : list DocElement) (wm : WordManager)
    : WordManager :=
  {| active_document := Some doc;
     document_path := document_path wm;
     document_name := document_name wm;
     com_available := com_available wm |}.

(** [add_appendix_section]; the two libraries are taken not to fail. *)
Definition add_appendix_section (appendix_title : string) (page_count : Z)
    (style : option HeadingStyle) (wm : WordManager)
    : Outcome bool * WordManager :=
  match active_document wm with
  | None => (Raise (MkExn WordDocumentError "No active document" None), wm)
  | Some doc =>
      if com_available wm then
        (Return true,
         with_document (_add_appendix_com appendix_title page_count style doc)
                       wm)
      else
        (Return true,
         with_document
           (_add_appendix_docx appendix_title page_count style doc) wm)
  end.

(** [export_as_pdf]: only the COM backend exports. *)
Definition export_as_pdf (target : path) (wm : WordManager)
    (fs : gset path) : Outcome bool * (WordManager * gset path) :=
  match active_document wm with
  | None =>
      (Raise (MkExn WordDocumentError "No active document to export" None),
       (wm, fs))
  | Some _ =>
      if com_available wm then (Return true, (wm, {[target]} ∪ fs))
      else
        let e :=
          MkExn WordDocumentError
            ("PDF export not available with python-docx backend. " +:+
             "Use COM automation on Windows for full functionality.")
            None in
        (Raise (MkExn WordDocumentError
                  ("Failed to export PDF: " +:+ str_exn e) (Some e)),
         (wm, fs))
  end.

(** [get_document_info]: the ['name'] entry. *)
Definition get_document_info (wm : WordManager) : DocInfo :=
  match active_document wm with
  | None => {| info_name := None |}
  | Some _ =>
      if com_available wm then {| info_name := Some (document_name wm) |}
      else
        {| info_name :=
             Some (match document_path wm with
                   | Some p => default "" (last p)
                   | None => "Unknown"
                   end) |}
  end.
End WordManagerImpl.

#[global] Instance WordManager_backend : DocumentBackend WordManager := {
  add_appendix_section := WordManagerImpl.add_appendix_section;
  export_as_pdf := WordManagerImpl.export_as_pdf;
  get_document_info := WordManagerImpl.get_document_info
}.

(** ** Appendix titles ([gui/controller.py]) *)

(** [chr(n)], for a code point below 256. *)
Definition chr (n : nat) : string := String (Ascii.ascii_of_nat n) "".

(** [ord('A')]. *)
Definition ord_A : nat := 65.

(** [_generate_appendix_title], with the numbering style the main window
    reports.  The two-letter branch is exact while its first character is
    below code point 256. *)
Definition _generate_appendix_title (numbering_style : string) (index : nat)
    : string :=
  if decide (numbering_style = "numeric") then
    "Appendix " +:+ pretty (index + 1)%nat
  else if decide (index < 26)%nat then
    "Appendix " +:+ chr (ord_A + index)
  else
    let first_letter := chr (ord_A + index / 26 - 1) in
    let second_letter := chr (ord_A + index `mod` 26) in
    "Appendix " +:+ first_letter +:+ second_letter.

(** The titles [_process_pdf_files] gives to the files it is handed, when
    [existing] appendices are already listed: the file processed after
    [processed] others gets index [existing + len(processed_files)]. *)
Fixpoint process_titles (numbering_style : string) (existing : nat)
    (file_paths : list path) (processed_files : list string) : list string :=
  match file_paths with
  | [] => processed_files
  | _ :: rest =>
      process_titles numbering_style existing rest
        (processed_files ++
         [_generate_appendix_title numbering_style
            (existing + length processed_files)])
  end.

(** ** Notions used to state the properties *)

(** A computation keeps a relation between the state it starts from and the
    state it ends in, whether it returns or raises. *)
Definition preserves {S A : Type} (R : relation S) (m : @Py.M S A) : Prop :=
  ∀ s, R s (m s).2.

(** The page bookkeeping of the data model: every record spans
    [page_count] pages, the first starts at the placeholder page 10, every
    later one right after its predecessor. *)
Definition chained (l : list AppendixInfo) : Prop :=
  ∀ i r, l !! i = Some r →
    0 < page_count r ∧
    end_page r = start_page r + page_count r - 1 ∧
    match i with
    | O => start_page r = 10
    | S j => ∃ r', l !! j = Some r' ∧ start_page r = end_page r' + 1
    end.

(** A step from state [s] to state [s'] keeps the page bookkeeping. *)
Definition keeps_chained {D : Type} (s s' : State D) : Prop :=
  chained (appendices_added s) → chained (appendices_added s').

(** A step that leaves the tracked appendices alone. *)
Definition same_appendices {D : Type} (s s' : State D) : Prop :=
  appendices_added s' = appendices_added s.

#[global] Instance keeps_chained_preorder {D} : PreOrder (@keeps_chained D).
Proof. split; [intros s | intros s1 s2 s3]; unfold keeps_chained; tauto. Qed.

#[global] Instance same_appendices_preorder {D} :
  PreOrder (@same_appendices D).
Proof.
  split; [intros s | intros s1 s2 s3]; unfold same_appendices; congruence.
Qed.

(** A step only adds to the record of events. *)
Definition events_grow {D : Type} (s s' : State D) : Prop :=
  events s `prefix_of` events s'.

#[global] Instance events_grow_preorder {D} : PreOrder (@events_grow D).
Proof.
  split; [intros s | intros s1 s2 s3]; unfold events_grow;
    [done | apply PreOrder_Transitive].
Qed.

(** A call succeeded when it returned a true flag; the others failed: they
    raised, or returned a false flag. *)
Definition succeeded (o : Outcome bool) : bool :=
  match o with Return true => true | _ => false end.

Definition failures (outcomes : list (Outcome bool)) : nat :=
  length (filter (λ o, succeeded o = false) outcomes).

Section CoordinatorNotions.
Context {D : Type} `{!DocumentBackend D} (env : Env).

(** The states a coordinator can be in: a fresh one, and whatever its
    public methods make of a reachable one. *)
Inductive reachable : State D → Prop :=
  | reach_init wm fs : reachable (init wm fs)
  | reach_add_appendix a s :
      reachable s → reachable (add_appendix env a s).2
  | reach_add_multiple l s :
      reachable s → reachable (add_multiple_appendices env l s).2
  | reach_validate l s :
      reachable s → reachable (validate_appendices env l s).2
  | reach_create_final_pdf out s :
      reachable s → reachable (create_final_pdf env out s).2
  | reach_cleanup s :
      reachable s → reachable (cleanup_temp_files env s).2
  | reach_reset s :
      reachable s → reachable (reset env s).2.

(** The source file of [appendix_data] is not given or is not there. *)
Definition source_missing (a : AppendixData) (s : State D) : Prop :=
  falsy_path (data_path a) = true ∨ default [] (data_path a) ∉ files s.

(** What the document backend answers when it is asked to insert the
    placeholder section of [appendix_data] in state [s]. *)
Definition backend_outcome (a : AppendixData) (s : State D)
    : Outcome bool :=
  (add_appendix_section (default "Appendix" (data_title a))
     (default 0 (data_page_count a))
     (heading_style <$> settings env) (word_manager s)).1.

(** The record a successful [add_appendix] tracks. *)
Definition new_record (a : AppendixData) (s : State D) : AppendixInfo :=
  let start :=
    match last (appendices_added s) with
    | None => 10
    | Some r => end_page r + 1
    end in
  {| title := default "Appendix" (data_title a);
     pdf_path := default [] (data_path a);
     page_count := default 0 (data_page_count a);
     start_page := start;
     end_page := start + default 0 (data_page_count a) - 1 |}.

(** The state in which [add_multiple_appendices] goes on to the next item,
    after the call for [a] ended with [o] in state [s]. *)
Definition after_item (a : AppendixData) (o : Outcome bool) (s : State D)
    : State D :=
  match o with
  | Raise e =>
      emit (Log ERROR ("Failed to add appendix " +:+
                       fmt_opt_string (data_title a) +:+ ": " +:+
                       str_exn e)) s
  | Return _ => s
  end.

(** The outcomes of the [add_appendix] calls [add_multiple_appendices]
    makes, item by item, in order. *)
Fixpoint item_outcomes (l : list AppendixData) (s : State D)
    : list (Outcome bool) :=
  match l with
  | [] => []
  | a :: rest =>
      let '(o, s') := add_appendix env a s in
      o :: item_outcomes rest (after_item a o s')
  end.
End CoordinatorNotions.

(** The [k]-th name [_replace_blank_pages] tries for its default output:
    [<doc_name>_with_appendices.pdf] first, then the names with the suffix
    [_1], [_2], ..., all in the [Documents] folder of the home directory. *)
Definition output_candidate (env : Env) (doc_name : string) (k : nat) : path :=
  joinpath (joinpath (home env) "Documents")
    match k with
    | O => doc_name +:+ "_with_appendices.pdf"
    | S _ =>
        doc_name +:+ "_with_appendices_" +:+ pretty (Z.of_nat k) +:+ ".pdf"
    end.

(** The calls into the file system and the PDF backend that write the
    output: [shutil.copy2] and [merge_pdfs]. *)
Definition is_pdf_call (e : Event) : bool :=
  match e with Copy _ _ | Merge _ _ => true | _ => false end.

Definition pdf_calls (l : list Event) : list Event :=
  filter (λ e, is_pdf_call e = true) l.

(** A step records no such call. *)
Definition no_pdf_calls {D : Type} (s s' : State D) : Prop :=
  ∃ new, events s' = events s ++ new ∧ pdf_calls new = [].

#[global] Instance no_pdf_calls_preorder {D} : PreOrder (@no_pdf_calls D).
Proof.
  split.
  - intros s. exists []. by rewrite app_nil_r.
  - intros s1 s2 s3 (n1 & H1 & P1) (n2 & H2 & P2). exists (n1 ++ n2).
    rewrite H2, H1, <-app_assoc. split; [done|].
    unfold pdf_calls in *. by rewrite filter_app, P1, P2.
Qed.

(** The path [_replace_blank_pages] writes to: the one it is given, or the
    default one. *)
Definition chosen_output {D : Type} `{!DocumentBackend D} (env : Env)
    (output_path : option path) (s : State D) : path :=
  if falsy_path output_path then
    default [] (default_output_path env (get_document_info (word_manager s))
                  (files s))
  else default [] output_path.

(** The first failure the merge loop meets on [pdf_list], if any: an input
    on which [exists] raises, one that is not there, or one the library
    cannot append. *)
Fixpoint merge_failure (env : Env) (fs : gset path) (pdf_list : list path)
    : option Exn :=
  match pdf_list with
  | [] => None
  | p :: rest =>
      match exists_error env p with
      | Some e => Some e
      | None =>
          if bool_decide (p ∈ fs) then
            match append_error env p with
            | Some e => Some e
            | None => merge_failure env fs rest
            end
          else Some (mk_PDFNotFoundError p None)
      end
  end.

(** An input the merge loop gets past: [exists] answers, the file is there
    and the library appends it. *)
Definition appended (env : Env) (fs : gset path) (p : path) : Prop :=
  exists_error env p = None ∧ p ∈ fs ∧ append_error env p = None.

(** [merge_pdfs] re-raising [e]. *)
Definition merge_error (e : Exn) : Exn :=
  MkExn PDFError ("Failed to merge PDFs: " +:+ str_exn e) (Some e).

(** [_replace_blank_pages] re-raising [e]. *)
Definition replace_error (e : Exn) : Exn :=
  MkExn PDFError ("Failed to replace blank pages: " +:+ str_exn e) (Some e).

(** The calls that write the output of a run that copies [w] to [out] with
    the appendices [apps] added: the copy, then one merge if there is any
    appendix. *)
Definition expected_calls (w out : path) (apps : list AppendixInfo)
    : list Event :=
  Copy w out ::
  match apps with
  | [] => []
  | _ :: _ => [Merge (w :: (pdf_path <$> apps)) out]
  end.

(** [create_final_pdf] logging and re-raising [e]. *)
Definition final_error {D : Type} (e : Exn) (s : State D)
    : Outcome path * State D :=
  (Raise (MkExn AppendixError
            ("Failed to create final PDF: " +:+ str_exn e) (Some e)),
   emit (Log ERROR ("Failed to create final PDF: " +:+ str_exn e)) s).

(** The letters of the alphabetical numbering style, in order. *)
Definition alphabet : string := "ABCDEFGHIJKLMNOPQRSTUVWXYZ".

(** A step that leaves the file system alone. *)
Definition same_files {D : Type} (s s' : State D) : Prop :=
  files s' = files s.

#[global] Instance same_files_preorder {D} : PreOrder (@same_files D).
Proof. split; [intros s | intros s1 s2 s3]; unfold same_files; congruence. Qed.

(** What [validate_appendices] finds out about one candidate: no path is
    given, the file is missing, the PDF backend fails on it, or the PDF
    backend reports on it. *)
Inductive ItemStatus : Type :=
  | NotSpecified
  | NotFound (p : path)
  | Unreadable (e : Exn)
  | Validated (r : ValidationResult).

Definition item_status {D : Type} (env : Env) (s : State D)
    (a : AppendixData) : ItemStatus :=
  if falsy_path (data_path a) then NotSpecified
  else
    let p := default [] (data_path a) in
    if bool_decide (p ∈ files s) then
      match (validate_pdf_file env p s).1 with
      | Return r => Validated r
      | Raise e => Unreadable e
      end
    else NotFound p.

(** The entries the specification asks for, for the candidate at index [i]:
    one error for a missing file, one for a page count that is not positive,
    one for an oversize file, one line per warning of the backend; and the
    one entry the code adds when the backend fails on the file. *)
Definition item_entries (env : Env) (i : nat) (st : ItemStatus)
    : list string :=
  match st with
  | NotSpecified => [appendix_id i +:+ ": No PDF file specified"]
  | NotFound p => [appendix_id i +:+ ": PDF file not found: " +:+ path_str p]
  | Unreadable e =>
      [appendix_id i +:+ ": PDF validation failed: " +:+ str_exn e]
  | Validated r =>
      (if bool_decide (info_page_count r ≤ 0)
       then [appendix_id i +:+ ": PDF has no pages"] else []) ++
      (if size_mb_gt (size_bytes r) (max_size_mb env)
       then [appendix_id i +:+ ": File too large (" +:+
             fmt_mb_1f (size_bytes r) +:+ "MB > " +:+
             pretty (max_size_mb env) +:+ "MB)"]
       else []) ++
      ((λ warning, appendix_id i +:+ ": " +:+ warning) <$> warnings r)
  end.

(** The whole list: the entries of each candidate, in order. *)
Definition expected_errors {D : Type} (env : Env) (s : State D)
    (l : list AppendixData) : list string :=
  mjoin (imap (λ i a, item_entries env i (item_status env s a)) l).

(** The number of candidates of each kind, and of warnings. *)
Definition is_missing (st : ItemStatus) : bool :=
  match st with NotSpecified | NotFound _ => true | _ => false end.
Definition is_unreadable (st : ItemStatus) : bool :=
  match st with Unreadable _ => true | _ => false end.
Definition has_no_pages (st : ItemStatus) : bool :=
  match st with
  | Validated r => bool_decide (info_page_count r ≤ 0)
  | _ => false
  end.
Definition is_oversize (env : Env) (st : ItemStatus) : bool :=
  match st with
  | Validated r => size_mb_gt (size_bytes r) (max_size_mb env)
  | _ => false
  end.
Definition warning_count (st : ItemStatus) : nat :=
  match st with Validated r => length (warnings r) | _ => O end.
Definition count_of (f : ItemStatus → bool) (sts : list ItemStatus) : nat :=
  length (filter (λ st, f st = true) sts).

(** The state after one best-effort deletion of [f]: the file is gone, or
    the failure (of the check that it is there, or of the deletion) is
    logged under [label], or nothing was there. *)
Definition after_delete {D : Type} (env : Env) (label : string) (f : path)
    (s : State D) : State D :=
  match exists_error env f with
  | Some e =>
      emit (Log WARNING (label +:+ path_str f +:+ ": " +:+ str_exn e)) s
  | None =>
      if bool_decide (f ∈ files s) then
        match unlink_error env f with
        | Some e =>
            emit (Log WARNING (label +:+ path_str f +:+ ": " +:+ str_exn e))
              s
        | None => set_files (files s ∖ {[f]}) s
        end
      else s
  end.

(** The state after the best-effort deletion of each file of [l] in turn. *)
Definition delete_all {D : Type} (env : Env) (label : string)
    (l : list path) (s : State D) : State D :=
  foldl (λ s f, after_delete env label f s) s l.

(** The state after the handler forgot its temporary directory: removed as
    far as it can be, if there was one and it was there. *)
Definition after_rmtree {D : Type} (env : Env) (s : State D) : State D :=
  match temp_dir s with
  | Some (c :: d) =>
      if bool_decide (c :: d ∈ files s) then
        emit (Log DEBUG ("Cleaned up temp directory: " +:+ path_str (c :: d)))
          (set_files (filter (λ p, ¬ (c :: d) `prefix_of` p
                                   ∨ stuck env (files s) p) (files s)) s)
      else s
  | _ => s
  end.

(** The error of the check that the handler's temporary directory is
    there, if that check is made and raises: the handler's
    [cleanup_temp_files] then logs it and leaves its fields as they are. *)
Definition dir_check_error {D : Type} (env : Env) (s : State D)
    : option Exn :=
  match temp_dir s with
  | Some (c :: d) => exists_error env (c :: d)
  | _ => None
  end.

(** The state after the handler's [cleanup_temp_files]. *)
Definition after_handler {D : Type} (env : Env) (s : State D) : State D :=
  let s1 := delete_all env "Could not remove temp file " (_temp_files s) s in
  match dir_check_error env s with
  | Some e =>
      emit (Log ERROR ("Error during temp file cleanup: " +:+ str_exn e)) s1
  | None => set_temp_dir None (set__temp_files [] (after_rmtree env s1))
  end.

(** A candidate of [validate_appendices] whose path can be checked:
    [exists] does not raise on it. *)
Definition checkable (env : Env) (a : AppendixData) : Prop :=
  falsy_path (data_path a) = false →
  exists_error env (default [] (data_path a)) = None.

(** ** A concrete session *)

Module Fixture.
Definition env : Env :=
  {| settings := None;
     home := ["home"; "user"];
     PYPDF_AVAILABLE := true;
     PYMUPDF_AVAILABLE := false;
     st_size := λ _, 2048;
     open_pdf := λ _, Return (3, false);
     append_error := λ _, None;
     write_error := λ _, None;
     copy_error := λ _ _, None;
     unlink_error := λ _, None;
     mkdtemp := λ _, Return ["tmp"; "word_appendix_0"];
     exists_error := λ _, None |}.

(** A document opened through COM automation from [/work/report.docx]. *)
Definition wm : WordManager :=
  {| active_document := Some [];
     document_path := Some ["work"; "report.docx"];
     document_name := "report.docx";
     com_available := true |}.

Definition a_pdf : path := ["work"; "a.pdf"].
Definition b_pdf : path := ["work"; "b.pdf"].
Definition fs : gset path := {[ a_pdf; b_pdf ]}.

(** Two appendices, of 3 and of 5 pages. *)
Definition appendix_a : AppendixData :=
  {| data_path := Some a_pdf;
     data_title := Some "Appendix A";
     data_page_count := Some 3 |}.
Definition appendix_b : AppendixData :=
  {| data_path := Some b_pdf;
     data_title := Some "Appendix B";
     data_page_count := Some 5 |}.
(** An appendix whose file is not there. *)
Definition appendix_gone : AppendixData :=
  {| data_path := Some ["work"; "gone.pdf"];
     data_title := Some "Appendix C";
     data_page_count := Some 2 |}.

(** The exported PDF of this session, and an environment in which it cannot
    be deleted (it is still open in a viewer, say). *)
Definition temp_pdf : path := ["tmp"; "word_appendix_0"; "word_document.pdf"].
Definition locked_env : Env :=
  {| settings := None;
     home := ["home"; "user"];
     PYPDF_AVAILABLE := true;
     PYMUPDF_AVAILABLE := false;
     st_size := λ _, 2048;
     open_pdf := λ _, Return (3, false);
     append_error := λ _, None;
     write_error := λ _, None;
     copy_error := λ _ _, None;
     unlink_error := λ p,
       if decide (p = temp_pdf) then
         Some (MkExn (BuiltinError "PermissionError")
                 "[Errno 13] Permission denied" None)
       else None;
     mkdtemp := λ _, Return ["tmp"; "word_appendix_0"];
     exists_error := λ _, None |}.

(** An environment in which [a.pdf] is there but is no PDF the library can
    read. *)
Definition corrupt_env : Env :=
  {| settings := None;
     home := ["home"; "user"];
     PYPDF_AVAILABLE := true;
     PYMUPDF_AVAILABLE := false;
     st_size := λ _, 2048;
     open_pdf := λ _, Return (3, false);
     append_error := λ p,
       if decide (p = a_pdf) then
         Some (MkExn (BuiltinError "PdfReadError") "EOF marker not found" None)
       else None;
     write_error := λ _, None;
     copy_error := λ _ _, None;
     unlink_error := λ _, None;
     mkdtemp := λ _, Return ["tmp"; "word_appendix_0"];
     exists_error := λ _, None |}.

(** An environment in which the PDF library cannot open [a.pdf]. *)
Definition unreadable_env : Env :=
  {| settings := None;
     home := ["home"; "user"];
     PYPDF_AVAILABLE := true;
     PYMUPDF_AVAILABLE := false;
     st_size := λ _, 2048;
     open_pdf := λ p,
       if decide (p = a_pdf) then
         Raise (MkExn (BuiltinError "PdfReadError") "EOF marker not found"
                  None)
       else Return (3, false);
     append_error := λ _, None;
     write_error := λ _, None;
     copy_error := λ _ _, None;
     unlink_error := λ _, None;
     mkdtemp := λ _, Return ["tmp"; "word_appendix_0"];
     exists_error := λ _, None |}.

(** An environment in which the folder [/vault] may not be searched: [stat]
    on a path in it fails with a permission error. *)
Definition vault_pdf : path := ["vault"; "c.pdf"].
Definition permission_denied : Exn :=
  MkExn (BuiltinError "PermissionError") "[Errno 13] Permission denied" None.
Definition vault_env : Env :=
  {| settings := None;
     home := ["home"; "user"];
     PYPDF_AVAILABLE := true;
     PYMUPDF_AVAILABLE := false;
     st_size := λ _, 2048;
     open_pdf := λ _, Return (3, false);
     append_error := λ _, None;
     write_error := λ _, None;
     copy_error := λ _ _, None;
     unlink_error := λ _, None;
     mkdtemp := λ _, Return ["tmp"; "word_appendix_0"];
     exists_error := λ p,
       if decide (["vault"] `prefix_of` p) then Some permission_denied
       else None |}.
(** An appendix in that folder. *)
Definition appendix_vault : AppendixData :=
  {| data_path := Some vault_pdf;
     data_title := Some "Appendix C";
     data_page_count := Some 2 |}.

Definition s0 : State WordManager := init wm fs.
Definition s1 : State WordManager := (add_appendix env appendix_a s0).2.
Definition s2 : State WordManager := (add_appendix env appendix_b s1).2.

(** The session after [create_final_pdf], with and without the locked
    export. *)
Definition exported : State WordManager := (create_final_pdf env None s2).2.
Definition exported_locked : State WordManager :=
  (create_final_pdf locked_env None s2).2.
End Fixture.

(** ** More of the coordinator and of the document backend *)

(** The dict [get_processing_summary] returns. *)
Record ProcessingSummary : Type := {
  appendices_count : nat;
  total_pages : Z;
  appendices_info : list AppendixInfo
}.

(** [get_processing_summary]. *)
Definition get_processing_summary {D : Type} (s : State D)
    : ProcessingSummary :=
  {| appendices_count := length (appendices_added s);
     total_pages := foldr Z.add 0 (page_count <$> appendices_added s);
     appendices_info := appendices_added s |}.

(** [WordManager.close]. *)
Definition close (wm : WordManager) : WordManager :=
  {| active_document := None;
     document_path := None;
     document_name := document_name wm;
     com_available := com_available wm |}.

(** The number of page breaks in a document. *)
Definition is_page_break (e : DocElement) : bool :=
  match e with PageBreak => true | _ => false end.

Definition page_breaks (doc : list DocElement) : nat :=
  length (filter (λ e, is_page_break e = true) doc).

(** The headings and typed titles of a document, in order. *)
Definition titles_of (doc : list DocElement) : list string :=
  omap (λ e, match e with
             | Heading t _ | TypedText t _ => Some t
             | _ => None
             end) doc.

(** The start page [_calculate_start_page] would give to the next
    appendix. *)
Definition next_start_page (l : list AppendixInfo) : Z :=
  match last l with None => 10 | Some r => end_page r + 1 end.

(** The next start page is page 10 plus the pages tracked so far. *)
Definition pages_add_up (l : list AppendixInfo) : Prop :=
  next_start_page l = 10 + foldr Z.add 0 (page_count <$> l).

(** A step keeps that. *)
Definition keeps_total {D : Type} (s s' : State D) : Prop :=
  pages_add_up (appendices_added s) → pages_add_up (appendices_added s').

#[global] Instance keeps_total_preorder {D} : PreOrder (@keeps_total D).
Proof. split; [intros s | intros s1 s2 s3]; unfold keeps_total; tauto. Qed.

(** A step that leaves the document backend alone. *)
Definition same_word_manager {D : Type} (s s' : State D) : Prop :=
  word_manager s' = word_manager s.

#[global] Instance same_word_manager_preorder {D} :
  PreOrder (@same_word_manager D).
Proof.
  split; [intros s | intros s1 s2 s3]; unfold same_word_manager; congruence.
Qed.

(** [self.word_manager.close()], on the backend the coordinator holds. *)
Definition close_word_manager : @Py.M (State WordManager) unit :=
  Py.modify (λ s, set_word_manager (close (word_manager s)) s).

(** A document opened through python-docx from [/work/report.docx]. *)
Definition docx_word_manager : WordManager :=
  {| active_document := Some [Paragraph];
     document_path := Some ["work"; "report.docx"];
     document_name := "report.docx";
     com_available := false |}.

(** A step only adds to the file system. *)
Definition files_grow {D : Type} (s s' : State D) : Prop :=
  files s ⊆ files s'.

#[global] Instance files_grow_preorder {D} : PreOrder (@files_grow D).
Proof.
  split; [intros s | intros s1 s2 s3]; unfold files_grow; set_solver.
Qed.

(** ** The controller ([gui/controller.py]) *)

(** An entry of [AppController.appendix_data]: the keys the controller and
    the worker read.  As in [ValidationResult], ['size_mb'] is kept as the
    byte count. *)
Record AppendixEntry : Type := {
  entry_path : path;
  entry_title : string;
  entry_page_count : Z;
  entry_size_bytes : Z;
  entry_valid : bool;
  entry_warnings : list string
}.

(** [appendix['title'] = t]. *)
Definition with_title (t : string) (e : AppendixEntry) : AppendixEntry :=
  {| entry_path := entry_path e;
     entry_title := t;
     entry_page_count := entry_page_count e;
     entry_size_bytes := entry_size_bytes e;
     entry_valid := entry_valid e;
     entry_warnings := entry_warnings e |}.

(** What [add_appendix] reads of an entry it is handed. *)
Definition to_appendix_data (e : AppendixEntry) : AppendixData :=
  {| data_path := Some (entry_path e);
     data_title := Some (entry_title e);
     data_page_count := Some (entry_page_count e) |}.

(** The calls into the main window. *)
Inductive UiCall : Type :=
  | ShowProgress (message : string) (percent : Z)
  | HideProgress
  | SetAppendixData (data : list AppendixEntry)
  | ShowMessage (caption text kind : string).

(** The controller: its PDF handler, with the logger and the file system
    ([core]); its list of appendices; the numbering style the main window
    reports; and the calls made into the main window. *)
Record AppController (D : Type) : Type := MkAppController {
  core : State D;
  appendix_data : list AppendixEntry;
  numbering_style : string;
  window : list UiCall
}.
Arguments MkAppController {D}.
Arguments core {D}.
Arguments appendix_data {D}.
Arguments numbering_style {D}.
Arguments window {D}.

(** The line feed of ["...\n..."]. *)
Definition newline : string := String (Ascii.ascii_of_nat 10) "".

(** [needle in s], for strings. *)
Fixpoint contains (needle s : string) : bool :=
  String.prefix needle s
  || match s with
     | EmptyString => false
     | String _ rest => contains needle rest
     end.

Section Controller.
Context {D : Type} (env : Env).
(** [str.lower]. *)
Context (str_lower : string → string).
Implicit Types (c : AppController D).

(** A method of the PDF handler or of the logger, run by the controller. *)
Definition in_core {A} (m : @Py.M (State D) A) : @Py.M (AppController D) A :=
  λ c, let '(o, s) := m (core c) in
       (o, MkAppController s (appendix_data c) (numbering_style c)
             (window c)).

(** A call into the main window. *)
Definition ui (u : UiCall) : @Py.M (AppController D) unit :=
  Py.modify (λ c, MkAppController (core c) (appendix_data c)
                    (numbering_style c) (window c ++ [u])).

Definition set_appendix_data (l : list AppendixEntry) c : AppController D :=
  MkAppController (core c) l (numbering_style c) (window c).

(** [self._generate_appendix_title(index)]: the style is read from the main
    window. *)
Definition generate_title (index : nat) : @Py.M (AppController D) string :=
  do c <- Py.get;
  Py.ret (_generate_appendix_title (numbering_style c) index).

(** The [for i, file_path in enumerate(file_paths)] loop of
    [_process_pdf_files], from index [i] on. *)
Fixpoint process_loop (i total_files : nat) (file_paths : list path)
    (processed_files : list AppendixEntry)
    : @Py.M (AppController D) (list AppendixEntry) :=
  match file_paths with
  | [] => Py.ret processed_files
  | file_path :: rest =>
      let progress := (Z.of_nat i * 100) `div` Z.of_nat total_files in
      run ui (ShowProgress ("Processing " +:+ default "" (last file_path)
                            +:+ "...") progress);
      do processed_files' <-
        Py.try_except
          (do pdf_info <- in_core (validate_pdf_file env file_path);
           do c <- Py.get;
           do t <- generate_title (length (appendix_data c)
                                   + length processed_files);
           Py.ret (processed_files ++
                   [{| entry_path := file_path;
                       entry_title := t;
                       entry_page_count := info_page_count pdf_info;
                       entry_size_bytes := size_bytes pdf_info;
                       entry_valid := valid pdf_info;
                       entry_warnings := warnings pdf_info |}]))
          (λ e,
             run in_core (log ERROR ("Failed to process " +:+
                                     path_str file_path +:+ ": " +:+
                                     str_exn e));
             do c <- Py.get;
             do t <- generate_title (length (appendix_data c)
                                     + length processed_files);
             Py.ret (processed_files ++
                     [{| entry_path := file_path;
                         entry_title := t;
                         entry_page_count := 0;
                         entry_size_bytes := 0;
                         entry_valid := false;
                         entry_warnings :=
                           ["Processing error: " +:+ str_exn e] |}]));
      process_loop (S i) total_files rest processed_files'
  end.

(** [_process_pdf_files]. *)
Definition _process_pdf_files (file_paths : list path)
    : @Py.M (AppController D) unit :=
  Py.try_except
    (do processed_files <-
       process_loop 0 (length file_paths) file_paths [];
     run Py.modify (λ c, set_appendix_data
                           (appendix_data c ++ processed_files) c);
     do c <- Py.get;
     run ui (SetAppendixData (appendix_data c));
     run ui HideProgress;
     let valid_count :=
       length (filter (λ a, entry_valid a = true) processed_files) in
     run (if decide (valid_count = length processed_files) then
            ui (ShowMessage "Files Added"
                  ("Successfully added " +:+
                   pretty (length processed_files) +:+ " PDF files")
                  "info")
          else
            let invalid_count :=
              (length processed_files - valid_count)%nat in
            ui (ShowMessage "Files Added with Warnings"
                  ("Added " +:+ pretty (length processed_files) +:+
                   " files (" +:+ pretty invalid_count +:+
                   " with warnings)")
                  "warning"));
     in_core (log INFO ("Added " +:+ pretty (length processed_files) +:+
                        " PDF files (" +:+ pretty valid_count +:+
                        " valid)")))
    (λ e,
       run ui HideProgress;
       run in_core (log ERROR ("PDF processing failed: " +:+ str_exn e));
       ui (ShowMessage "Processing Error"
             ("Failed to process PDF files:" +:+ newline +:+ str_exn e)
             "error")).

(** The [for i, appendix in enumerate(self.appendix_data)] loop of
    [on_appendix_removed], from index [i] on. *)
Fixpoint retitle_loop (style : string) (i : nat) (data : list AppendixEntry)
    : list AppendixEntry :=
  match data with
  | [] => []
  | appendix :: rest =>
      with_title (_generate_appendix_title style i) appendix
      :: retitle_loop style (S i) rest
  end.

(** [on_appendix_removed]. *)
Definition on_appendix_removed (index : Z) : @Py.M (AppController D) unit :=
  do c <- Py.get;
  if bool_decide (0 ≤ index < Z.of_nat (length (appendix_data c))) then
    let removed_appendix := appendix_data c !! Z.to_nat index in
    run Py.modify (set_appendix_data (delete (Z.to_nat index)
                                        (appendix_data c)));
    do c1 <- Py.get;
    run Py.modify (set_appendix_data
                     (retitle_loop (numbering_style c1) 0
                        (appendix_data c1)));
    do c2 <- Py.get;
    run ui (SetAppendixData (appendix_data c2));
    in_core (log INFO ("Removed appendix: " +:+
                       default "Unknown" (entry_title <$> removed_appendix)))
  else Py.ret tt.

(** [clear_appendices]. *)
Definition clear_appendices : @Py.M (AppController D) unit :=
  run Py.modify (set_appendix_data []);
  do c <- Py.get;
  ui (SetAppendixData (appendix_data c)).

(** ['corrupted' in warning.lower() or 'error' in warning.lower()]. *)
Definition critical (warning : string) : bool :=
  contains "corrupted" (str_lower warning)
  || contains "error" (str_lower warning).

(** The loop of the controller's [_validate_appendices], with the [errors]
    collected so far; the check that the file is there is not guarded. *)
Fixpoint validate_data_loop (fs : gset path) (data : list AppendixEntry)
    (errors : list string) : Outcome (list string) :=
  match data with
  | [] => Return errors
  | appendix :: rest =>
      match exists_error env (entry_path appendix) with
      | Some e => Raise e
      | None =>
          let errors1 : list string :=
            (if negb (bool_decide (entry_path appendix ∈ fs)) then
               errors ++ [entry_title appendix +:+ ": File not found"]
             else errors) in
          let errors2 : list string :=
            (if bool_decide (entry_page_count appendix ≤ 0) then
               errors1 ++ [entry_title appendix +:+ ": Invalid page count"]
             else errors1) in
          let errors3 : list string :=
            (if size_mb_gt (entry_size_bytes appendix) (max_size_mb env) then
               errors2 ++ [entry_title appendix +:+ ": File too large (" +:+
                           fmt_mb_1f (entry_size_bytes appendix) +:+ "MB)"]
             else errors2) in
          let errors4 : list string :=
            errors3 ++
            ((λ warning, entry_title appendix +:+ ": " +:+ warning)
               <$> filter (λ warning, critical warning = true)
                     (entry_warnings appendix)) in
          validate_data_loop fs rest errors4
      end
  end.

(** The controller's [_validate_appendices]. *)
Definition _validate_appendices : @Py.M (AppController D) (list string) :=
  λ c, (validate_data_loop (files (core c)) (appendix_data c) [], c).
End Controller.

(** The titles of the controller's list are the generated ones, in order. *)
Definition well_titled {D : Type} (c : AppController D) : Prop :=
  entry_title <$> appendix_data c
  = _generate_appendix_title (numbering_style c)
      <$> seq 0 (length (appendix_data c)).

(** What [_process_pdf_files] makes of one file, given the title. *)
Definition entry_of {D : Type} (env : Env) (s : State D) (t : string)
    (file_path : path) : AppendixEntry :=
  match (validate_pdf_file env file_path s).1 with
  | Return pdf_info =>
      {| entry_path := file_path;
         entry_title := t;
         entry_page_count := info_page_count pdf_info;
         entry_size_bytes := size_bytes pdf_info;
         entry_valid := valid pdf_info;
         entry_warnings := warnings pdf_info |}
  | Raise e =>
      {| entry_path := file_path;
         entry_title := t;
         entry_page_count := 0;
         entry_size_bytes := 0;
         entry_valid := false;
         entry_warnings := ["Processing error: " +:+ str_exn e] |}
  end.

(** A controller with an empty list, on the file system of the concrete
    session. *)
Definition controller0 : AppController WordManager :=
  MkAppController Fixture.s0 [] "alphabetical" [].

(** The entries [_process_pdf_files] makes of [file_paths], the first of
    them titled as number [n]. *)
Fixpoint entries_from {D : Type} (env : Env) (s : State D) (style : string)
    (n : nat) (file_paths : list path) : list AppendixEntry :=
  match file_paths with
  | [] => []
  | file_path :: rest =>
      entry_of env s (_generate_appendix_title style n) file_path
      :: entries_from env s style (S n) rest
  end.
(** What the controller's [_validate_appendices] reports on one entry whose
    path can be checked. *)
Definition entry_errors (env : Env) (str_lower : string → string)
    (fs : gset path) (e : AppendixEntry) : list string :=
  (if bool_decide (entry_path e ∈ fs) then []
   else [entry_title e +:+ ": File not found"]) ++
  (if bool_decide (entry_page_count e ≤ 0)
   then [entry_title e +:+ ": Invalid page count"] else []) ++
  (if size_mb_gt (entry_size_bytes e) (max_size_mb env)
   then [entry_title e +:+ ": File too large (" +:+
         fmt_mb_1f (entry_size_bytes e) +:+ "MB)"]
   else []) ++
  ((λ warning, entry_title e +:+ ": " +:+ warning)
     <$> filter (λ warning, critical str_lower warning = true)
           (entry_warnings e)).

(** An entry whose path [exists] can check. *)
Definition entry_checkable (env : Env) (e : AppendixEntry) : Prop :=
  exists_error env (entry_path e) = None.

(** An entry the controller finds nothing wrong with. *)
Definition entry_ok (env : Env) (str_lower : string → string)
    (fs : gset path) (e : AppendixEntry) : Prop :=
  entry_path e ∈ fs ∧ 0 < entry_page_count e
  ∧ size_mb_gt (entry_size_bytes e) (max_size_mb env) = false
  ∧ Forall (λ w, critical str_lower w = false) (entry_warnings e).

(** [str.lower] on the letters A to Z; enough for the concrete session. *)
Fixpoint ascii_lower (s : string) : string :=
  match s with
  | EmptyString => EmptyString
  | String a rest =>
      let n := Ascii.nat_of_ascii a in
      String (if bool_decide (65 ≤ n ≤ 90)%nat
              then Ascii.ascii_of_nat (n + 32) else a)
             (ascii_lower rest)
  end.

(** ** The processing worker ([gui/controller.py]) *)

(** The methods of [WordManager] the worker calls besides those the
    coordinator calls.  What they do to the backend and to the file system,
    and whether they return or raise, is left open. *)
Class WorkerBackend (D : Type) : Type := {
  (** [WordManager(self.settings)] *)
  new_word_manager : Outcome D;
  open_document : path → D → gset path → Outcome bool * (D * gset path);
  select_open_document : Z → D → gset path → Outcome bool * (D * gset path);
  create_backup : D → gset path → Outcome path * (D * gset path);
  save_document : D → gset path → Outcome bool * (D * gset path);
  (** [word_manager.document_path] *)
  document_path_of : D → option path
}.

(** The [document_info] dict: the keys the worker reads. *)
Record DocumentInfo : Type := {
  doc_source : option string;
  doc_path : option path;
  doc_index : option Z
}.

(** The [result] dict of [processing_completed]. *)
Record ProcessingResult : Type := {
  result_success : bool;
  result_document_path : string;
  result_backup_path : option path;
  result_output_pdf : option path;
  result_appendices_added : nat
}.

(** What the worker does to the outside, in order: the signals it emits,
    what it prints, and its calls into the rest of the [WordManager]. *)
Inductive WorkerEvent : Type :=
  | progress_updated (message : string) (percentage : Z)
  | processing_completed (result : ProcessingResult)
  | processing_failed (error_message : string)
  | print (text : string)
  | OpenDocument (p : path)
  | SelectOpenDocument (index : Z)
  | CreateBackup
  | SaveDocument.

(** The worker: the managers it creates, with the file system and the log;
    the record of what it did; and how often it has read [should_stop]. *)
Record Worker (D : Type) : Type := MkWorker {
  managers : State D;
  trace : list WorkerEvent;
  reads : nat
}.
Arguments MkWorker {D}.
Arguments managers {D}.
Arguments trace {D}.
Arguments reads {D}.

(** What the worker is started with.  [should_stop] is set by another
    thread and never reset: [stop_after] is the number of reads that still
    find it unset, if it is set at all. *)
Record WorkerEnv : Type := {
  document_info : DocumentInfo;
  worker_data : list AppendixEntry;
  auto_backup_enabled : bool;
  stop_after : option nat
}.

(** [str(b)] for a bool. *)
Definition str_bool (b : bool) : string := if b then "True" else "False".

Section ProcessingWorker.
Context {D : Type} `{!DocumentBackend D} `{!WorkerBackend D}.
Context (env : Env) (wenv : WorkerEnv).

(** A method of one of the managers, run by the worker. *)
Definition in_managers {A} (m : @Py.M (State D) A) : @Py.M (Worker D) A :=
  λ w, let '(o, s) := m (managers w) in (o, MkWorker s (trace w) (reads w)).

Definition record (e : WorkerEvent) : @Py.M (Worker D) unit :=
  Py.modify (λ w, MkWorker (managers w) (trace w ++ [e]) (reads w)).

(** Reading [self.should_stop]. *)
Definition should_stop : @Py.M (Worker D) bool :=
  λ w, (Return match stop_after wenv with
               | Some k => bool_decide (k ≤ reads w)%nat
               | None => false
               end,
        MkWorker (managers w) (trace w) (S (reads w))).

(** A method of the [WordManager] that may touch the file system. *)
Definition call_backend {A}
    (f : D → gset path → Outcome A * (D * gset path))
    : @Py.M (State D) A :=
  λ s, let '(o, (wm, fs)) := f (word_manager s) (files s) in
       (o, set_files fs (set_word_manager wm s)).

(** [PDFHandler(self.settings)]. *)
Definition new_pdf_handler : @Py.M (State D) unit :=
  if negb (PYMUPDF_AVAILABLE env) && negb (PYPDF_AVAILABLE env) then
    Py.raise (MkExn PDFError
                "No PDF processing library available. Install PyMuPDF or pypdf."
                None)
  else
    log INFO ("PDFHandler initialized - PyMuPDF: " +:+
              str_bool (PYMUPDF_AVAILABLE env) +:+ ", pypdf: " +:+
              str_bool (PYPDF_AVAILABLE env)).

(** The [for i, appendix in enumerate(self.appendix_data)] loop of
    [process], from index [i] on. *)
Fixpoint process_appendices (i total_appendices : nat)
    (data : list AppendixEntry) : @Py.M (Worker D) unit :=
  match data with
  | [] => Py.ret tt
  | appendix :: rest =>
      do stop <- should_stop;
      if stop : bool then Py.ret tt
      else
        let progress :=
          30 + (Z.of_nat i * 50) `div` Z.of_nat total_appendices in
        run record (progress_updated
                      ("Adding " +:+ entry_title appendix +:+ "...")
                      progress);
        run in_managers (add_appendix env (to_appendix_data appendix));
        process_appendices (S i) total_appendices rest
  end.

(** [process], after the loop. *)
Definition finish (backup_path : option path) : @Py.M (Worker D) unit :=
  do stop <- should_stop;
  if stop : bool then Py.ret tt
  else
    run record (progress_updated "Finalizing document..." 90);
    run record SaveDocument;
    run in_managers (call_backend save_document);
    run record (progress_updated "Exporting to PDF..." 95);
    do output_path <-
      Py.try_except
        (do p <- in_managers (create_final_pdf env None);
         Py.ret (Some p))
        (λ e,
           run record (print ("Warning: PDF export failed: " +:+ str_exn e));
           Py.ret None);
    run record (progress_updated "Complete!" 100);
    do w <- Py.get;
    record (processing_completed
              {| result_success := true;
                 result_document_path :=
                   match document_path_of (word_manager (managers w)) with
                   | Some p => path_str p
                   | None => ""
                   end;
                 result_backup_path := backup_path;
                 result_output_pdf := output_path;
                 result_appendices_added := length (worker_data wenv) |}).

(** [process], once the [WordManager] is there and up to the loop: the
    other managers, the document, the backup.  It returns the
    [backup_path]. *)
Definition prepare : @Py.M (Worker D) (option path) :=
  run in_managers new_pdf_handler;
  run in_managers (log INFO "Appendix manager initialized");
  run record (progress_updated "Opening document..." 10);
  do success <-
    (if decide (doc_source (document_info wenv) = Some "file") then
       match doc_path (document_info wenv) with
       | Some p =>
           run record (OpenDocument p);
           in_managers (call_backend (open_document p))
       | None => Py.raise (MkExn (BuiltinError "KeyError") "'path'" None)
       end
     else
       match doc_index (document_info wenv) with
       | Some i =>
           run record (SelectOpenDocument i);
           in_managers (call_backend (select_open_document i))
       | None => Py.raise (MkExn (BuiltinError "KeyError") "'index'" None)
       end);
  if negb success then
    Py.raise (MkExn WordDocumentError "Failed to open document" None)
  else
    run record (progress_updated "Creating backup..." 20);
    do backup_path <-
      (if bool_decide (is_Some (settings env)) && auto_backup_enabled wenv
       then
         run record CreateBackup;
         do p <- in_managers (call_backend create_backup);
         Py.ret (Some p)
       else Py.ret None);
    run record (progress_updated "Processing appendices..." 30);
    Py.ret backup_path.

(** [process], once the [WordManager] is there. *)
Definition process_with : @Py.M (Worker D) unit :=
  Py.try_except
    (do backup_path <- prepare;
     run process_appendices 0 (length (worker_data wenv))
           (worker_data wenv);
     finish backup_path)
    (λ e, record (processing_failed ("Processing failed: " +:+ str_exn e))).

(** [process], on the file system [fs]: what the worker did, and the
    managers as it leaves them, if it got as far as making them. *)
Definition process (fs : gset path) : list WorkerEvent * option (State D) :=
  let started := [progress_updated "Initializing..." 0] in
  match new_word_manager with
  | Raise e =>
      (started ++ [processing_failed ("Processing failed: " +:+ str_exn e)],
       None)
  | Return wm =>
      let w := (process_with (MkWorker (MkState [] [] None [] wm fs [])
                                started 0)).2 in
      (trace w, Some (managers w))
  end.
End ProcessingWorker.

(** The signals that end a run. *)
Definition is_terminal (e : WorkerEvent) : bool :=
  match e with
  | processing_completed _ | processing_failed _ => true
  | _ => false
  end.

(** The percentages of the progress signals, in order. *)
Definition percentages (t : list WorkerEvent) : list Z :=
  omap (λ e, match e with
             | progress_updated _ p => Some p
             | _ => None
             end) t.

(** A step of the worker that emits no signal that ends a run. *)
Definition quiet {D : Type} (w w' : Worker D) : Prop :=
  ∃ new, trace w' = trace w ++ new
         ∧ filter (λ e, is_terminal e = true) new = [].

#[global] Instance quiet_preorder {D} : PreOrder (@quiet D).
Proof.
  split.
  - intros w. exists []. by rewrite app_nil_r.
  - intros w1 w2 w3 (n1 & H1 & P1) (n2 & H2 & P2). exists (n1 ++ n2).
    rewrite H2, H1, <-app_assoc. split; [done|].
    by rewrite filter_app, P1, P2.
Qed.

(** The worker after it reported the failure [e]. *)
Definition failed_with {D : Type} (e : Exn) (w : Worker D) : Worker D :=
  MkWorker (managers w)
    (trace w ++ [processing_failed ("Processing failed: " +:+ str_exn e)])
    (reads w).

(** Adding the entries one after the other until one raises: the error,
    if any, and the managers then. *)
Fixpoint add_each {D : Type} `{!DocumentBackend D} (env : Env)
    (data : list AppendixEntry) (s : State D) : option Exn * State D :=
  match data with
  | [] => (None, s)
  | appendix :: rest =>
      match add_appendix env (to_appendix_data appendix) s with
      | (Raise e, s') => (Some e, s')
      | (Return _, s') => add_each env rest s'
      end
  end.

(** The entries [add_each] gets to: all of them, or those up to the first
    that raises. *)
Fixpoint attempted {D : Type} `{!DocumentBackend D} (env : Env)
    (data : list AppendixEntry) (s : State D) : list AppendixEntry :=
  match data with
  | [] => []
  | appendix :: rest =>
      appendix ::
      match add_appendix env (to_appendix_data appendix) s with
      | (Raise e, s') => []
      | (Return _, s') => attempted env rest s'
      end
  end.

(** The progress signals of the loop for the entries [l], the first of
    them at index [i]. *)
Fixpoint adding_signals (i total_appendices : nat) (l : list AppendixEntry)
    : list WorkerEvent :=
  match l with
  | [] => []
  | appendix :: rest =>
      progress_updated ("Adding " +:+ entry_title appendix +:+ "...")
        (30 + (Z.of_nat i * 50) `div` Z.of_nat total_appendices)
      :: adding_signals (S i) total_appendices rest
  end.

(** A backend whose other methods all succeed and change nothing but the
    document that is open: enough to run the worker on the concrete
    session. *)
#[global] Instance plain_worker_backend : WorkerBackend WordManager := {
  new_word_manager := Return Fixture.wm;
  open_document := λ p wm fs, (Return true, (wm, fs));
  select_open_document := λ i wm fs, (Return true, (wm, fs));
  create_backup := λ wm fs, (Return ["backup.docx"], (wm, fs));
  save_document := λ wm fs, (Return true, (wm, fs));
  document_path_of := document_path
}.

Definition worker_env (data : list AppendixEntry) (stop : option nat)
    : WorkerEnv :=
  {| document_info := {| doc_source := Some "file";
                         doc_path := Some ["work"; "report.docx"];
                         doc_index := None |};
     worker_data := data;
     auto_backup_enabled := true;
     stop_after := stop |}.

(** The two files of the concrete session, as the controller lists them,
    and a third that is not there. *)
Definition entry_a : AppendixEntry :=
  {| entry_path := Fixture.a_pdf; entry_title := "Appendix A";
     entry_page_count := 3; entry_size_bytes := 2048; entry_valid := true;
     entry_warnings := [] |}.
Definition entry_b : AppendixEntry :=
  {| entry_path := Fixture.b_pdf; entry_title := "Appendix B";
     entry_page_count := 5; entry_size_bytes := 2048; entry_valid := true;
     entry_warnings := [] |}.
Definition entry_gone : AppendixEntry :=
  {| entry_path := ["work"; "gone.pdf"]; entry_title := "Appendix C";
     entry_page_count := 2; entry_size_bytes := 2048; entry_valid := true;
     entry_warnings := [] |}.

(** A list of percentages that never goes down. *)
Definition climbing (l : list Z) : Prop :=
  ∀ i j x y, l !! i = Some x → l !! j = Some y → (i ≤ j)%nat → x ≤ y.

(** The progress reported so far never went down and lies between 0 and
    [b]. *)
Definition progress_upto {D : Type} (b : Z) (w : Worker D) : Prop :=
  climbing (percentages (trace w))
  ∧ Forall (λ p, 0 ≤ p ≤ b) (percentages (trace w)).

(** From a state with [P], the computation ends in a state with [Q],
    whether it returns or raises. *)
Definition leads {S A : Type} (P : S → Prop) (m : @Py.M S A) (Q : S → Prop)
    : Prop :=
  ∀ s, P s → Q (m s).2.

(** * Properties *)

(** ** The monad *)

Ltac py_unfold :=
  unfold Py.bind, Py.try_except, Py.try_finally, Py.ret, Py.raise, Py.get,
    Py.modify, log, path_exists, Path_exists in *.

Section Frames.
Context {S : Type} (R : relation S) `{!PreOrder R}.

Lemma preserves_ret {A} (a : A) : preserves R (Py.ret a).
Proof. intros s. reflexivity. Qed.

Lemma preserves_raise {A} e : preserves R (@Py.raise S A e).
Proof. intros s. reflexivity. Qed.

Lemma preserves_get : preserves R (@Py.get S).
Proof. intros s. reflexivity. Qed.

Lemma preserves_modify f : (∀ s, R s (f s)) → preserves R (Py.modify f).
Proof. intros Hf s. apply Hf. Qed.

Lemma preserves_bind {A B} (m : Py.M A) (k : A → Py.M B) :
  preserves R m → (∀ a, preserves R (k a)) → preserves R (Py.bind m k).
Proof.
  intros Hm Hk s. unfold Py.bind. specialize (Hm s).
  destruct (m s) as [[a|e] s']; simpl in *; [|done].
  etrans; [exact Hm|apply Hk].
Qed.

Lemma preserves_try_except {A} (m : Py.M A) (h : Exn → Py.M A) :
  preserves R m → (∀ e, preserves R (h e)) →
  preserves R (Py.try_except m h).
Proof.
  intros Hm Hh s. unfold Py.try_except. specialize (Hm s).
  destruct (m s) as [[a|e] s']; simpl in *; [done|].
  etrans; [exact Hm|apply Hh].
Qed.

Lemma preserves_try_finally {A} (m : Py.M A) (f : S → S) :
  preserves R m → (∀ s, R s (f s)) → preserves R (Py.try_finally m f).
Proof.
  intros Hm Hf s. unfold Py.try_finally. specialize (Hm s).
  destruct (m s) as [o s']; simpl in *. etrans; [exact Hm|apply Hf].
Qed.

Lemma preserves_pure {A} (f : S → Outcome A) : preserves R (λ s, (f s, s)).
Proof. intros s. reflexivity. Qed.
End Frames.

(** ** [add_appendix] *)

Section AddAppendix.
Context {D : Type} `{!DocumentBackend D} (env : Env).
Implicit Types (a : AppendixData) (s : State D).

(** The five ways a call can go. *)
Lemma add_appendix_cases a s :
  let o := (add_appendix env a s).1 in
  let s' := (add_appendix env a s).2 in
  (source_missing a s ∧ raises_class o AppendixError ∧
   appendices_added s' = appendices_added s)
  ∨ (¬ source_missing a s ∧ default 0 (data_page_count a) ≤ 0 ∧
     raises_class o AppendixError ∧
     appendices_added s' = appendices_added s)
  ∨ (¬ source_missing a s ∧ 0 < default 0 (data_page_count a) ∧
     (∃ e, backend_outcome env a s = Raise e) ∧
     raises_class o AppendixError ∧
     appendices_added s' = appendices_added s)
  ∨ (¬ source_missing a s ∧ 0 < default 0 (data_page_count a) ∧
     backend_outcome env a s = Return false ∧ o = Return false ∧
     appendices_added s' = appendices_added s)
  ∨ (¬ source_missing a s ∧ 0 < default 0 (data_page_count a) ∧
     backend_outcome env a s = Return true ∧ o = Return true ∧
     appendices_added s' = appendices_added s ++ [new_record a s]).
Proof.
  unfold add_appendix, source_missing, backend_outcome, new_record,
    call_add_appendix_section, _calculate_start_page, raises_class.
  py_unfold. simpl.
  destruct (falsy_path (data_path a)) eqn:Hf; simpl.
  { left. eauto 10. }
  case_bool_decide as Hin; simpl.
  2:{ left. eauto 10. }
  assert (¬ (false = true ∨ default [] (data_path a) ∉ files s))
    by (by intros [?|?]).
  case_bool_decide as Hpc; simpl.
  { right; left. split_and!; eauto. }
  destruct (add_appendix_section _ _ _ _) as [[[|]|e] wm] eqn:Hb; simpl.
  - do 4 right. split_and!; eauto; lia.
  - do 3 right. left. split_and!; eauto; lia.
  - do 2 right. left. split_and!; eauto; lia.
Qed.
End AddAppendix.

(** ** What leaves the tracked appendices alone *)

Ltac frame_step :=
  lazymatch goal with
  | |- preserves _ (Py.ret _) => refine (preserves_ret _ _)
  | |- preserves _ (Py.raise _) => refine (preserves_raise _ _)
  | |- preserves _ Py.get => refine (preserves_get _)
  | |- preserves _ (Py.bind _ _) =>
      refine (preserves_bind _ _ _ _ _); [|intros ?]
  | |- preserves _ (Py.try_except _ _) =>
      refine (preserves_try_except _ _ _ _ _); [|intros ?]
  | |- preserves _ (Py.try_finally _ _) =>
      refine (preserves_try_finally _ _ _ _ _); [|intros ?]
  | |- preserves _ (Py.modify _) => refine (preserves_modify _ _ _); intros ?
  | |- preserves _ (log _ _) => unfold log
  | |- preserves _ (path_exists _) =>
      unfold path_exists; refine (preserves_pure _ _)
  | |- preserves _ (Path_exists _ _) =>
      unfold Path_exists; refine (preserves_pure _ _)
  | |- preserves _ (match ?x with _ => _ end) => destruct x
  | |- preserves _ (λ s, (_, s)) => refine (preserves_pure _ _)
  end.

Ltac frame_with tac :=
  repeat first [ frame_step | solve [eauto] | solve [tac] ].

Section SameAppendices.
Context {D : Type} `{!DocumentBackend D} (env : Env).

Local Ltac same := frame_with ltac:(by unfold same_appendices).

Lemma same_appendices_merge_loop l :
  preserves (@same_appendices D) (merge_loop env l).
Proof. induction l as [|p l IH]; simpl; same. Qed.

Lemma same_appendices_merge_pdfs l out :
  preserves (@same_appendices D) (merge_pdfs env l out).
Proof.
  pose proof (same_appendices_merge_loop l).
  unfold merge_pdfs, _merge_pdfs_pypdf, _merge_pdfs_pymupdf, write_output.
  same.
Qed.

Lemma same_appendices_validate_pdf_file p :
  preserves (@same_appendices D) (validate_pdf_file env p).
Proof. unfold validate_pdf_file, _get_pdf_info. same. Qed.

Lemma same_appendices_unlink p :
  preserves (@same_appendices D) (unlink env p).
Proof. unfold unlink. same. Qed.

Lemma same_appendices_remove_loop l :
  preserves (@same_appendices D) (remove_loop env l).
Proof.
  pose proof same_appendices_unlink.
  induction l as [|p l IH]; simpl; same.
Qed.

Lemma same_appendices_handler_cleanup :
  preserves (@same_appendices D) (handler_cleanup_temp_files env).
Proof.
  pose proof same_appendices_remove_loop.
  unfold handler_cleanup_temp_files, rmtree. same.
Qed.

Lemma same_appendices_create_temp_directory :
  preserves (@same_appendices D) (create_temp_directory env).
Proof. unfold create_temp_directory. same. Qed.

Lemma same_appendices_export :
  preserves (@same_appendices D) (_export_word_to_pdf env).
Proof.
  pose proof same_appendices_create_temp_directory.
  unfold _export_word_to_pdf. same.
  intros s. unfold call_export_as_pdf.
  destruct (export_as_pdf _ _ _) as [o [wm fs]]. done.
Qed.

Lemma same_appendices_replace_blank_pages w out :
  preserves (@same_appendices D) (_replace_blank_pages env w out).
Proof.
  pose proof same_appendices_merge_pdfs.
  unfold _replace_blank_pages, copy2. same.
Qed.

Lemma same_appendices_create_final_pdf out :
  preserves (@same_appendices D) (create_final_pdf env out).
Proof.
  pose proof same_appendices_export.
  pose proof same_appendices_replace_blank_pages.
  pose proof same_appendices_unlink.
  unfold create_final_pdf. same.
Qed.

Lemma same_appendices_validate_loop l i errors :
  preserves (@same_appendices D) (validate_loop env i l errors).
Proof.
  pose proof same_appendices_validate_pdf_file.
  revert i errors. induction l as [|a l IH]; intros i errors; simpl; same.
Qed.

Lemma same_appendices_unlink_loop l :
  preserves (@same_appendices D) (unlink_loop env l).
Proof.
  pose proof same_appendices_unlink.
  induction l as [|p l IH]; simpl; same.
Qed.

Lemma same_appendices_cleanup :
  preserves (@same_appendices D) (cleanup_temp_files env).
Proof.
  pose proof same_appendices_unlink_loop.
  pose proof same_appendices_handler_cleanup.
  unfold cleanup_temp_files. same.
Qed.
End SameAppendices.

(** ** The page bookkeeping *)

Lemma chained_nil : chained [].
Proof. intros i r Hi. by rewrite lookup_nil in Hi. Qed.

(** Appending a record that starts where [_calculate_start_page] says. *)
Lemma chained_snoc (l : list AppendixInfo) (r : AppendixInfo) :
  chained l →
  0 < page_count r →
  end_page r = start_page r + page_count r - 1 →
  start_page r = match last l with None => 10 | Some p => end_page p + 1 end →
  chained (l ++ [r]).
Proof.
  intros Hl Hpos Hend Hstart i x Hi.
  destruct (decide (i < length l)%nat) as [Hlt|Hge].
  - rewrite lookup_app_l in Hi by done.
    destruct (Hl i x Hi) as (H1 & H2 & H3). split_and!; [done..|].
    destruct i as [|j]; [done|].
    destruct H3 as (r' & Hj & Hs). exists r'. split; [|done].
    by apply lookup_app_l_Some.
  - rewrite lookup_app_r in Hi by lia.
    apply list_lookup_singleton_Some in Hi as [Hi ->].
    assert (i = length l) as -> by lia. split_and!; [done..|].
    destruct l as [|y l'] using rev_ind; [done|].
    rewrite last_snoc in Hstart. rewrite length_app. simpl.
    replace (length l' + 1)%nat with (S (length l')) by lia.
    exists y. split; [|done].
    rewrite lookup_app_l by (rewrite length_app; simpl; lia).
    by rewrite list_lookup_middle.
Qed.

Section Chained.
Context {D : Type} `{!DocumentBackend D} (env : Env).

Lemma same_appendices_keeps_chained {A} (m : @Py.M (State D) A) :
  preserves same_appendices m → preserves keeps_chained m.
Proof. intros H s Hc. by rewrite (H s). Qed.

Lemma keeps_chained_add_appendix a :
  preserves (@keeps_chained D) (add_appendix env a).
Proof.
  intros s Hc.
  destruct (add_appendix_cases env a s)
    as [(_&_&->)|[(_&_&_&->)|[(_&_&_&_&->)|[(_&_&_&_&->)|(_&?&_&_&->)]]]];
    try done.
  apply chained_snoc; [done|done|done|done].
Qed.

Lemma keeps_chained_add_multiple_loop l n :
  preserves (@keeps_chained D) (add_multiple_loop env l n).
Proof.
  pose proof keeps_chained_add_appendix.
  revert n. induction l as [|a l IH]; intros n; simpl;
    frame_with ltac:(by unfold keeps_chained).
Qed.

Lemma keeps_chained_add_multiple l :
  preserves (@keeps_chained D) (add_multiple_appendices env l).
Proof.
  pose proof keeps_chained_add_multiple_loop.
  unfold add_multiple_appendices.
  frame_with ltac:(by unfold keeps_chained).
Qed.

(** C1: in every state a coordinator can reach, each tracked record
    satisfies [end_page = start_page + page_count - 1] with a positive page
    count, the first record starts at the placeholder page 10 and every
    later record starts one page after the end of the record before it. *)
Theorem appendices_chained (s : State D) :
  reachable env s → chained (appendices_added s).
Proof.
  induction 1 as [wm fs|a s _ IH|l s _ IH|l s _ IH|out s _ IH|s _ IH|s _ IH].
  - apply chained_nil.
  - exact (keeps_chained_add_appendix a s IH).
  - exact (keeps_chained_add_multiple l s IH).
  - exact (same_appendices_keeps_chained _
             (same_appendices_validate_loop env l 0 []) s IH).
  - exact (same_appendices_keeps_chained _
             (same_appendices_create_final_pdf env out) s IH).
  - exact (same_appendices_keeps_chained _
             (same_appendices_cleanup env) s IH).
  - pose proof (same_appendices_cleanup (D:=D) env).
    assert (preserves (λ _ s' : State D, appendices_added s' = []) (reset env))
      as Hr; [|rewrite (Hr s); apply chained_nil].
    intros s0. unfold reset. py_unfold. simpl.
    pose proof (H (set_appendices_added [] s0)) as Hs.
    unfold same_appendices in Hs. simpl in Hs.
    destruct (cleanup_temp_files env (set_appendices_added [] s0))
      as [[[]|e] s1]; simpl in *; done.
Qed.
End Chained.

(** ** Outcomes of [add_appendix] and [add_multiple_appendices] *)

Section AddOutcomes.
Context {D : Type} `{!DocumentBackend D} (env : Env).
Implicit Types (a : AppendixData) (s : State D).

(** C9: a call appends its record exactly when it returns true; when it
    raises or returns false the list is as before; so the length grows by
    one or stays. *)
Theorem add_appendix_appends_iff_true a s :
  appendices_added (add_appendix env a s).2 =
    (if succeeded (add_appendix env a s).1
     then appendices_added s ++ [new_record a s]
     else appendices_added s)
  ∧ (length (appendices_added s)
       ≤ length (appendices_added (add_appendix env a s).2)
       ≤ S (length (appendices_added s)))%nat.
Proof.
  destruct (add_appendix_cases env a s)
    as [(_&(e&Ho&_)&Hl)|[(_&_&(e&Ho&_)&Hl)|[(_&_&_&(e&Ho&_)&Hl)
       |[(_&_&_&Ho&Hl)|(_&_&_&Ho&Hl)]]]];
    rewrite Hl, Ho; simpl; (split; [done|]);
    rewrite ?length_app; simpl; lia.
Qed.

(** C6: a missing or absent source file, a page count that is not
    positive, or a raising backend call each make the call raise an
    [AppendixError]; a flag is returned only when the source file is
    there, the page count is positive and the backend call returned that
    flag. *)
Theorem add_appendix_raises_or_returns a s :
  ((source_missing a s ∨ default 0 (data_page_count a) ≤ 0 ∨
    (∃ e, backend_outcome env a s = Raise e)) →
   raises_class (add_appendix env a s).1 AppendixError)
  ∧ (∀ b, (add_appendix env a s).1 = Return b →
       ¬ source_missing a s ∧ 0 < default 0 (data_page_count a) ∧
       backend_outcome env a s = Return b).
Proof.
  destruct (add_appendix_cases env a s)
    as [(Hm&Hr&_)|[(Hm&Hpc&Hr&_)|[(Hm&Hpc&[e' Hb]&Hr&_)
       |[(Hm&Hpc&Hb&Ho&_)|(Hm&Hpc&Hb&Ho&_)]]]].
  - split; [done|]. intros b Hb. destruct Hr as (e&He&_). congruence.
  - split; [done|]. intros b Hb. destruct Hr as (e&He&_). congruence.
  - split; [done|]. intros b Hb'. destruct Hr as (e&He&_). congruence.
  - split.
    + intros [?|[?|[e He]]]; [done|lia|congruence].
    + intros b Hb'. rewrite Ho in Hb'. by simplify_eq.
  - split.
    + intros [?|[?|[e He]]]; [done|lia|congruence].
    + intros b Hb'. rewrite Ho in Hb'. by simplify_eq.
Qed.

(** Every exception [add_appendix] lets out is an [AppendixError]. *)
Lemma add_appendix_raises_only_AppendixError a s e :
  (add_appendix env a s).1 = Raise e → exn_class e = AppendixError.
Proof.
  intros He.
  destruct (add_appendix_cases env a s)
    as [(_&(e'&Ho&Hc)&_)|[(_&_&(e'&Ho&Hc)&_)|[(_&_&_&(e'&Ho&Hc)&_)
       |[(_&_&_&Ho&_)|(_&_&_&Ho&_)]]]]; congruence.
Qed.

Local Ltac grow :=
  frame_with ltac:(unfold events_grow; simpl;
                   first [done | by apply prefix_app_r]).

Lemma events_grow_call_add_appendix_section t n st :
  preserves (@events_grow D) (call_add_appendix_section t n st).
Proof.
  intros s. unfold call_add_appendix_section, events_grow.
  destruct (add_appendix_section _ _ _ _) as [o wm]. simpl.
  by apply prefix_app_r.
Qed.

Lemma events_grow_add_appendix a :
  preserves (@events_grow D) (add_appendix env a).
Proof.
  pose proof events_grow_call_add_appendix_section.
  unfold add_appendix, _calculate_start_page.
  grow.
Qed.

Lemma events_grow_add_multiple_loop l n :
  preserves (@events_grow D) (add_multiple_loop env l n).
Proof.
  pose proof events_grow_add_appendix.
  revert n. induction l as [|a l IH]; intros n; simpl;
    grow.
Qed.

(** The loop, item by item. *)
Lemma add_multiple_loop_cons a l n s :
  add_multiple_loop env (a :: l) n s =
  add_multiple_loop env l
    (if succeeded (add_appendix env a s).1 then n + 1 else n)
    (after_item a (add_appendix env a s).1 (add_appendix env a s).2).
Proof.
  simpl. py_unfold.
  destruct (add_appendix env a s) as [[[|]|e] s1]; done.
Qed.

Lemma add_multiple_loop_spec l n s :
  ∃ s', add_multiple_loop env l n s =
          (Return (n + Z.of_nat (length l)
                   - Z.of_nat (failures (item_outcomes env l s))), s')
    ∧ ∀ i a e, l !! i = Some a →
        item_outcomes env l s !! i = Some (Raise e) →
        Log ERROR ("Failed to add appendix " +:+
                   fmt_opt_string (data_title a) +:+ ": " +:+ str_exn e)
          ∈ events s'.
Proof.
  revert n s. induction l as [|a l IH]; intros n s.
  { exists s. split; [|by intros i a e Hi]. simpl. unfold Py.ret, failures.
    simpl. f_equal. f_equal. lia. }
  rewrite add_multiple_loop_cons. simpl item_outcomes.
  destruct (add_appendix env a s) as [o s1] eqn:Hadd. simpl.
  destruct (IH (if succeeded o then n + 1 else n) (after_item a o s1))
    as (s' & Hrun & Hlog).
  exists s'. split.
  - rewrite Hrun. f_equal. f_equal. unfold failures. simpl.
    rewrite filter_cons. destruct (succeeded o) eqn:Ho.
    + rewrite decide_False by done. lia.
    + rewrite decide_True by done. simpl. lia.
  - intros [|i] a' e Ha Ho; simpl in *; [|by eapply Hlog].
    simplify_eq.
    pose proof (events_grow_add_multiple_loop l
                  (if succeeded (Raise e) then n + 1 else n)
                  (after_item a' (Raise e) s1)) as Hg.
    rewrite Hrun in Hg. unfold events_grow in Hg. simpl in Hg.
    eapply elem_of_prefix; [|exact Hg]. set_solver.
Qed.

(** C2: [add_multiple_appendices] calls [add_appendix] on each item in
    order and always returns: its result is the number of items minus the
    number of calls that failed, and each call that raised is logged as an
    error. *)
Theorem add_multiple_appendices_counts l s :
  ∃ s', add_multiple_appendices env l s =
          (Return (Z.of_nat (length l)
                   - Z.of_nat (failures (item_outcomes env l s))), s')
    ∧ length (item_outcomes env l s) = length l
    ∧ ∀ i a e, l !! i = Some a →
        item_outcomes env l s !! i = Some (Raise e) →
        Log ERROR ("Failed to add appendix " +:+
                   fmt_opt_string (data_title a) +:+ ": " +:+ str_exn e)
          ∈ events s'.
Proof.
  destruct (add_multiple_loop_spec l 0 s) as (s1 & Hrun & Hlog).
  unfold add_multiple_appendices. py_unfold. rewrite Hrun.
  eexists. split_and!.
  - simpl. do 2 f_equal.
  - clear. revert s. induction l as [|a l IH]; intros s; simpl; [done|].
    destruct (add_appendix env a s) as [o s1]. simpl. by rewrite IH.
  - intros i a e Ha Ho. unfold emit. simpl.
    apply elem_of_app. left. by eapply Hlog.
Qed.
End AddOutcomes.

(** The spec's example: a 3-page and a 5-page appendix. *)
Example pages_3_and_5 :
  (λ r, (start_page r, end_page r)) <$> appendices_added Fixture.s2
  = [(10, 12); (13, 17)].
Proof. vm_compute. reflexivity. Qed.

Lemma appendices_chained_witness :
  reachable Fixture.env Fixture.s2 ∧ chained (appendices_added Fixture.s2).
Proof.
  assert (reachable Fixture.env Fixture.s2) as H.
  { apply reach_add_appendix, reach_add_appendix, reach_init. }
  split; [exact H|].
  apply (appendices_chained Fixture.env Fixture.s2 H).
Defined.

Lemma add_appendix_raises_or_returns_witness :
  source_missing Fixture.appendix_gone Fixture.s0 ∧
  raises_class (add_appendix Fixture.env Fixture.appendix_gone Fixture.s0).1
    AppendixError.
Proof.
  assert (source_missing Fixture.appendix_gone Fixture.s0) as H.
  { right. vm_compute. discriminate. }
  split; [exact H|].
  apply (add_appendix_raises_or_returns Fixture.env Fixture.appendix_gone
           Fixture.s0).
  by left.
Defined.

(** ** The default output path *)

Lemma string_app_cons (c : Ascii.ascii) (s t : string) :
  String c s +:+ t = String c (s +:+ t).
Proof. reflexivity. Qed.

Lemma string_app_nil (t : string) : "" +:+ t = t.
Proof. reflexivity. Qed.

Lemma string_length_app (s t : string) :
  String.length (s +:+ t) = (String.length s + String.length t)%nat.
Proof.
  induction s as [|c s IH]; [done|].
  rewrite string_app_cons. simpl. by rewrite IH.
Qed.

Lemma string_app_inv_tail (s1 s2 t : string) :
  s1 +:+ t = s2 +:+ t → s1 = s2.
Proof.
  revert s2. induction s1 as [|c s1 IH]; intros [|c' s2] H;
    rewrite ?string_app_cons, ?string_app_nil in H.
  - done.
  - apply (f_equal String.length) in H. simpl in H.
    rewrite string_length_app in H. lia.
  - apply (f_equal String.length) in H. simpl in H.
    rewrite string_length_app in H. lia.
  - injection H as -> H. f_equal. by apply IH.
Qed.

Lemma output_candidate_inj (env : Env) (doc_name : string) :
  Inj (=) (=) (output_candidate env doc_name).
Proof.
  intros j k H. unfold output_candidate, joinpath in H.
  apply app_inv_head in H. injection H as H.
  destruct j as [|j], k as [|k]; [done|..];
    apply (inj (String.append doc_name)) in H;
    rewrite ?string_app_cons, ?string_app_nil in H; try discriminate.
  simplify_eq. apply string_app_inv_tail in H.
  apply (inj pretty) in H. lia.
Qed.


(** What the loop returns when it starts at the [k]-th name. *)
Lemma unique_filename_loop_spec (env : Env) (doc_name : string)
    (fs : gset path) (fuel k : nat) :
  match unique_filename_loop fuel fs (joinpath (home env) "Documents")
          doc_name (output_candidate env doc_name k) (Z.of_nat k + 1) with
  | Some out =>
      ∃ k', (k ≤ k')%nat ∧ out = output_candidate env doc_name k' ∧
            (out ∉ fs) ∧
            (∀ j, (k ≤ j < k')%nat → output_candidate env doc_name j ∈ fs)
  | None =>
      ∀ j, (k ≤ j < k + fuel)%nat → output_candidate env doc_name j ∈ fs
  end.
Proof.
  revert k. induction fuel as [|fuel IH]; intros k; simpl.
  { intros j Hj. lia. }
  case_bool_decide as Hin.
  - specialize (IH (S k)).
    replace (Z.of_nat k + 1 + 1) with (Z.of_nat (S k) + 1) by lia.
    replace (joinpath (joinpath (home env) "Documents")
               (doc_name +:+ "_with_appendices_" +:+
                pretty (Z.of_nat k + 1) +:+ ".pdf"))
      with (output_candidate env doc_name (S k)) in *
      by (unfold output_candidate;
          by replace (Z.of_nat (S k)) with (Z.of_nat k + 1) by lia).
    destruct (unique_filename_loop _ _ _ _ _ _) as [out|].
    + destruct IH as (k' & Hk & -> & Hout & Hbelow).
      exists k'. split_and!; [lia|done|done|].
      intros j Hj. destruct (decide (j = k)) as [->|]; [done|].
      apply Hbelow. lia.
    + intros j Hj. destruct (decide (j = k)) as [->|]; [done|].
      apply IH. lia.
  - exists k. split_and!; [done|done|done|]. intros j Hj. lia.
Qed.

(** The [while] loop ends: a set of [n] files cannot hold [n + 1] names. *)
Lemma default_output_path_total (env : Env) (doc_info : DocInfo)
    (fs : gset path) :
  is_Some (default_output_path env doc_info fs).
Proof.
  unfold default_output_path.
  set (doc_name := stem (default "document" (info_name doc_info))).
  pose proof (unique_filename_loop_spec env doc_name fs (S (size fs)) 0)
    as H.
  simpl Z.of_nat in H. simpl Z.add in H.
  change (joinpath (joinpath (home env) "Documents")
            (doc_name +:+ "_with_appendices.pdf"))
    with (output_candidate env doc_name 0).
  destruct (unique_filename_loop _ _ _ _ _ _) as [out|]; [done|].
  exfalso.
  set (names := output_candidate env doc_name <$> seq 0 (S (size fs))).
  assert (NoDup names) as Hnd.
  { pose proof (output_candidate_inj env doc_name) as Hinj.
    apply (NoDup_fmap_2 (output_candidate env doc_name)), NoDup_seq. }
  assert (list_to_set names ⊆ fs) as Hsub.
  { intros p Hp. apply elem_of_list_to_set, list_elem_of_fmap in Hp
      as (j & -> & Hj).
    apply elem_of_seq in Hj. apply H. lia. }
  apply subseteq_size in Hsub. rewrite size_list_to_set in Hsub by done.
  unfold names in Hsub. rewrite length_fmap, length_seq in Hsub. lia.
Qed.


(** ** [merge_pdfs] and [_replace_blank_pages] *)

Section Merge.
Context {D : Type} (env : Env).
Implicit Types (s : State D) (l : list path).

Lemma no_pdf_calls_same_events s s' : events s' = events s → no_pdf_calls s s'.
Proof. intros H. exists []. by rewrite app_nil_r. Qed.

Lemma merge_loop_run l s :
  merge_loop env l s =
  (match merge_failure env (files s) l with
   | None => Return tt
   | Some e => Raise e
   end, s).
Proof.
  induction l as [|p l IH]; simpl; [done|]. py_unfold.
  destruct (exists_error env p); simpl; [done|].
  case_bool_decide; simpl; [|done].
  destruct (append_error env p); [done|]. apply IH.
Qed.

Lemma merge_failure_None fs l :
  merge_failure env fs l = None ↔ ∀ p, p ∈ l → appended env fs p.
Proof.
  unfold appended. induction l as [|q l IH]; simpl.
  { split; [|done]. intros _ p Hp. by apply elem_of_nil in Hp. }
  destruct (exists_error env q) eqn:Hex.
  { split; [done|]. intros H. destruct (H q) as (? & _); [left|congruence]. }
  case_bool_decide as Hq.
  - destruct (append_error env q) eqn:Hap.
    + split; [done|]. intros H.
      destruct (H q) as (_ & _ & ?); [left|congruence].
    + rewrite IH. split.
      * intros H p [->|Hp]%elem_of_cons; auto.
      * intros H p Hp. apply H. by right.
  - split; [done|]. intros H. destruct (H q) as (_ & ? & _); [left|done].
Qed.

(** The failure met at the first input the loop does not get past. *)
Lemma merge_failure_first fs before p after :
  (∀ q, q ∈ before → appended env fs q) →
  merge_failure env fs (before ++ p :: after)
  = match exists_error env p with
    | Some e => Some e
    | None =>
        if bool_decide (p ∈ fs) then
          match append_error env p with
          | Some e => Some e
          | None => merge_failure env fs after
          end
        else Some (mk_PDFNotFoundError p None)
    end.
Proof.
  induction before as [|q before IH]; intros Hb; [done|].
  destruct (Hb q) as (Hex & Hq & Hap); [left|].
  simpl. rewrite Hex, bool_decide_eq_true_2, Hap by done.
  apply IH. intros q' Hq'. apply Hb. by right.
Qed.

(** The failure met at a missing input that is reached. *)
Lemma merge_failure_missing fs before p after :
  p ∉ fs → exists_error env p = None →
  (∀ q, q ∈ before → appended env fs q) →
  merge_failure env fs (before ++ p :: after)
  = Some (mk_PDFNotFoundError p None).
Proof.
  intros Hp Hex Hb. rewrite merge_failure_first by done.
  by rewrite Hex, bool_decide_eq_false_2.
Qed.

(** The whole of [merge_pdfs] on a list that is not empty. *)
Lemma merge_pdfs_run l out s :
  l ≠ [] →
  merge_pdfs env l out s =
  let s0 := emit (Merge l out) s in
  if PYPDF_AVAILABLE env || PYMUPDF_AVAILABLE env then
    match merge_failure env (files s) l with
    | Some e =>
        (Raise (merge_error e),
         emit (Log ERROR ("PDF merge failed: " +:+ str_exn e)) s0)
    | None =>
        match write_error env out with
        | Some e =>
            (Raise (merge_error e),
             emit (Log ERROR ("PDF merge failed: " +:+ str_exn e)) s0)
        | None =>
            (Return true,
             emit (Log INFO ("Merged " +:+ pretty (length l) +:+
                             " PDFs to " +:+ path_str out))
               (set_files ({[out]} ∪ files s) s0))
        end
    end
  else
    let e := MkExn PDFError "No PDF library available for merging" None in
    (Raise (merge_error e),
     emit (Log ERROR ("PDF merge failed: " +:+ str_exn e)) s0).
Proof.
  intros Hl. destruct l as [|p l]; [done|].
  unfold merge_pdfs, _merge_pdfs_pypdf, _merge_pdfs_pymupdf, write_output.
  unfold Py.bind at 1. unfold Py.modify at 1. unfold Py.try_except.
  destruct (PYPDF_AVAILABLE env), (PYMUPDF_AVAILABLE env); simpl orb; cbv zeta;
    try (unfold Py.try_finally, Py.bind at 1;
         rewrite merge_loop_run;
         change (files (emit (Merge (p :: l) out) s)) with (files s);
         destruct (merge_failure env (files s) (p :: l)); [done|];
         destruct (write_error env out); done).
  done.
Qed.

(** What [merge_pdfs] records: its own call, then log lines only. *)
Lemma merge_pdfs_events l out s :
  ∃ logs, events (merge_pdfs env l out s).2
          = events s ++ Merge l out :: logs ∧ pdf_calls logs = [].
Proof.
  destruct (decide (l = [])) as [->|Hl].
  { exists []. done. }
  rewrite merge_pdfs_run by done. cbv zeta.
  destruct (_ || _).
  - destruct (merge_failure _ _ _); [|destruct (write_error _ _)];
      eexists [_]; simpl; by rewrite <-app_assoc.
  - eexists [_]; simpl; by rewrite <-app_assoc.
Qed.

(** C10: [merge_pdfs] raises a [PDFError] on an empty list and whenever an
    input is not there.  The loop checks and appends input by input, so the
    [PDFError] wraps the first failure it meets: with the inputs before [p]
    appended, it wraps the [PDFNotFoundError] of [p] when [p] is not there,
    the exception of the PDF library when [p] is there and cannot be
    appended, and the [OSError] of [exists] when that check itself fails on
    [p]; with every input appended it wraps the error of writing the output,
    if there is one.  It returns only [True], and only when the list is not
    empty, every input is there and the output file has been written; and
    it does return then. *)
Theorem merge_pdfs_raises_or_writes l out s :
  (l = [] → raises_class (merge_pdfs env l out s).1 PDFError)
  ∧ ((∃ p, p ∈ l ∧ p ∉ files s) →
     raises_class (merge_pdfs env l out s).1 PDFError)
  ∧ (∀ before p after cause,
       l = before ++ p :: after →
       (∀ q, q ∈ before → appended env (files s) q) →
       PYPDF_AVAILABLE env || PYMUPDF_AVAILABLE env = true →
       (exists_error env p = None ∧ (p ∉ files s)
        ∧ cause = mk_PDFNotFoundError p None)
       ∨ (exists_error env p = None ∧ p ∈ files s
          ∧ append_error env p = Some cause)
       ∨ exists_error env p = Some cause →
       ∃ e, (merge_pdfs env l out s).1 = Raise e ∧ exn_class e = PDFError
            ∧ exn_message e = "Failed to merge PDFs: " +:+ str_exn cause
            ∧ exn_context e = Some cause)
  ∧ (∀ cause,
       l ≠ [] → (∀ q, q ∈ l → appended env (files s) q) →
       PYPDF_AVAILABLE env || PYMUPDF_AVAILABLE env = true →
       write_error env out = Some cause →
       ∃ e, (merge_pdfs env l out s).1 = Raise e ∧ exn_class e = PDFError
            ∧ exn_context e = Some cause)
  ∧ (∀ b, (merge_pdfs env l out s).1 = Return b →
       b = true ∧ l ≠ [] ∧ (∀ p, p ∈ l → appended env (files s) p)
       ∧ write_error env out = None
       ∧ out ∈ files (merge_pdfs env l out s).2)
  ∧ (l ≠ [] → (∀ q, q ∈ l → appended env (files s) q) →
     PYPDF_AVAILABLE env || PYMUPDF_AVAILABLE env = true →
     write_error env out = None →
     (merge_pdfs env l out s).1 = Return true).
Proof.
  split_and!.
  - intros ->. by eexists.
  - intros (p & Hp & Hfs).
    assert (l ≠ []) as Hl by (intros ->; by apply elem_of_nil in Hp).
    rewrite merge_pdfs_run by done. cbv zeta.
    destruct (_ || _); [|by eexists].
    destruct (merge_failure env (files s) l) eqn:Hf; [by eexists|].
    rewrite merge_failure_None in Hf. by destruct (Hf p Hp) as (_ & ? & _).
  - intros before p after cause -> Hb Hlib Hcause.
    rewrite merge_pdfs_run by (by destruct before). cbv zeta.
    rewrite Hlib, merge_failure_first by done.
    destruct Hcause as [(-> & Hp & ->)|[(-> & Hp & ->)| ->]].
    + rewrite bool_decide_eq_false_2 by done. by eexists.
    + rewrite bool_decide_eq_true_2 by done. by eexists.
    + by eexists.
  - intros cause Hl Hall Hlib Hw.
    rewrite merge_pdfs_run by done. cbv zeta. rewrite Hlib.
    apply merge_failure_None in Hall. rewrite Hall, Hw. by eexists.
  - intros b Hb. destruct (decide (l = [])) as [->|Hl]; [done|].
    revert Hb. rewrite merge_pdfs_run by done. cbv zeta.
    destruct (_ || _); [|done].
    destruct (merge_failure env (files s) l) eqn:Hf; [done|].
    destruct (write_error env out); [done|]. simpl. intros [= <-].
    split_and!; [done|done| |done|set_solver].
    by apply merge_failure_None.
  - intros Hl Hall Hlib Hw.
    rewrite merge_pdfs_run by done. cbv zeta. rewrite Hlib.
    apply merge_failure_None in Hall. by rewrite Hall, Hw.
Qed.

End Merge.

Lemma merge_pdfs_raises_or_writes_witness :
  (["work"; "gone.pdf"] ∉ files Fixture.s0)
  ∧ (∃ e, (merge_pdfs Fixture.env [Fixture.a_pdf; ["work"; "gone.pdf"]]
             ["out.pdf"] Fixture.s0).1 = Raise e
          ∧ exn_class e = PDFError
          ∧ exn_context e
            = Some (mk_PDFNotFoundError ["work"; "gone.pdf"] None))
  ∧ (∃ cause e,
       append_error Fixture.corrupt_env Fixture.a_pdf = Some cause
       ∧ (merge_pdfs Fixture.corrupt_env
            [Fixture.b_pdf; Fixture.a_pdf; ["work"; "gone.pdf"]]
            ["out.pdf"] Fixture.s0).1 = Raise e
       ∧ exn_class e = PDFError ∧ exn_context e = Some cause).
Proof.
  assert (["work"; "gone.pdf"] ∉ files Fixture.s0) as Hgone.
  { vm_compute. discriminate. }
  split; [exact Hgone|]. split.
  - destruct (merge_pdfs_raises_or_writes Fixture.env
                [Fixture.a_pdf; ["work"; "gone.pdf"]] ["out.pdf"] Fixture.s0)
      as (_ & _ & Hwrap & _).
    destruct (Hwrap [Fixture.a_pdf] ["work"; "gone.pdf"] []
                (mk_PDFNotFoundError ["work"; "gone.pdf"] None))
      as (e & He & Hc & _ & Hctx).
    + reflexivity.
    + intros q Hq. apply list_elem_of_singleton in Hq as ->.
      split_and!; [reflexivity|vm_compute; reflexivity|reflexivity].
    + reflexivity.
    + left. split_and!; [reflexivity|exact Hgone|reflexivity].
    + by exists e.
  - destruct (merge_pdfs_raises_or_writes Fixture.corrupt_env
                [Fixture.b_pdf; Fixture.a_pdf; ["work"; "gone.pdf"]]
                ["out.pdf"] Fixture.s0)
      as (_ & _ & Hwrap & _).
    eexists.
    edestruct (Hwrap [Fixture.b_pdf] Fixture.a_pdf [["work"; "gone.pdf"]])
      as (e & He & Hc & _ & Hctx).
    + reflexivity.
    + intros q Hq. apply list_elem_of_singleton in Hq as ->.
      split_and!; [reflexivity|vm_compute; reflexivity|reflexivity].
    + reflexivity.
    + right; left.
      split_and!; [reflexivity|vm_compute; reflexivity|reflexivity].
    + exists e. split_and!; [reflexivity|exact He|exact Hc|exact Hctx].
Defined.

(** ** [_replace_blank_pages] and [create_final_pdf] *)

Section FinalPdf.
Context {D : Type} `{!DocumentBackend D} (env : Env).
Implicit Types (s : State D) (w : path).

(** The whole of [_replace_blank_pages]. *)
Lemma replace_blank_pages_run w output_path s :
  _replace_blank_pages env w output_path s =
  let out := chosen_output env output_path s in
  let s1 := emit (Copy w out) s in
  if bool_decide (w ∈ files s) then
    match copy_error env w out with
    | Some e => (Raise (replace_error e), s1)
    | None =>
        let s2 := set_files ({[out]} ∪ files s) s1 in
        match appendices_added s with
        | [] => (Return out, s2)
        | _ :: _ =>
            let r := merge_pdfs env (w :: (pdf_path <$> appendices_added s))
                       out s2 in
            (match r.1 with
             | Return _ => Return out
             | Raise e => Raise (replace_error e)
             end, r.2)
        end
    end
  else
    (Raise (replace_error
              (MkExn (BuiltinError "FileNotFoundError")
                 ("[Errno 2] No such file or directory: '" +:+
                  path_str w +:+ "'") None)), s1).
Proof.
  unfold _replace_blank_pages, chosen_output, copy2.
  assert (∀ out,
    Py.try_except
      (do output_path <- Py.ret out;
       run (run Py.modify (emit (Copy w output_path));
            do found <- path_exists w;
            if negb found then
              Py.raise (MkExn (BuiltinError "FileNotFoundError")
                          ("[Errno 2] No such file or directory: '" +:+
                           path_str w +:+ "'") None)
            else
              match copy_error env w output_path with
              | Some e => Py.raise e
              | None =>
                  Py.modify (λ s, set_files ({[output_path]} ∪ files s) s)
              end);
       do s <- Py.get;
       run (match appendices_added s with
            | [] => Py.ret tt
            | _ :: _ =>
                let pdf_list := w :: (pdf_path <$> appendices_added s) in
                run merge_pdfs env pdf_list output_path;
                Py.ret tt
            end);
       Py.ret output_path)
      (λ e, Py.raise (replace_error e)) s
    = (let s1 := emit (Copy w out) s in
       if bool_decide (w ∈ files s) then
         match copy_error env w out with
         | Some e => (Raise (replace_error e), s1)
         | None =>
             let s2 := set_files ({[out]} ∪ files s) s1 in
             match appendices_added s with
             | [] => (Return out, s2)
             | _ :: _ =>
                 let r := merge_pdfs env
                            (w :: (pdf_path <$> appendices_added s)) out s2 in
                 (match r.1 with
                  | Return _ => Return out
                  | Raise e => Raise (replace_error e)
                  end, r.2)
             end
         end
       else
         (Raise (replace_error
                   (MkExn (BuiltinError "FileNotFoundError")
                      ("[Errno 2] No such file or directory: '" +:+
                       path_str w +:+ "'") None)), s1))) as Hbody.
  { intros out. py_unfold. simpl.
    case_bool_decide; simpl; [|done].
    destruct (copy_error env w out); simpl; [done|].
    destruct (appendices_added s) as [|r l]; simpl; [done|].
    destruct (merge_pdfs _ _ _ _) as [[b|e] s3]; done. }
  destruct (falsy_path output_path).
  - destruct (default_output_path_total env
                (get_document_info (word_manager s)) (files s)) as [p Hp].
    rewrite <-Hbody, Hp. py_unfold. by rewrite Hp.
  - by rewrite <-Hbody.
Qed.

Lemma no_pdf_calls_emit (e : Event) s :
  is_pdf_call e = false → no_pdf_calls s (emit e s).
Proof.
  intros He. exists [e]. split; [done|]. unfold pdf_calls.
  rewrite filter_cons, decide_False by congruence. done.
Qed.

Lemma no_pdf_calls_create_temp_directory :
  preserves (@no_pdf_calls D) (create_temp_directory env).
Proof.
  unfold create_temp_directory.
  frame_with ltac:(first [by apply no_pdf_calls_same_events
                         | by apply no_pdf_calls_emit]).
Qed.

Lemma no_pdf_calls_unlink p : preserves (@no_pdf_calls D) (unlink env p).
Proof.
  unfold unlink. frame_with ltac:(by apply no_pdf_calls_same_events).
Qed.

Lemma no_pdf_calls_export :
  preserves (@no_pdf_calls D) (_export_word_to_pdf env).
Proof.
  pose proof no_pdf_calls_create_temp_directory.
  unfold _export_word_to_pdf.
  frame_with ltac:(first [by apply no_pdf_calls_same_events
                         | by apply no_pdf_calls_emit]).
  intros s0. unfold call_export_as_pdf.
  destruct (export_as_pdf _ _ _) as [o [wm fs]]. simpl.
  by apply (no_pdf_calls_emit (Export _)).
Qed.

(** What [_export_word_to_pdf] leaves behind. *)
Lemma export_word_to_pdf_run s :
  ∃ new, events (_export_word_to_pdf env s).2 = events s ++ new
    ∧ pdf_calls new = []
    ∧ appendices_added (_export_word_to_pdf env s).2 = appendices_added s
    ∧ ∀ w, (_export_word_to_pdf env s).1 = Return w →
        Export w ∈ new ∧ w ∈ files (_export_word_to_pdf env s).2.
Proof.
  pose proof (same_appendices_export env s) as Hsame.
  destruct (no_pdf_calls_export s) as (new & Hnew & Hcalls).
  exists new. split_and!; [done..|].
  intros w. revert Hnew. clear Hsame.
  unfold _export_word_to_pdf, call_export_as_pdf. py_unfold.
  destruct (no_pdf_calls_create_temp_directory s) as (new0 & Hnew0 & _).
  destruct (create_temp_directory env s) as [[d|e] s1]; simpl in *; [|done].
  destruct (export_as_pdf _ _ _) as [[b|e] [wm fs]]; simpl; [|done].
  case_bool_decide as Hin; destruct b; simpl; try done.
  rewrite Hnew0, <-app_assoc. intros Hnew%app_inv_head [= <-].
  split; [|done]. rewrite <-Hnew. set_solver.
Qed.

(** The calls [_replace_blank_pages] makes. *)
Lemma replace_blank_pages_calls w output_path s :
  let r := _replace_blank_pages env w output_path s in
  let out := chosen_output env output_path s in
  ∃ new, events r.2 = events s ++ new
    ∧ (pdf_calls new = expected_calls w out (appendices_added s)
       ∨ pdf_calls new = [Copy w out] ∧ ∃ e, r.1 = Raise e)
    ∧ ∀ p, r.1 = Return p →
        p = out ∧ pdf_calls new = expected_calls w out (appendices_added s).
Proof.
  intros r out. subst r. rewrite replace_blank_pages_run. fold out. cbv zeta.
  case_bool_decide.
  2:{ exists [Copy w out]. split_and!; [done|right; eauto|done]. }
  destruct (copy_error env w out).
  { exists [Copy w out]. split_and!; [done|right; eauto|done]. }
  unfold expected_calls.
  destruct (appendices_added s) as [|a l] eqn:Hl.
  { exists [Copy w out]. split_and!; [done|by left|by intros p [= <-]]. }
  destruct (merge_pdfs_events env (w :: (pdf_path <$> a :: l)) out
              (set_files ({[out]} ∪ files s) (emit (Copy w out) s)))
    as (logs & Hev & Hlogs).
  exists (Copy w out :: Merge (w :: (pdf_path <$> a :: l)) out :: logs).
  assert (pdf_calls
            (Copy w out :: Merge (w :: (pdf_path <$> a :: l)) out :: logs)
          = [Copy w out; Merge (w :: (pdf_path <$> a :: l)) out]) as Hcalls.
  { unfold pdf_calls in *. rewrite !filter_cons. simpl. by rewrite Hlogs. }
  split_and!.
  - cbn [snd]. rewrite Hev. cbn [events set_files emit].
    by rewrite <-app_assoc.
  - by left.
  - cbn [fst]. destruct (merge_pdfs _ _ _ _).1; [|done]. by intros p [= <-].
Qed.

(** The whole of [create_final_pdf], in terms of its two phases. *)
Lemma create_final_pdf_run output_path s :
  create_final_pdf env output_path s =
  match _export_word_to_pdf env s with
  | (Raise e, s1) => final_error e s1
  | (Return w, s1) =>
      match _replace_blank_pages env w output_path s1 with
      | (Raise e, s2) => final_error e s2
      | (Return final, s2) =>
          let done :=
            Log INFO ("Created final PDF: " +:+ path_str final) in
          if bool_decide (w ∈ files s2) then
            match unlink_error env w with
            | Some e => final_error e s2
            | None =>
                (Return final, emit done (set_files (files s2 ∖ {[w]}) s2))
            end
          else (Return final, emit done s2)
      end
  end.
Proof.
  unfold create_final_pdf, unlink, final_error. py_unfold.
  destruct (_export_word_to_pdf env s) as [[w|e] s1]; [|done].
  destruct (_replace_blank_pages env w output_path s1) as [[final|e] s2];
    [|done].
  simpl. case_bool_decide; [|done]. by destruct (unlink_error env w).
Qed.

(** C5: a run of [create_final_pdf] that gets as far as writing copies the
    exported PDF to the output path and then calls [merge_pdfs], once, on
    the exported PDF followed by the source paths of the added appendices in
    the order they were added, with the same output path; it makes that call
    only when an appendix was added, and always when one was added and the
    copy went through; a run that returns made exactly these calls. *)
Theorem create_final_pdf_copies_then_merges output_path s :
  let r := create_final_pdf env output_path s in
  ∃ new, events r.2 = events s ++ new
    ∧ (pdf_calls new = [] ∧ (∃ e, r.1 = Raise e)
       ∨ ∃ w out, Export w ∈ new ∧
           (pdf_calls new = expected_calls w out (appendices_added s)
            ∨ pdf_calls new = [Copy w out] ∧ ∃ e, r.1 = Raise e))
    ∧ ∀ final, r.1 = Return final →
        ∃ w, Export w ∈ new
          ∧ pdf_calls new = expected_calls w final (appendices_added s).
Proof.
  intros r. subst r. rewrite create_final_pdf_run. unfold final_error.
  destruct (export_word_to_pdf_run s) as (new1 & Hnew1 & Hcalls1 & Happ & Hw).
  destruct (_export_word_to_pdf env s) as [[w|e] s1]; simpl in *.
  2:{ eexists (new1 ++ [_]). rewrite Hnew1, <-app_assoc.
      split_and!; [done|left|done].
      split; [|by eexists]. unfold pdf_calls in *.
      by rewrite filter_app, Hcalls1. }
  destruct (Hw w eq_refl) as [Hexp _]. clear Hw.
  destruct (replace_blank_pages_calls w output_path s1)
    as (new2 & Hnew2 & Hshape & Hret).
  rewrite Happ in Hshape, Hret.
  set (out := chosen_output env output_path s1) in *.
  assert (∀ tail, pdf_calls (new1 ++ new2 ++ [Log ERROR tail])
                  = pdf_calls new2) as Herr.
  { intros tail. unfold pdf_calls in *.
    rewrite !filter_app, Hcalls1. simpl. by rewrite app_nil_r. }
  assert (∀ tail, pdf_calls (new1 ++ new2 ++ [Log INFO tail])
                  = pdf_calls new2) as Hinfo.
  { intros tail. unfold pdf_calls in *.
    rewrite !filter_app, Hcalls1. simpl. by rewrite app_nil_r. }
  destruct (_replace_blank_pages env w output_path s1) as [[final|e] s2];
    simpl in *.
  2:{ eexists (new1 ++ new2 ++ [_]).
      rewrite Hnew2, Hnew1, <-!app_assoc.
      split_and!; [done| |done]. right. exists w, out.
      split; [by apply elem_of_app; left|]. rewrite Herr.
      destruct Hshape as [?|[? _]]; [by left|right; eauto]. }
  destruct (Hret final eq_refl) as [-> Hcalls2].
  case_bool_decide; [destruct (unlink_error env w)|]; cbn [fst snd].
  - eexists (new1 ++ new2 ++ [_]). cbn [events emit].
    rewrite Hnew2, Hnew1, <-!app_assoc, Herr.
    split_and!; [done| |done]. right. exists w, out.
    split; [by apply elem_of_app; left|by left].
  - eexists (new1 ++ new2 ++ [_]). cbn [events emit set_files].
    rewrite Hnew2, Hnew1, <-!app_assoc, Hinfo.
    split_and!; [done| |].
    + right. exists w, out. split; [by apply elem_of_app; left|by left].
    + intros ? [= <-]. exists w. split; [by apply elem_of_app; left|done].
  - eexists (new1 ++ new2 ++ [_]). cbn [events emit].
    rewrite Hnew2, Hnew1, <-!app_assoc, Hinfo.
    split_and!; [done| |].
    + right. exists w, out. split; [by apply elem_of_app; left|by left].
    + intros ? [= <-]. exists w. split; [by apply elem_of_app; left|done].
Qed.
End FinalPdf.

Lemma create_final_pdf_copies_then_merges_witness :
  let final := ["home"; "user"; "Documents"; "report_with_appendices.pdf"] in
  (create_final_pdf Fixture.env None Fixture.s2).1 = Return final ∧
  ∃ new,
    events (create_final_pdf Fixture.env None Fixture.s2).2
    = events Fixture.s2 ++ new ∧
    ∃ w, Export w ∈ new ∧
         pdf_calls new
         = [Copy w final; Merge [w; Fixture.a_pdf; Fixture.b_pdf] final].
Proof.
  intros final.
  assert ((create_final_pdf Fixture.env None Fixture.s2).1 = Return final)
    as Hrun by (vm_compute; reflexivity).
  split; [exact Hrun|].
  destruct (create_final_pdf_copies_then_merges Fixture.env None Fixture.s2)
    as (new & Hnew & _ & Hret).
  exists new. split; [exact Hnew|]. exact (Hret final Hrun).
Defined.

(** ** Where the default output goes *)

Section DefaultOutput.
Context {D : Type} `{!DocumentBackend D} (env : Env).
Implicit Types (s : State D) (w : path).

End DefaultOutput.



(** ** Appendix titles *)

(** C7: the first two appendices are titled "Appendix A" and "Appendix B"
    under the alphabetical style and "Appendix 1" and "Appendix 2" under the
    numeric one; at the zero-based index [i] the title is "Appendix "
    followed by the [(i+1)]-th letter of the alphabet, or by the number
    [i + 1]. *)
Theorem generated_titles :
  (∀ p1 p2 : path,
     process_titles "alphabetical" 0 [p1; p2] []
     = ["Appendix A"; "Appendix B"])
  ∧ (∀ p1 p2 : path,
       process_titles "numeric" 0 [p1; p2] [] = ["Appendix 1"; "Appendix 2"])
  ∧ (∀ i c,
       String.get i alphabet = Some c →
       _generate_appendix_title "alphabetical" i
       = "Appendix " +:+ String c "")
  ∧ (∀ i, _generate_appendix_title "numeric" i
          = "Appendix " +:+ pretty (i + 1)%nat).
Proof.
  split_and!.
  - intros p1 p2. vm_compute. reflexivity.
  - intros p1 p2. vm_compute. reflexivity.
  - intros i c Hc.
    do 26 (destruct i as [|i]; [injection Hc as <-; reflexivity|]).
    discriminate Hc.
  - intros i. unfold _generate_appendix_title.
    by rewrite decide_True.
Qed.

Lemma generated_titles_witness :
  String.get 2 alphabet = Some (Ascii.ascii_of_nat 67) ∧
  _generate_appendix_title "alphabetical" 2 = "Appendix C".
Proof.
  split; [reflexivity|].
  destruct generated_titles as (_ & _ & Hletter & _).
  exact (Hletter 2%nat (Ascii.ascii_of_nat 67) eq_refl).
Defined.

(** Past the alphabet the code goes on with two letters. *)
Example title_26 : _generate_appendix_title "alphabetical" 26 = "Appendix AA".
Proof. reflexivity. Qed.

(** ** [validate_appendices] *)

Section Validate.
Context {D : Type} `{!DocumentBackend D} (env : Env).
Implicit Types (s : State D) (a : AppendixData).

Lemma same_files_validate_pdf_file p :
  preserves (@same_files D) (validate_pdf_file env p).
Proof.
  unfold validate_pdf_file, _get_pdf_info.
  frame_with ltac:(by unfold same_files).
Qed.

(** The answer of [validate_pdf_file] depends on the file system only. *)
Lemma validate_pdf_file_outcome p s1 s2 :
  files s1 = files s2 →
  (validate_pdf_file env p s1).1 = (validate_pdf_file env p s2).1.
Proof.
  intros Hfs. unfold validate_pdf_file, _get_pdf_info. py_unfold.
  destruct (exists_error env p); [done|].
  rewrite Hfs. case_bool_decide; simpl; [|done].
  destruct (size_mb_gt _ _); simpl;
    destruct (_ || _); simpl; try done;
    destruct (open_pdf env p) as [[n b]|e]; simpl; try done;
    by case_bool_decide.
Qed.

(** The backend of the repository never reports an invalid file: it
    raises instead. *)
Lemma validate_pdf_file_valid p s r :
  (validate_pdf_file env p s).1 = Return r → valid r = true.
Proof.
  unfold validate_pdf_file, _get_pdf_info. py_unfold.
  destruct (exists_error env p); [done|].
  case_bool_decide; simpl; [|done].
  destruct (size_mb_gt _ _); simpl;
    destruct (_ || _); simpl; try done;
    destruct (open_pdf env p) as [[n b]|e]; simpl; try done;
    try (by case_bool_decide); by intros [= <-].
Qed.

(** The loop over candidates whose paths can be checked: it goes on with
    the entries of each of them added, and leaves the files alone. *)
Lemma validate_loop_app l : ∀ rest i errors s0 s,
  files s0 = files s →
  (∀ a, a ∈ l → checkable env a) →
  ∃ s', validate_loop env i (l ++ rest) errors s0 =
          validate_loop env (i + length l) rest
            (errors ++
             mjoin (imap (λ j a, item_entries env (i + j)
                                   (item_status env s a)) l)) s'
        ∧ files s' = files s.
Proof.
  induction l as [|a l IH]; intros rest i errors s0 s Hfs Hl.
  { exists s0. simpl. by rewrite app_nil_r, Nat.add_0_r. }
  rewrite imap_cons. cbn [mjoin list_join app length]. rewrite Nat.add_0_r.
  assert (∀ st s1, files s1 = files s →
    ∃ s', validate_loop env (S i) (l ++ rest)
            (errors ++ item_entries env i st) s1 =
          validate_loop env (i + S (length l)) rest
            (errors ++ item_entries env i st ++
               mjoin (imap ((λ j a, item_entries env (i + j)
                                       (item_status env s a)) ∘ S) l)) s'
          ∧ files s' = files s) as Hrest.
  { intros st s1 Hs1.
    destruct (IH rest (S i) (errors ++ item_entries env i st) s1 s Hs1)
      as (s' & Hrun & Hs').
    { intros b Hb. apply Hl. by right. }
    exists s'. split; [|done]. rewrite Hrun, <-app_assoc.
    replace (S i + length l)%nat with (i + S (length l))%nat by lia.
    assert (imap (λ j a, item_entries env (S i + j) (item_status env s a)) l
            = imap ((λ j a, item_entries env (i + j) (item_status env s a))
                    ∘ S) l) as ->; [|done].
    apply imap_ext. intros j x _. unfold compose. f_equal. lia. }
  simpl validate_loop. unfold item_status at 1. cbv zeta.
  destruct (falsy_path (data_path a)) eqn:Hfalsy.
  { apply (Hrest NotSpecified s0 Hfs). }
  unfold Py.bind at 1, Path_exists at 1.
  rewrite (Hl a (list_elem_of_here _ _) Hfalsy), Hfs.
  case_bool_decide as Hin; cbn [negb].
  2:{ destruct (data_path a) as [p|]; [|done].
      apply (Hrest (NotFound p) s0 Hfs). }
  unfold Py.bind at 1, Py.try_except at 1, Py.bind at 1.
  pose proof (same_files_validate_pdf_file (default [] (data_path a)) s0)
    as Hsame. unfold same_files in Hsame.
  pose proof (validate_pdf_file_outcome (default [] (data_path a)) s0 s Hfs)
    as Hout.
  pose proof (validate_pdf_file_valid (default [] (data_path a)) s0) as Hv.
  destruct (validate_pdf_file env (default [] (data_path a)) s0)
    as [[r|e] s1]; simpl in Hout, Hsame, Hv; rewrite <-Hout.
  - unfold Py.ret. rewrite (Hv r eq_refl). cbn [negb].
    assert (files s1 = files s) as Hs1 by congruence.
    destruct (Hrest (Validated r) s1 Hs1) as (s' & Hrun & Hs').
    exists s'. split; [|done]. etrans; [|exact Hrun]. f_equal.
    cbn [item_entries]. case_bool_decide; destruct (size_mb_gt _ _);
      cbn [app]; by rewrite <-?app_assoc.
  - unfold Py.ret.
    assert (files s1 = files s) as Hs1 by congruence.
    apply (Hrest (Unreadable e) s1 Hs1).
Qed.

Lemma validate_loop_spec l i errors s0 s :
  files s0 = files s →
  (∀ a, a ∈ l → checkable env a) →
  ∃ s', validate_loop env i l errors s0 =
          (Return (errors ++
                   mjoin (imap (λ j a, item_entries env (i + j)
                                         (item_status env s a)) l)), s')
        ∧ files s' = files s.
Proof.
  intros Hfs Hl.
  destruct (validate_loop_app l [] i errors s0 s Hfs Hl) as (s' & Hrun & Hs').
  exists s'. split; [|done]. by rewrite app_nil_r in Hrun.
Qed.

(** The check that the file is there is not guarded: its error leaves the
    loop, whatever has been collected. *)
Lemma validate_loop_raises before a after e i errors s :
  (∀ b, b ∈ before → checkable env b) →
  falsy_path (data_path a) = false →
  exists_error env (default [] (data_path a)) = Some e →
  (validate_loop env i (before ++ a :: after) errors s).1 = Raise e.
Proof.
  intros Hb Hfalsy He.
  destruct (validate_loop_app before (a :: after) i errors s s eq_refl Hb)
    as (s' & -> & _).
  simpl validate_loop. rewrite Hfalsy.
  unfold Py.bind at 1, Path_exists at 1. by rewrite He.
Qed.

Lemma length_mjoin_imap_entries (sts : list ItemStatus) : ∀ i,
  length (mjoin (imap (λ j st, item_entries env (i + j) st) sts))
  = (count_of is_missing sts + count_of has_no_pages sts
     + count_of (is_oversize env) sts + sum_list (warning_count <$> sts)
     + count_of is_unreadable sts)%nat.
Proof.
  unfold count_of.
  induction sts as [|st sts IH]; intros i; [done|].
  rewrite imap_cons. cbn [mjoin list_join]. rewrite length_app.
  rewrite (imap_ext _ (λ j st, item_entries env (S i + j) st)).
  2:{ intros j x _. simpl. by replace (i + S j)%nat with (S (i + j)) by lia. }
  rewrite IH, !filter_cons, fmap_cons. cbn [sum_list sum_list_with].
  destruct st as [|p|e|r]; simpl; try lia.
  case_bool_decide; destruct (size_mb_gt _ _); simpl;
    rewrite ?length_app, ?length_fmap; simpl; lia.
Qed.

(** C4: when [exists] can check the path of every candidate,
    [validate_appendices] returns, and what it returns is, for each
    candidate in order, one error if it has no path or its file is missing,
    and otherwise one error if the backend counts no page, one if the file
    is over the size limit and one line per warning of the backend, or the
    one entry the code adds when the backend fails on the file; so the
    length of the list is the number of missing files plus the number of
    candidates without pages plus the number of oversize files plus the
    number of warnings plus the number of files the backend failed on, and
    it is the sum of the first four when the backend fails on none.  The
    check that the file is there is outside the [try]: when [exists] raises
    on the path of a candidate, the candidates before it being checked,
    [validate_appendices] raises that error and returns no list. *)
Theorem validate_appendices_entries l s :
  ((∀ a, a ∈ l → checkable env a) →
   ∃ s', validate_appendices env l s = (Return (expected_errors env s l), s')
     ∧ files s' = files s
     ∧ length (expected_errors env s l)
       = (count_of is_missing (item_status env s <$> l)
          + count_of has_no_pages (item_status env s <$> l)
          + count_of (is_oversize env) (item_status env s <$> l)
          + sum_list (warning_count <$> (item_status env s <$> l))
          + count_of is_unreadable (item_status env s <$> l))%nat
     ∧ (count_of is_unreadable (item_status env s <$> l) = 0%nat →
        length (expected_errors env s l)
        = (count_of is_missing (item_status env s <$> l)
           + count_of has_no_pages (item_status env s <$> l)
           + count_of (is_oversize env) (item_status env s <$> l)
           + sum_list (warning_count <$> (item_status env s <$> l)))%nat))
  ∧ (∀ before a after e,
       l = before ++ a :: after →
       (∀ b, b ∈ before → checkable env b) →
       falsy_path (data_path a) = false →
       exists_error env (default [] (data_path a)) = Some e →
       (validate_appendices env l s).1 = Raise e).
Proof.
  split.
  - intros Hl.
    destruct (validate_loop_spec l 0 [] s s eq_refl Hl) as (s' & Hrun & Hs').
    assert (length (expected_errors env s l)
       = (count_of is_missing (item_status env s <$> l)
          + count_of has_no_pages (item_status env s <$> l)
          + count_of (is_oversize env) (item_status env s <$> l)
          + sum_list (warning_count <$> (item_status env s <$> l))
          + count_of is_unreadable (item_status env s <$> l))%nat) as Hlen.
    { unfold expected_errors.
      rewrite <-(length_mjoin_imap_entries (item_status env s <$> l) 0).
      by rewrite imap_fmap. }
    exists s'. split_and!; [done|done|done|].
    intros H0. rewrite Hlen, H0. lia.
  - intros before a after e -> Hb Hfalsy He.
    by apply validate_loop_raises.
Qed.
End Validate.

(** The four kinds of entries of the specification do not account for
    every list, and a list is not always returned: on a file that is there
    and that the PDF library cannot read the code returns one entry where
    the four kinds count none, and on a path that [exists] is not allowed to
    look at it raises the [PermissionError]. *)
Lemma validate_appendices_raises_or_adds_entry :
  (∃ errors s',
     validate_appendices Fixture.unreadable_env [Fixture.appendix_a]
       Fixture.s0 = (Return errors, s')
     ∧ length errors = 1%nat
     ∧ (count_of is_missing
          (item_status Fixture.unreadable_env Fixture.s0
             <$> [Fixture.appendix_a])
        + count_of has_no_pages
            (item_status Fixture.unreadable_env Fixture.s0
               <$> [Fixture.appendix_a])
        + count_of (is_oversize Fixture.unreadable_env)
            (item_status Fixture.unreadable_env Fixture.s0
               <$> [Fixture.appendix_a])
        + sum_list (warning_count
                      <$> (item_status Fixture.unreadable_env Fixture.s0
                             <$> [Fixture.appendix_a])))%nat = 0%nat)
  ∧ (validate_appendices Fixture.vault_env
       [Fixture.appendix_a; Fixture.appendix_vault] Fixture.s0).1
    = Raise Fixture.permission_denied.
Proof.
  split.
  - eexists _, _. split_and!; vm_compute; reflexivity.
  - vm_compute. reflexivity.
Qed.

Lemma validate_appendices_entries_witness :
  (∃ s', validate_appendices Fixture.env
           [Fixture.appendix_a; Fixture.appendix_gone] Fixture.s0
         = (Return (expected_errors Fixture.env Fixture.s0
                      [Fixture.appendix_a; Fixture.appendix_gone]), s'))
  ∧ (validate_appendices Fixture.vault_env
       [Fixture.appendix_a; Fixture.appendix_vault] Fixture.s0).1
    = Raise Fixture.permission_denied.
Proof.
  split.
  - destruct (validate_appendices_entries Fixture.env
                [Fixture.appendix_a; Fixture.appendix_gone] Fixture.s0)
      as [Hret _].
    destruct Hret as (s' & Hrun & _).
    + intros a _ _. reflexivity.
    + by exists s'.
  - destruct (validate_appendices_entries Fixture.vault_env
                [Fixture.appendix_a; Fixture.appendix_vault] Fixture.s0)
      as [_ Hraise].
    apply (Hraise [Fixture.appendix_a] Fixture.appendix_vault []).
    + reflexivity.
    + intros b Hb. apply list_elem_of_singleton in Hb as ->.
      intros _. reflexivity.
    + reflexivity.
    + reflexivity.
Defined.

(** ** Cleaning up *)

Section Cleanup.
Context {D : Type} `{!DocumentBackend D} (env : Env).
Implicit Types (s : State D) (l : list path) (p f : path).

Lemma unlink_loop_run l s :
  unlink_loop env l s
  = (Return tt, delete_all env "Could not delete temp file " l s).
Proof.
  revert s. induction l as [|f l IH]; intros s; [done|].
  simpl. unfold unlink, after_delete. py_unfold. simpl.
  destruct (exists_error env f); [apply IH|].
  case_bool_decide; [destruct (unlink_error env f)|]; apply IH.
Qed.

Lemma remove_loop_run l s :
  remove_loop env l s
  = (Return tt, delete_all env "Could not remove temp file " l s).
Proof.
  revert s. induction l as [|f l IH]; intros s; [done|].
  simpl. unfold unlink, after_delete. py_unfold. simpl.
  destruct (exists_error env f); [apply IH|].
  case_bool_decide; [destruct (unlink_error env f)|]; apply IH.
Qed.

(** One deletion touches the file system and the log only. *)
Lemma after_delete_fields label f s :
  let s' := after_delete env label f s in
  appendices_added s' = appendices_added s ∧ temp_files s' = temp_files s
  ∧ temp_dir s' = temp_dir s ∧ _temp_files s' = _temp_files s
  ∧ files s' ⊆ files s ∧ events s `prefix_of` events s'.
Proof.
  unfold after_delete.
  destruct (exists_error env f);
    [|case_bool_decide; [destruct (unlink_error env f)|]];
    simpl; split_and!; try done; try set_solver;
    by apply prefix_app_r.
Qed.

Lemma delete_all_fields label l s :
  let s' := delete_all env label l s in
  appendices_added s' = appendices_added s ∧ temp_files s' = temp_files s
  ∧ temp_dir s' = temp_dir s ∧ _temp_files s' = _temp_files s
  ∧ files s' ⊆ files s ∧ events s `prefix_of` events s'.
Proof.
  revert s. induction l as [|f l IH]; intros s; [done|].
  destruct (after_delete_fields label f s) as (H1&H2&H3&H4&H5&H6).
  destruct (IH (after_delete env label f s)) as (G1&G2&G3&G4&G5&G6).
  simpl in *. split_and!; try congruence; [set_solver|by etrans].
Qed.

(** Every listed file that can be checked and whose deletion does not fail
    is gone. *)
Lemma delete_all_gone label l s p :
  p ∈ l → exists_error env p = None → unlink_error env p = None →
  p ∉ files (delete_all env label l s).
Proof.
  revert s. induction l as [|f l IH]; intros s Hp Hex Herr.
  { by apply elem_of_nil in Hp. }
  apply elem_of_cons in Hp as [->|Hp]; [|by apply IH].
  destruct (delete_all_fields label l (after_delete env label f s))
    as (_&_&_&_&Hsub&_).
  simpl. intros Hin. apply Hsub in Hin. revert Hin.
  unfold after_delete. rewrite Hex. case_bool_decide; [|done].
  rewrite Herr. simpl. set_solver.
Qed.

(** A file whose check or whose deletion fails stays. *)
Lemma delete_all_keeps label l s p :
  p ∈ files s →
  is_Some (exists_error env p) ∨ is_Some (unlink_error env p) →
  p ∈ files (delete_all env label l s).
Proof.
  revert s. induction l as [|f l IH]; intros s Hin Herr; [done|].
  simpl. apply IH; [|done]. unfold after_delete.
  destruct (exists_error env f) eqn:Hex; [done|].
  case_bool_decide; [|done].
  destruct (unlink_error env f) eqn:Hf; simpl; [done|].
  apply elem_of_difference. split; [done|].
  intros ->%elem_of_singleton.
  destruct Herr as [[? ?]|[? ?]]; congruence.
Qed.

(** Every listed file whose deletion fails is logged. *)
Lemma delete_all_logged label l s p e :
  p ∈ l → p ∈ files s → exists_error env p = None →
  unlink_error env p = Some e →
  Log WARNING (label +:+ path_str p +:+ ": " +:+ str_exn e)
    ∈ events (delete_all env label l s).
Proof.
  revert s. induction l as [|f l IH]; intros s Hp Hin Hex Herr.
  { by apply elem_of_nil in Hp. }
  destruct (delete_all_fields label l (after_delete env label f s))
    as (_&_&_&_&_&Hgrow).
  simpl in *.
  destruct (decide (p = f)) as [->|Hne].
  - eapply elem_of_prefix; [|exact Hgrow].
    unfold after_delete. rewrite Hex, bool_decide_eq_true_2, Herr by done.
    simpl. apply elem_of_app. right. by left.
  - apply elem_of_cons in Hp as [?|Hp]; [done|].
    apply IH; [done| |done|done].
    apply (delete_all_keeps label [f] s p Hin). right. by eexists.
Qed.

(** So is every listed file on which the check that it is there fails. *)
Lemma delete_all_check_logged label l s p e :
  p ∈ l → exists_error env p = Some e →
  Log WARNING (label +:+ path_str p +:+ ": " +:+ str_exn e)
    ∈ events (delete_all env label l s).
Proof.
  revert s. induction l as [|f l IH]; intros s Hp Hex.
  { by apply elem_of_nil in Hp. }
  destruct (delete_all_fields label l (after_delete env label f s))
    as (_&_&_&_&_&Hgrow).
  simpl in *.
  apply elem_of_cons in Hp as [->|Hp]; [|by apply IH].
  eapply elem_of_prefix; [|exact Hgrow].
  unfold after_delete. rewrite Hex.
  simpl. apply elem_of_app. right. by left.
Qed.

(** The whole of the handler's [cleanup_temp_files]. *)
Lemma handler_cleanup_run s :
  handler_cleanup_temp_files env s = (Return tt, after_handler env s).
Proof.
  unfold handler_cleanup_temp_files, after_handler, dir_check_error,
    after_rmtree, rmtree.
  unfold Py.try_except, Py.bind at 1, Py.get. unfold Py.bind at 1.
  rewrite remove_loop_run.
  destruct (delete_all_fields "Could not remove temp file " (_temp_files s) s)
    as (_&_&Hdir&_&_&_). cbv zeta in *. rewrite Hdir.
  destruct (temp_dir s) as [[|c d]|]; [done| |done].
  py_unfold. simpl.
  destruct (exists_error env (c :: d)); [done|]. by case_bool_decide.
Qed.

(** The whole of the coordinator's [cleanup_temp_files]. *)
Lemma cleanup_temp_files_run s :
  cleanup_temp_files env s =
  (Return tt,
   emit (Log INFO "Cleaned up temporary files")
     (after_handler env
        (set_temp_files []
           (delete_all env "Could not delete temp file " (temp_files s) s)))).
Proof.
  unfold cleanup_temp_files.
  unfold Py.bind at 1, Py.get. unfold Py.bind at 1.
  rewrite unlink_loop_run. unfold Py.bind at 1, Py.modify at 1.
  unfold Py.bind at 1. rewrite handler_cleanup_run. by unfold log, Py.modify.
Qed.

Lemma after_rmtree_fields s :
  let s' := after_rmtree env s in
  temp_files s' = temp_files s ∧ files s' ⊆ files s
  ∧ events s `prefix_of` events s'.
Proof.
  unfold after_rmtree. destruct (temp_dir s) as [[|c d]|]; [done| |done].
  case_bool_decide; [|done]. simpl. split_and!; [done|set_solver|].
  by apply prefix_app_r.
Qed.

(** [rmtree] leaves nothing at or under the directory but what is stuck. *)
Lemma after_rmtree_gone s d p :
  temp_dir s = Some d → d ≠ [] → d ∈ files s → d `prefix_of` p →
  ¬ stuck env (files s) p →
  p ∉ files (after_rmtree env s).
Proof.
  intros Hd Hne Hin Hpre Hstuck. unfold after_rmtree. rewrite Hd.
  destruct d as [|c d]; [done|].
  rewrite bool_decide_eq_true_2 by done. simpl.
  rewrite elem_of_filter. intros [[?|?] _]; done.
Qed.

(** In particular the directory itself is gone, unless it is stuck. *)
Lemma after_rmtree_dir_gone s d :
  temp_dir s = Some d → d ≠ [] → ¬ stuck env (files s) d →
  d ∉ files (after_rmtree env s).
Proof.
  intros Hd Hne Hstuck. destruct (decide (d ∈ files s)) as [Hin|Hout].
  - by apply (after_rmtree_gone s d d).
  - destruct (after_rmtree_fields s) as (_ & Hsub & _). set_solver.
Qed.

(** Fewer files, fewer stuck paths. *)
Lemma stuck_mono (fs fs' : gset path) p :
  fs' ⊆ fs → stuck env fs' p → stuck env fs p.
Proof. intros Hsub (q & Hq & H). exists q. split; [set_solver|done]. Qed.

(** What the handler's [cleanup_temp_files] does to the fields: the
    coordinator's list is not touched, no file is created, the log grows;
    its own list and directory are reset, unless the check of the
    directory raised: then they stay, and the error is logged. *)
Lemma after_handler_fields s :
  let s' := after_handler env s in
  let s1 := delete_all env "Could not remove temp file " (_temp_files s) s in
  appendices_added s' = appendices_added s
  ∧ temp_files s' = temp_files s ∧ files s' ⊆ files s1
  ∧ events s1 `prefix_of` events s'
  ∧ match dir_check_error env s with
    | None => _temp_files s' = [] ∧ temp_dir s' = None
              ∧ files s' = files (after_rmtree env s1)
    | Some e =>
        _temp_files s' = _temp_files s ∧ temp_dir s' = temp_dir s
        ∧ Log ERROR ("Error during temp file cleanup: " +:+ str_exn e)
            ∈ events s'
    end.
Proof.
  cbv zeta. unfold after_handler. cbv zeta.
  destruct (delete_all_fields "Could not remove temp file " (_temp_files s) s)
    as (Ha & Ht & Hd & Hh & Hf & He). cbv zeta in *.
  destruct (after_rmtree_fields
              (delete_all env "Could not remove temp file " (_temp_files s) s))
    as (Ht4 & Hf4 & He4). cbv zeta in *.
  destruct (dir_check_error env s) as [e|]; simpl.
  - split_and!; try done.
    + by apply prefix_app_r.
    + apply elem_of_app. right. by left.
  - split_and!; try done; [|congruence].
    unfold after_rmtree.
    destruct (temp_dir _) as [[|c d]|]; [done| |done].
    by case_bool_decide.
Qed.

(** C8: [cleanup_temp_files] always returns; afterwards the coordinator's
    list of tracked files is empty, and so is the handler's, with its
    temporary directory reset to [None], unless the check that this
    directory is there raises: then the handler logs the error and keeps
    both.  No file is created; every tracked file that can be checked and
    whose deletion does not fail is gone; the temporary directory is gone
    unless its check raises or something at or under it cannot be removed;
    and every check or deletion of a tracked file that failed is logged as a
    warning instead of being raised. *)
Theorem cleanup_temp_files_effect s :
  ∃ s', cleanup_temp_files env s = (Return tt, s')
    ∧ temp_files s' = []
    ∧ match dir_check_error env s with
      | None => _temp_files s' = [] ∧ temp_dir s' = None
      | Some e =>
          _temp_files s' = _temp_files s ∧ temp_dir s' = temp_dir s
          ∧ Log ERROR ("Error during temp file cleanup: " +:+ str_exn e)
              ∈ events s'
      end
    ∧ files s' ⊆ files s
    ∧ (∀ p, p ∈ temp_files s ∨ p ∈ _temp_files s →
         exists_error env p = None → unlink_error env p = None →
         p ∉ files s')
    ∧ (∀ d, temp_dir s = Some d → d ≠ [] → exists_error env d = None →
         ¬ stuck env (files s) d → d ∉ files s')
    ∧ (∀ p e, p ∈ temp_files s → p ∈ files s →
         exists_error env p = None → unlink_error env p = Some e →
         Log WARNING ("Could not delete temp file " +:+ path_str p +:+ ": "
                      +:+ str_exn e) ∈ events s')
    ∧ (∀ p e, p ∈ temp_files s → exists_error env p = Some e →
         Log WARNING ("Could not delete temp file " +:+ path_str p +:+ ": "
                      +:+ str_exn e) ∈ events s')
    ∧ (∀ p e, p ∈ _temp_files s → p ∈ files s →
         exists_error env p = None → unlink_error env p = Some e →
         Log WARNING ("Could not remove temp file " +:+ path_str p +:+ ": "
                      +:+ str_exn e) ∈ events s')
    ∧ (∀ p e, p ∈ _temp_files s → exists_error env p = Some e →
         Log WARNING ("Could not remove temp file " +:+ path_str p +:+ ": "
                      +:+ str_exn e) ∈ events s').
Proof.
  rewrite cleanup_temp_files_run. eexists. split; [reflexivity|].
  set (s1 := delete_all env "Could not delete temp file " (temp_files s) s).
  set (s2 := set_temp_files [] s1).
  set (s3 := delete_all env "Could not remove temp file " (_temp_files s2) s2).
  destruct (delete_all_fields "Could not delete temp file " (temp_files s) s)
    as (_ & _ & Hd1 & Hh1 & Hf1 & He1).
  destruct (delete_all_fields "Could not remove temp file " (_temp_files s2)
              s2) as (_ & _ & Hd3 & _ & Hf3 & He3).
  destruct (after_handler_fields s2) as (_ & Ht5 & Hf5 & He5 & Hm).
  fold s1 in Hd1, Hh1, Hf1, He1. cbv zeta in *.
  fold s3 in Hd3, Hf3, He3, Hf5, He5, Hm.
  change (files s2) with (files s1) in Hf3.
  change (events s2) with (events s1) in He3.
  change (temp_dir s2) with (temp_dir s1) in Hd3, Hm.
  change (_temp_files s2) with (_temp_files s1) in Hm, s3.
  change (temp_files s2) with (@nil path) in Ht5.
  assert (dir_check_error env s2 = dir_check_error env s) as Hdc.
  { unfold dir_check_error. change (temp_dir s2) with (temp_dir s1).
    by rewrite Hd1. }
  rewrite Hdc in Hm.
  set (s5 := after_handler env s2) in *.
  cbn [temp_files _temp_files temp_dir files events emit].
  assert (∀ x, x ∈ events s3 → x ∈ events s5 ++ [Log INFO
            "Cleaned up temporary files"]) as Hlog3.
  { intros x Hx. apply elem_of_app. left.
    by eapply elem_of_prefix. }
  assert (∀ x, x ∈ events s1 → x ∈ events s5 ++ [Log INFO
            "Cleaned up temporary files"]) as Hlog1.
  { intros x Hx. apply Hlog3. by eapply elem_of_prefix. }
  split_and!; [done| | | | | | | |].
  - destruct (dir_check_error env s) as [e|].
    + destruct Hm as (Hm1 & Hm2 & Hm3). split_and!; [congruence|congruence|].
      apply elem_of_app. by left.
    + by destruct Hm as (? & ? & _).
  - set_solver.
  - intros p [Hp|Hp] Hex Herr Hin.
    + apply (delete_all_gone "Could not delete temp file " (temp_files s) s p
               Hp Hex Herr). set_solver.
    + rewrite <-Hh1 in Hp.
      apply (delete_all_gone "Could not remove temp file " (_temp_files s1) s2
               p Hp Hex Herr). set_solver.
  - intros d Hd Hne Hex Hstuck.
    assert (dir_check_error env s = None) as Hnone.
    { unfold dir_check_error. rewrite Hd. by destruct d. }
    rewrite Hnone in Hm. destruct Hm as (_ & _ & ->).
    apply (after_rmtree_dir_gone s3 d); [congruence|done|].
    intros Hs. apply Hstuck. eapply stuck_mono; [|exact Hs]. set_solver.
  - intros p e Hp Hin Hex Herr. apply Hlog1.
    by apply delete_all_logged.
  - intros p e Hp Hex. apply Hlog1.
    by apply delete_all_check_logged.
  - intros p e Hp Hin Hex Herr. apply Hlog3. rewrite <-Hh1 in Hp.
    apply delete_all_logged; [done| |done|done].
    apply (delete_all_keeps "Could not delete temp file " (temp_files s) s p
             Hin). right. by eexists.
  - intros p e Hp Hex. apply Hlog3. rewrite <-Hh1 in Hp.
    by apply delete_all_check_logged.
Qed.
End Cleanup.

(** C8, as the claim words it, fails: a tracked file whose deletion fails is
    still there after the cleanup, and so is the temporary directory that
    holds it. *)
Lemma cleanup_leaves_what_it_cannot_delete :
  ¬ ∀ (env : Env) (s : State WordManager),
      (∀ p, p ∈ temp_files s ∨ p ∈ _temp_files s →
         p ∉ files (cleanup_temp_files env s).2)
      ∧ (∀ d, temp_dir s = Some d → d ∉ files (cleanup_temp_files env s).2).
Proof.
  intros H.
  destruct (H Fixture.locked_env Fixture.exported_locked) as [Hfile _].
  apply (Hfile Fixture.temp_pdf).
  - left. vm_compute. left.
  - vm_compute. reflexivity.
Qed.

Lemma cleanup_temp_files_effect_witness :
  temp_dir Fixture.exported = Some ["tmp"; "word_appendix_0"] ∧
  ["tmp"; "word_appendix_0"] ∈ files Fixture.exported ∧
  ["tmp"; "word_appendix_0"]
    ∉ files (cleanup_temp_files Fixture.env Fixture.exported).2.
Proof.
  assert (temp_dir Fixture.exported = Some ["tmp"; "word_appendix_0"]) as Hd
    by (vm_compute; reflexivity).
  split; [exact Hd|]. split; [vm_compute; reflexivity|].
  destruct (cleanup_temp_files_effect Fixture.env Fixture.exported)
    as (s' & -> & _ & _ & _ & _ & Hdir & _).
  apply (Hdir ["tmp"; "word_appendix_0"] Hd);
    [discriminate|reflexivity|].
  intros (q & _ & _ & [e He]). discriminate He.
Defined.

(** C10, as the claim words it, fails: when an input before the missing one
    cannot be read, the [PDFError] wraps that failure, not a
    [PDFNotFoundError]. *)
Lemma merge_pdfs_wraps_first_failure :
  ¬ ∀ (env : Env) (s : State WordManager) (l : list path) (out : path),
      (∃ p, p ∈ l ∧ p ∉ files s) →
      ∃ e e', (merge_pdfs env l out s).1 = Raise e ∧ exn_class e = PDFError
              ∧ exn_context e = Some e'
              ∧ exn_class e' = PDFNotFoundError.
Proof.
  intros H.
  destruct (H Fixture.corrupt_env Fixture.s0
              [Fixture.a_pdf; ["work"; "gone.pdf"]] ["out.pdf"])
    as (e & e' & Hrun & _ & Hctx & Hcls).
  - exists ["work"; "gone.pdf"]. split; [set_solver|].
    vm_compute. discriminate.
  - vm_compute in Hrun. injection Hrun as <-. simpl in Hctx.
    injection Hctx as <-. discriminate Hcls.
Qed.

(** ** The concrete session, run *)

Example validate_two :
  (validate_appendices Fixture.env
     [Fixture.appendix_a; Fixture.appendix_gone] Fixture.s0).1
  = Return ["Appendix 2: PDF file not found: work/gone.pdf"].
Proof. vm_compute. reflexivity. Qed.

Example add_three :
  (add_multiple_appendices Fixture.env
     [Fixture.appendix_a; Fixture.appendix_gone; Fixture.appendix_b]
     Fixture.s0).1
  = Return 2.
Proof. vm_compute. reflexivity. Qed.

Example locked_export_stays :
  Fixture.temp_pdf
    ∈ files (cleanup_temp_files Fixture.locked_env Fixture.exported_locked).2
  ∧ temp_files (cleanup_temp_files Fixture.locked_env
                  Fixture.exported_locked).2 = [].
Proof. split; vm_compute; reflexivity. Qed.

(** When the handler's temporary directory may not be looked at, the
    handler keeps it, and its list, and logs the error. *)
Example unchecked_directory_is_kept :
  let s := set__temp_files [Fixture.vault_pdf]
             (set_temp_dir (Some ["vault"; "word_appendix_0"]) Fixture.s0) in
  let s' := (cleanup_temp_files Fixture.vault_env s).2 in
  (cleanup_temp_files Fixture.vault_env s).1 = Return tt
  ∧ temp_dir s' = Some ["vault"; "word_appendix_0"]
  ∧ _temp_files s' = [Fixture.vault_pdf]
  ∧ events s'
    = events s ++
      [Log WARNING ("Could not remove temp file vault/c.pdf: " +:+
                    "[Errno 13] Permission denied");
       Log ERROR ("Error during temp file cleanup: " +:+
                  "[Errno 13] Permission denied");
       Log INFO "Cleaned up temporary files"].
Proof. cbv zeta. split_and!; vm_compute; reflexivity. Qed.

(** * Further properties of the code *)

(** ** The temporary directory *)

Section TempDirectory.
Context {D : Type} `{!DocumentBackend D} (env : Env).
Implicit Types (s : State D).

(** X1: once [create_temp_directory] has returned a directory, the handler
    remembers it, and every later call returns the same directory and
    changes nothing: no second directory is made. *)
Theorem create_temp_directory_reuses s d s' :
  create_temp_directory env s = (Return d, s') →
  d ≠ [] →
  temp_dir s' = Some d ∧ create_temp_directory env s' = (Return d, s').
Proof.
  unfold create_temp_directory. unfold Py.bind at 1, Py.get at 1.
  intros Hrun Hd.
  assert (temp_dir s' = Some d) as Hdir.
  { revert Hrun. destruct (temp_dir s) as [[|c d0]|] eqn:Hs;
      [|by intros [= <- <-]|];
      py_unfold;
      (destruct (settings env ≫= advanced_temp_directory) as [[|? ?]|];
       simpl; (destruct (mkdtemp env _); simpl; [by intros [= <- <-]|done])). }
  split; [done|]. unfold Py.bind at 1, Py.get at 1. rewrite Hdir.
  by destruct d.
Qed.

Lemma cleanup_temp_files_forgets s :
  dir_check_error env s = None →
  let s1 := (cleanup_temp_files env s).2 in
  temp_files s1 = [] ∧ _temp_files s1 = [] ∧ temp_dir s1 = None.
Proof.
  intros Hdc. rewrite cleanup_temp_files_run. cbn [snd].
  set (s2 := set_temp_files [] _).
  destruct (delete_all_fields env "Could not delete temp file "
              (temp_files s) s) as (_ & _ & Hd1 & _).
  destruct (after_handler_fields env s2) as (_ & Ht & _ & _ & Hm).
  cbv zeta in *.
  assert (dir_check_error env s2 = None) as Hdc2.
  { unfold dir_check_error in *. subst s2. cbn [temp_dir set_temp_files].
    by rewrite Hd1. }
  rewrite Hdc2 in Hm. destruct Hm as (? & ? & _).
  cbn. split_and!; [|done|done]. by rewrite Ht.
Qed.

(** X2: after a [cleanup_temp_files] in which the check of the temporary
    directory did not raise, a second one deletes nothing and changes
    nothing: it only logs once more. *)
Theorem cleanup_temp_files_twice s :
  dir_check_error env s = None →
  let s1 := (cleanup_temp_files env s).2 in
  cleanup_temp_files env s1
  = (Return tt, emit (Log INFO "Cleaned up temporary files") s1).
Proof.
  intros Hdc s1. destruct (cleanup_temp_files_forgets s Hdc) as (H1 & H2 & H3).
  fold s1 in H1, H2, H3. clearbody s1.
  rewrite cleanup_temp_files_run. rewrite H1. cbn [delete_all foldl].
  unfold after_handler, dir_check_error, after_rmtree.
  cbn [temp_dir _temp_files set_temp_files]. rewrite H2, H3.
  cbn [delete_all foldl].
  destruct s1; simpl in *; by subst.
Qed.
End TempDirectory.

Lemma cleanup_temp_files_twice_witness :
  let s1 := (cleanup_temp_files Fixture.env Fixture.exported).2 in
  temp_files Fixture.exported ≠ []
  ∧ cleanup_temp_files Fixture.env s1
    = (Return tt, emit (Log INFO "Cleaned up temporary files") s1).
Proof.
  split; [vm_compute; discriminate|].
  apply (cleanup_temp_files_twice Fixture.env Fixture.exported).
  vm_compute. reflexivity.
Defined.

Lemma create_temp_directory_reuses_witness :
  let r := create_temp_directory Fixture.env Fixture.s0 in
  r.1 = Return ["tmp"; "word_appendix_0"]
  ∧ create_temp_directory Fixture.env r.2
    = (Return ["tmp"; "word_appendix_0"], r.2).
Proof.
  intros r.
  assert (r = (Return ["tmp"; "word_appendix_0"], r.2)) as Hrun
    by (vm_compute; reflexivity).
  split; [by rewrite Hrun|].
  apply (create_temp_directory_reuses Fixture.env Fixture.s0
           ["tmp"; "word_appendix_0"] r.2 Hrun).
  discriminate.
Defined.

(** ** The summary and the page bookkeeping *)

Lemma foldr_Zadd_snoc (l : list Z) (x : Z) :
  foldr Z.add 0 (l ++ [x]) = foldr Z.add 0 l + x.
Proof. induction l as [|y l IH]; simpl; lia. Qed.

Lemma pages_add_up_snoc (l : list AppendixInfo) (r : AppendixInfo) :
  pages_add_up l →
  start_page r = next_start_page l →
  end_page r = start_page r + page_count r - 1 →
  pages_add_up (l ++ [r]).
Proof.
  unfold pages_add_up, next_start_page. intros Hl Hs He.
  rewrite last_snoc, fmap_app.
  change (page_count <$> [r]) with [page_count r].
  rewrite foldr_Zadd_snoc. lia.
Qed.

Section Summary.
Context {D : Type} `{!DocumentBackend D} (env : Env).
Implicit Types (s : State D).

Lemma same_appendices_keeps_total {A} (m : @Py.M (State D) A) :
  preserves same_appendices m → preserves keeps_total m.
Proof. intros H s Hc. by rewrite (H s). Qed.

Lemma keeps_total_add_appendix a :
  preserves (@keeps_total D) (add_appendix env a).
Proof.
  intros s Hc.
  destruct (add_appendix_cases env a s)
    as [(_&_&->)|[(_&_&_&->)|[(_&_&_&_&->)|[(_&_&_&_&->)|(_&?&_&_&->)]]]];
    try done.
  by apply pages_add_up_snoc.
Qed.

Lemma keeps_total_add_multiple_loop l n :
  preserves (@keeps_total D) (add_multiple_loop env l n).
Proof.
  pose proof keeps_total_add_appendix.
  revert n. induction l as [|a l IH]; intros n; simpl;
    frame_with ltac:(by unfold keeps_total).
Qed.

Lemma keeps_total_add_multiple l :
  preserves (@keeps_total D) (add_multiple_appendices env l).
Proof.
  pose proof keeps_total_add_multiple_loop.
  unfold add_multiple_appendices. frame_with ltac:(by unfold keeps_total).
Qed.

Lemma reset_empties s : appendices_added (reset env s).2 = [].
Proof.
  unfold reset. py_unfold. simpl.
  pose proof (same_appendices_cleanup env (set_appendices_added [] s)) as Hs.
  unfold same_appendices in Hs. simpl in Hs.
  destruct (cleanup_temp_files env (set_appendices_added [] s))
    as [[[]|e] s1]; simpl in *; done.
Qed.

(** X3: in every state the coordinator can reach, the pages reported by
    [get_processing_summary] account for the page bookkeeping: the start
    page the next appendix would get is page 10 plus [total_pages], and
    [appendices_count] is the number of tracked records. *)
Theorem summary_accounts_for_pages s :
  reachable env s →
  (_calculate_start_page s).1
  = Return (10 + total_pages (get_processing_summary s))
  ∧ appendices_count (get_processing_summary s)
    = length (appendices_info (get_processing_summary s)).
Proof.
  intros Hreach. split; [|done].
  unfold _calculate_start_page, get_processing_summary. simpl. f_equal.
  change (pages_add_up (appendices_added s)).
  induction Hreach as [wm fs|a s _ IH|l s _ IH|l s _ IH|out s _ IH|s _ IH
                      |s _ IH].
  - reflexivity.
  - exact (keeps_total_add_appendix a s IH).
  - exact (keeps_total_add_multiple l s IH).
  - exact (same_appendices_keeps_total _
             (same_appendices_validate_loop env l 0 []) s IH).
  - exact (same_appendices_keeps_total _
             (same_appendices_create_final_pdf env out) s IH).
  - exact (same_appendices_keeps_total _
             (same_appendices_cleanup env) s IH).
  - rewrite reset_empties. reflexivity.
Qed.
End Summary.

Lemma summary_accounts_for_pages_witness :
  reachable Fixture.env Fixture.s2
  ∧ total_pages (get_processing_summary Fixture.s2) = 8
  ∧ (_calculate_start_page Fixture.s2).1 = Return 18.
Proof.
  assert (reachable Fixture.env Fixture.s2) as H.
  { apply reach_add_appendix, reach_add_appendix, reach_init. }
  split; [exact H|]. split; [vm_compute; reflexivity|].
  destruct (summary_accounts_for_pages Fixture.env Fixture.s2 H) as [Hs _].
  rewrite Hs. vm_compute. reflexivity.
Defined.

(** ** Resetting, closing, and what goes into the document *)

Section Reset.
Context {D : Type} `{!DocumentBackend D} (env : Env).
Implicit Types (s : State D).

Lemma delete_all_word_manager label l s :
  word_manager (delete_all env label l s) = word_manager s.
Proof.
  revert s. induction l as [|f l IH]; intros s; [done|].
  simpl. rewrite IH. unfold after_delete.
  destruct (exists_error env f); [done|].
  case_bool_decide; [destruct (unlink_error env f)|]; done.
Qed.

Lemma after_rmtree_word_manager s :
  word_manager (after_rmtree env s) = word_manager s.
Proof.
  unfold after_rmtree. destruct (temp_dir s) as [[|c d]|]; [done| |done].
  by case_bool_decide.
Qed.

Lemma after_handler_word_manager s :
  word_manager (after_handler env s) = word_manager s.
Proof.
  unfold after_handler. cbv zeta.
  destruct (dir_check_error env s); cbn;
    by rewrite ?after_rmtree_word_manager, delete_all_word_manager.
Qed.

Lemma cleanup_word_manager s :
  word_manager (cleanup_temp_files env s).2 = word_manager s.
Proof.
  rewrite cleanup_temp_files_run. cbn.
  rewrite after_handler_word_manager. cbn.
  by rewrite delete_all_word_manager.
Qed.

(** X4: [reset] always returns and forgets every tracked appendix and
    every temporary file of the coordinator, and those of the handler with
    its temporary directory unless the check of that directory raises; so
    the next appendix added starts at page 10 again.  It does not touch the
    document: the placeholder sections inserted so far stay in it. *)
Theorem reset_forgets_but_keeps_document s :
  ∃ s', reset env s = (Return tt, s')
    ∧ appendices_added s' = [] ∧ temp_files s' = []
    ∧ (dir_check_error env s = None →
       _temp_files s' = [] ∧ temp_dir s' = None)
    ∧ word_manager s' = word_manager s
    ∧ ∀ a, (add_appendix env a s').1 = Return true →
        ∃ r, appendices_added (add_appendix env a s').2 = [r]
             ∧ start_page r = 10 ∧ end_page r = 9 + page_count r.
Proof.
  unfold reset. unfold Py.bind at 1, Py.modify at 1. unfold Py.bind at 1.
  set (s0 := set_appendices_added [] s).
  pose proof (cleanup_temp_files_run env s0) as Hrun.
  pose proof (cleanup_temp_files_forgets env s0) as Hforget.
  pose proof (cleanup_word_manager s0) as Hwm.
  pose proof (same_appendices_cleanup env s0) as Happ.
  unfold same_appendices in Happ.
  assert (temp_files (cleanup_temp_files env s0).2 = []) as Htf.
  { rewrite cleanup_temp_files_run. cbn [snd].
    destruct (after_handler_fields env
                (set_temp_files []
                   (delete_all env "Could not delete temp file "
                      (temp_files s0) s0))) as (_ & Ht & _).
    cbv zeta in Ht. exact Ht. }
  destruct (cleanup_temp_files env s0) as [o s1]. injection Hrun as -> _.
  cbn [fst snd] in *. unfold log, Py.modify. eexists. split; [reflexivity|].
  cbn [appendices_added temp_files _temp_files temp_dir word_manager emit].
  split_and!; [done|done| |done|].
  { intros Hdc. by destruct (Hforget Hdc) as (_ & ? & ?). }
  intros a Ha.
  set (s' := emit (Log INFO "Appendix manager reset") s1) in *.
  destruct (add_appendix_cases env a s')
    as [(_&(e&He&_)&_)|[(_&_&(e&He&_)&_)|[(_&_&_&(e&He&_)&_)
       |[(_&_&_&He&_)|(_&_&_&_&Hl)]]]]; try congruence.
  exists (new_record a s'). rewrite Hl.
  assert (appendices_added s' = []) as Hnil
    by (subst s'; simpl; by rewrite Happ).
  rewrite Hnil. split; [done|]. unfold new_record. rewrite Hnil. simpl.
  split; [done|lia].
Qed.
End Reset.

Lemma reset_forgets_but_keeps_document_witness :
  let s' := (reset Fixture.env Fixture.s2).2 in
  (add_appendix Fixture.env Fixture.appendix_b s').1 = Return true
  ∧ ∃ r, appendices_added (add_appendix Fixture.env Fixture.appendix_b s').2
         = [r] ∧ start_page r = 10 ∧ end_page r = 9 + page_count r.
Proof.
  intros s'.
  assert ((add_appendix Fixture.env Fixture.appendix_b s').1 = Return true)
    as Hrun by (vm_compute; reflexivity).
  split; [exact Hrun|].
  destruct (reset_forgets_but_keeps_document Fixture.env Fixture.s2)
    as (s1 & Hreset & _ & _ & _ & _ & Hnext).
  assert (s' = s1) as -> by (subst s'; by rewrite Hreset).
  exact (Hnext Fixture.appendix_b Hrun).
Defined.

(** ** The document backend of the repository under the coordinator *)

Lemma page_breaks_app (d1 d2 : list DocElement) :
  page_breaks (d1 ++ d2) = (page_breaks d1 + page_breaks d2)%nat.
Proof. unfold page_breaks. by rewrite filter_app, length_app. Qed.

Lemma titles_of_app (d1 d2 : list DocElement) :
  titles_of (d1 ++ d2) = titles_of d1 ++ titles_of d2.
Proof. unfold titles_of. by rewrite omap_app. Qed.

Lemma blank_pages_content (n : Z) :
  page_breaks (WordManagerImpl.blank_pages n) = Z.to_nat (n - 1)
  ∧ titles_of (WordManagerImpl.blank_pages n) = [].
Proof.
  unfold WordManagerImpl.blank_pages.
  induction (Z.to_nat (n - 1)) as [|k [IH1 IH2]]; [done|].
  change (mjoin (replicate (S k) [PageBreak; Paragraph]))
    with ([PageBreak; Paragraph] ++ mjoin (replicate k [PageBreak; Paragraph])).
  rewrite page_breaks_app, titles_of_app, IH1, IH2. done.
Qed.

Section Backend.
Context {D : Type} `{!DocumentBackend D} (env : Env).
Implicit Types (a : AppendixData) (s : State D).

(** Where [add_appendix] calls the backend, and where it does not. *)
Lemma add_appendix_backend a s :
  word_manager (add_appendix env a s).2 =
  (if bool_decide (default [] (data_path a) ∈ files s)
      && negb (falsy_path (data_path a))
      && bool_decide (0 < default 0 (data_page_count a))
   then (add_appendix_section (default "Appendix" (data_title a))
           (default 0 (data_page_count a))
           (heading_style <$> settings env) (word_manager s)).2
   else word_manager s).
Proof.
  unfold add_appendix, call_add_appendix_section, _calculate_start_page.
  py_unfold. simpl.
  destruct (falsy_path (data_path a)) eqn:Hf; simpl.
  { by rewrite andb_false_r. }
  case_bool_decide as Hin; simpl; [|done].
  case_bool_decide as Hpc; simpl.
  { rewrite bool_decide_false by lia. done. }
  rewrite bool_decide_true by lia.
  by destruct (add_appendix_section _ _ _ _) as [[[|]|e] wm].
Qed.

Lemma same_files_add_appendix a :
  preserves (@same_files D) (add_appendix env a).
Proof.
  unfold add_appendix, _calculate_start_page.
  frame_with ltac:(by unfold same_files).
  intros s. unfold call_add_appendix_section.
  by destruct (add_appendix_section _ _ _ _).
Qed.

Lemma same_word_manager_create_temp_directory :
  preserves (@same_word_manager D) (create_temp_directory env).
Proof.
  unfold create_temp_directory. frame_with ltac:(by unfold same_word_manager).
Qed.
End Backend.

Section WordManagerBackend.
Context (env : Env).
Implicit Types (a : AppendixData) (s : State WordManager).

Lemma backend_outcome_word_manager a s :
  backend_outcome env a s =
  match active_document (word_manager s) with
  | None => Raise (MkExn WordDocumentError "No active document" None)
  | Some _ => Return true
  end.
Proof.
  unfold backend_outcome. simpl. unfold WordManagerImpl.add_appendix_section.
  destruct (active_document (word_manager s)); [|done].
  by destruct (com_available (word_manager s)).
Qed.

Lemma add_appendix_true_needs a s :
  (add_appendix env a s).1 = Return true →
  ¬ source_missing a s ∧ 0 < default 0 (data_page_count a)
  ∧ ∃ doc, active_document (word_manager s) = Some doc.
Proof.
  intros Hret.
  pose proof (backend_outcome_word_manager a s) as Hb.
  destruct (add_appendix_cases env a s)
    as [(_&(e&Ho&_)&_)|[(_&_&(e&Ho&_)&_)|[(_&_&_&(e&Ho&_)&_)
       |[(_&_&_&Ho&_)|(Hm&Hpc&Hb'&_)]]]]; try congruence.
  split_and!; [done..|].
  destruct (active_document (word_manager s)); [by eexists|congruence].
Qed.


(** X6: an [add_appendix] that returns [True] has put the placeholder
    section at the end of the open document and left what was there: one
    title, the one of the appendix, after a page break, and as many page
    breaks in all as the appendix has pages. *)
Theorem add_appendix_inserts_placeholders a s :
  (add_appendix env a s).1 = Return true →
  ∃ doc added,
    active_document (word_manager s) = Some doc
    ∧ active_document (word_manager (add_appendix env a s).2)
      = Some (doc ++ added)
    ∧ head added = Some PageBreak
    ∧ titles_of added = [default "Appendix" (data_title a)]
    ∧ Z.of_nat (page_breaks added) = default 0 (data_page_count a).
Proof.
  intros Hret.
  destruct (add_appendix_true_needs a s Hret) as (Hm & Hpc & doc & Hdoc).
  exists doc. rewrite add_appendix_backend.
  rewrite bool_decide_true, bool_decide_true; [|done|..].
  2:{ unfold source_missing in Hm. destruct (decide
        (default [] (data_path a) ∈ files s)); [done|tauto]. }
  assert (falsy_path (data_path a) = false) as ->.
  { unfold source_missing in Hm.
    destruct (falsy_path (data_path a)); [tauto|done]. }
  simpl. unfold WordManagerImpl.add_appendix_section. rewrite Hdoc.
  set (t := default "Appendix" (data_title a)).
  set (n := default 0 (data_page_count a)) in *.
  destruct (blank_pages_content n) as [Hpb Ht].
  destruct (com_available (word_manager s)); simpl;
    unfold WordManagerImpl._add_appendix_com,
      WordManagerImpl._add_appendix_docx;
    eexists; (split_and!; [done|done| | |]).
  - done.
  - rewrite titles_of_app, Ht. done.
  - rewrite page_breaks_app, Hpb. unfold page_breaks. simpl.
    lia.
  - done.
  - rewrite titles_of_app, Ht. done.
  - rewrite page_breaks_app, Hpb. unfold page_breaks. simpl.
    lia.
Qed.
End WordManagerBackend.
Lemma add_appendix_inserts_placeholders_witness :
  (add_appendix Fixture.env Fixture.appendix_a Fixture.s0).1 = Return true
  ∧ ∃ doc added,
      active_document (word_manager Fixture.s0) = Some doc
      ∧ active_document
          (word_manager
             (add_appendix Fixture.env Fixture.appendix_a Fixture.s0).2)
        = Some (doc ++ added)
      ∧ head added = Some PageBreak
      ∧ titles_of added = ["Appendix A"]
      ∧ Z.of_nat (page_breaks added) = 3.
Proof.
  assert ((add_appendix Fixture.env Fixture.appendix_a Fixture.s0).1
          = Return true) as Hrun by (vm_compute; reflexivity).
  split; [exact Hrun|].
  exact (add_appendix_inserts_placeholders Fixture.env Fixture.appendix_a
           Fixture.s0 Hrun).
Defined.

Section ClosedDocument.
Context (env : Env).
Implicit Types (a : AppendixData) (s : State WordManager).

Lemma add_appendix_no_document a s :
  active_document (word_manager s) = None →
  raises_class (add_appendix env a s).1 AppendixError
  ∧ appendices_added (add_appendix env a s).2 = appendices_added s
  ∧ word_manager (add_appendix env a s).2 = word_manager s.
Proof.
  intros Hdoc.
  pose proof (backend_outcome_word_manager env a s) as Hb.
  rewrite Hdoc in Hb.
  split_and!.
  - destruct (add_appendix_cases env a s)
      as [(_&Hr&_)|[(_&_&Hr&_)|[(_&_&_&Hr&_)
         |[(_&_&Hb'&_)|(_&_&Hb'&_)]]]]; congruence.
  - destruct (add_appendix_cases env a s)
      as [(_&_&Hl)|[(_&_&_&Hl)|[(_&_&_&_&Hl)
         |[(_&_&Hb'&_)|(_&_&Hb'&_)]]]]; congruence.
  - rewrite add_appendix_backend. simpl.
    unfold WordManagerImpl.add_appendix_section. rewrite Hdoc.
    by destruct (_ && _).
Qed.

Lemma add_multiple_loop_no_document l n s :
  active_document (word_manager s) = None →
  let r := add_multiple_loop env l n s in
  r.1 = Return n ∧ appendices_added r.2 = appendices_added s
  ∧ word_manager r.2 = word_manager s.
Proof.
  revert n s. induction l as [|a l IH]; intros n s Hdoc; [done|].
  rewrite add_multiple_loop_cons.
  destruct (add_appendix_no_document a s Hdoc) as ((e & Ho & _) & Hl & Hw).
  destruct (add_appendix env a s) as [o s1]. simpl in *. subst o. simpl.
  set (s2 := emit _ s1).
  destruct (IH n s2) as (Hr & Hl' & Hw'); [simpl; congruence|].
  split_and!; [done|by rewrite Hl'|by rewrite Hw'].
Qed.

(** X7: once the document is closed nothing can be added: every
    [add_appendix] raises an [AppendixError], and
    [add_multiple_appendices] returns 0 for every list, tracks nothing and
    leaves the backend closed. *)
Theorem closed_document_takes_no_appendix l s :
  let s0 := (close_word_manager s).2 in
  let r := add_multiple_appendices env l s0 in
  r.1 = Return 0
  ∧ appendices_added r.2 = appendices_added s
  ∧ word_manager r.2 = close (word_manager s)
  ∧ ∀ a, raises_class (add_appendix env a s0).1 AppendixError.
Proof.
  intros s0 r. subst r.
  assert (active_document (word_manager s0) = None) as Hdoc by done.
  destruct (add_multiple_loop_no_document l 0 s0 Hdoc) as (Hr & Hl & Hw).
  unfold add_multiple_appendices. py_unfold.
  destruct (add_multiple_loop env l 0 s0) as [o s1]. simpl in *. subst o.
  simpl. split_and!; [done|by rewrite Hl|by rewrite Hw|].
  intros a. by destruct (add_appendix_no_document a s0 Hdoc).
Qed.

(** X8: without COM automation, or without an open document,
    [create_final_pdf] cannot succeed: it raises an [AppendixError], calls
    neither [shutil.copy2] nor [merge_pdfs], and the tracked appendices stay
    as they are. *)
Theorem create_final_pdf_needs_com output_path s :
  com_available (word_manager s) = false
  ∨ active_document (word_manager s) = None →
  let r := create_final_pdf env output_path s in
  raises_class r.1 AppendixError
  ∧ (∃ new, events r.2 = events s ++ new ∧ pdf_calls new = [])
  ∧ appendices_added r.2 = appendices_added s.
Proof.
  intros Hwm r. subst r. rewrite create_final_pdf_run.
  destruct (export_word_to_pdf_run env s) as (new & Hnew & Hcalls & Happ & _).
  assert (∃ e, (_export_word_to_pdf env s).1 = Raise e) as [e He].
  { unfold _export_word_to_pdf, call_export_as_pdf. py_unfold.
    pose proof (same_word_manager_create_temp_directory env s) as Hsame.
    unfold same_word_manager in Hsame.
    destruct (create_temp_directory env s) as [[d|e] s1]; simpl in *;
      [|by eexists].
    rewrite Hsame. unfold WordManagerImpl.export_as_pdf.
    destruct (active_document (word_manager s)) as [doc|]; simpl;
      [|by eexists].
    destruct Hwm as [->|?]; [|done]. simpl. by eexists. }
  destruct (_export_word_to_pdf env s) as [o s1]. simpl in *. subst o.
  unfold final_error. simpl. split_and!.
  - by eexists.
  - exists (new ++ [Log ERROR ("Failed to create final PDF: " +:+ str_exn e)]).
    rewrite Hnew, <-app_assoc. split; [done|].
    unfold pdf_calls in *. by rewrite filter_app, Hcalls.
  - done.
Qed.
End ClosedDocument.

Lemma create_final_pdf_needs_com_witness :
  let s := init docx_word_manager Fixture.fs in
  com_available (word_manager s) = false
  ∧ raises_class (create_final_pdf Fixture.env None s).1 AppendixError.
Proof.
  intros s. split; [reflexivity|].
  destruct (create_final_pdf_needs_com Fixture.env None s) as (Hr & _).
  - left. reflexivity.
  - exact Hr.
Defined.

(** ** What [validate_pdf_file] answers *)

Section ValidatePdf.
Context {D : Type} (env : Env).
Implicit Types (s : State D) (p : path).

(** X9: the check that the file is there comes before the [try]: an
    [OSError] of [exists] leaves [validate_pdf_file] as it is.  When that
    check can be made, [validate_pdf_file] raises a [PDFNotFoundError]
    exactly when the file is not there, and a [PDFCorruptedError] for every
    other failure.  A file the PDF library opens is accepted whatever its
    size: the result is marked valid, carries the size and what the library
    reported, and at most three warnings; the file system is left as it
    was. *)
Theorem validate_pdf_file_outcomes p s :
  let o := (validate_pdf_file env p s).1 in
  (∀ e, exists_error env p = Some e → o = Raise e)
  ∧ (exists_error env p = None →
     (raises_class o PDFNotFoundError ↔ p ∉ files s)
     ∧ (∀ e, o = Raise e →
          exn_class e = PDFNotFoundError ∨ exn_class e = PDFCorruptedError))
  ∧ (∀ r, o = Return r →
       valid r = true ∧ result_path r = p ∧ size_bytes r = st_size env p
       ∧ open_pdf env p = Return (info_page_count r, encrypted r)
       ∧ (length (warnings r) ≤ 3)%nat)
  ∧ (∀ n enc, exists_error env p = None → p ∈ files s →
       PYMUPDF_AVAILABLE env || PYPDF_AVAILABLE env = true →
       open_pdf env p = Return (n, enc) → ∃ r, o = Return r)
  ∧ files (validate_pdf_file env p s).2 = files s.
Proof.
  intros o. subst o. split_and!.
  - intros e He. unfold validate_pdf_file. py_unfold. by rewrite He.
  - intros Hex. split.
    + unfold validate_pdf_file, _get_pdf_info, raises_class. py_unfold.
      rewrite Hex. case_bool_decide as Hin; simpl.
      2:{ split; [done|]. intros _. by eexists. }
      split; [|done]. intros (e & He & Hc). exfalso. revert He.
      destruct (size_mb_gt _ _); simpl;
        destruct (_ || _); simpl;
        destruct (open_pdf env p) as [[n b]|e0]; simpl;
        intros [= <-]; discriminate Hc.
    + intros e. unfold validate_pdf_file, _get_pdf_info. py_unfold.
      rewrite Hex.
      case_bool_decide as Hin; simpl; [|intros [= <-]; by left].
      destruct (size_mb_gt _ _); simpl;
        destruct (_ || _); simpl;
        destruct (open_pdf env p) as [[n b]|e0]; simpl;
        intros [= <-]; by right.
  - intros r. unfold validate_pdf_file, _get_pdf_info. py_unfold.
    destruct (exists_error env p); [done|].
    case_bool_decide as Hin; simpl; [|done].
    destruct (size_mb_gt (st_size env p) (max_size_mb env)); simpl;
      destruct (_ || _); simpl; try done;
      destruct (open_pdf env p) as [[n b]|e0]; simpl; try done;
      intros [= <-]; simpl; (split_and!; [done..|]);
      destruct (size_mb_gt _ _), (bool_decide _), b; simpl; lia.
  - intros n enc Hex Hin Hlib Hopen.
    unfold validate_pdf_file, _get_pdf_info. py_unfold.
    rewrite Hex, bool_decide_true by done. simpl. rewrite Hlib, Hopen.
    destruct (size_mb_gt _ _); simpl; by eexists.
  - apply (same_files_validate_pdf_file env p s).
Qed.
End ValidatePdf.

Lemma validate_pdf_file_outcomes_witness :
  Fixture.a_pdf ∈ files Fixture.s0
  ∧ (∃ r, (validate_pdf_file Fixture.env Fixture.a_pdf Fixture.s0).1
          = Return r)
  ∧ (validate_pdf_file Fixture.vault_env Fixture.vault_pdf Fixture.s0).1
    = Raise Fixture.permission_denied.
Proof.
  assert (Fixture.a_pdf ∈ files Fixture.s0) as Hin
    by (vm_compute; reflexivity).
  split; [exact Hin|]. split.
  - destruct (validate_pdf_file_outcomes Fixture.env Fixture.a_pdf
                Fixture.s0) as (_ & _ & _ & Hret & _).
    exact (Hret 3 false eq_refl Hin eq_refl eq_refl).
  - destruct (validate_pdf_file_outcomes Fixture.vault_env Fixture.vault_pdf
                Fixture.s0) as (Hraise & _).
    apply Hraise. reflexivity.
Defined.

(** ** What the coordinator does to the file system *)

Section FileSystem.
Context {D : Type} `{!DocumentBackend D} (env : Env).
Implicit Types (a : AppendixData) (s : State D) (w : path).

Lemma same_files_add_multiple_loop l n :
  preserves (@same_files D) (add_multiple_loop env l n).
Proof.
  pose proof (@same_files_add_appendix D _ env).
  revert n. induction l as [|a l IH]; intros n; simpl;
    frame_with ltac:(by unfold same_files).
Qed.

Lemma same_files_validate_loop l : ∀ i errors,
  preserves (@same_files D) (validate_loop env i l errors).
Proof.
  pose proof (@same_files_validate_pdf_file D env).
  induction l as [|a l IH]; intros i errors; simpl;
    [frame_with ltac:(by unfold same_files)|].
  destruct (falsy_path (data_path a)); [apply IH|].
  frame_with ltac:(by unfold same_files).
Qed.

(** X12: adding and validating appendices never touches the file system:
    the source PDFs are only looked at. *)
Theorem adding_and_validating_leave_files a l s :
  files (add_appendix env a s).2 = files s
  ∧ files (add_multiple_appendices env l s).2 = files s
  ∧ files (validate_appendices env l s).2 = files s.
Proof.
  split_and!.
  - apply (same_files_add_appendix env a s).
  - pose proof (same_files_add_multiple_loop l) as H.
    assert (preserves (@same_files D) (add_multiple_appendices env l)) as Hp.
    { unfold add_multiple_appendices.
      frame_with ltac:(by unfold same_files). }
    apply (Hp s).
  - apply (same_files_validate_loop l 0%nat [] s).
Qed.

End FileSystem.

Section FileSystemWordManager.
Context (env : Env).
Implicit Types (s : State WordManager) (w : path).

Lemma files_grow_create_temp_directory :
  preserves (@files_grow WordManager) (create_temp_directory env).
Proof.
  unfold create_temp_directory.
  frame_with ltac:(unfold files_grow; simpl; set_solver).
Qed.

Lemma files_grow_merge_pdfs l out :
  preserves (@files_grow WordManager) (merge_pdfs env l out).
Proof.
  intros s. destruct (decide (l = [])) as [->|Hl];
    [unfold files_grow; simpl; set_solver|].
  rewrite merge_pdfs_run by done. cbv zeta. unfold files_grow.
  destruct (_ || _); [|simpl; set_solver].
  destruct (merge_failure _ _ _); [simpl; set_solver|].
  destruct (write_error env out); simpl; set_solver.
Qed.

Lemma files_grow_replace_blank_pages w output_path :
  preserves (@files_grow WordManager) (_replace_blank_pages env w output_path).
Proof.
  intros s. rewrite replace_blank_pages_run. cbv zeta.
  case_bool_decide; [|unfold files_grow; simpl; set_solver].
  destruct (copy_error env w _); [unfold files_grow; simpl; set_solver|].
  destruct (appendices_added s); [unfold files_grow; simpl; set_solver|].
  cbn [snd]. etrans; [|apply files_grow_merge_pdfs].
  unfold files_grow. simpl. set_solver.
Qed.

(** What a successful [_export_word_to_pdf] leaves: the export is in the
    temporary directory, on disk and tracked. *)
Lemma export_word_to_pdf_result s w s1 :
  _export_word_to_pdf env s = (Return w, s1) →
  files s ⊆ files s1
  ∧ w ∈ files s1 ∧ w ∈ temp_files s1
  ∧ ∃ d, temp_dir s1 = Some d ∧ w = joinpath d "word_document.pdf".
Proof.
  unfold _export_word_to_pdf, call_export_as_pdf. py_unfold.
  pose proof (files_grow_create_temp_directory s) as Hgrow.
  assert (∀ d s', create_temp_directory env s = (Return d, s') →
                  temp_dir s' = Some d) as Hdir.
  { intros d s'. unfold create_temp_directory. py_unfold.
    destruct (temp_dir s) as [[|c d0]|] eqn:Hs;
      [|by intros [= <- <-]|];
      (destruct (settings env ≫= advanced_temp_directory) as [[|? ?]|];
       simpl; (destruct (mkdtemp env _); simpl; [by intros [= <- <-]|done])). }
  destruct (create_temp_directory env s) as [[d|e] s0]; simpl in *; [|done].
  specialize (Hdir d s0 eq_refl). unfold files_grow in Hgrow.
  unfold WordManagerImpl.export_as_pdf.
  destruct (active_document (word_manager s0)); simpl; [|done].
  destruct (com_available (word_manager s0)); simpl; [|done].
  rewrite bool_decide_true by set_solver. simpl.
  intros [= <- <-]. simpl. split_and!; [set_solver|set_solver|set_solver|].
  by exists d.
Qed.

(** X13: [create_final_pdf] deletes nothing but its own exported PDF in the
    temporary directory; when it raises it deletes nothing at all. *)
Theorem create_final_pdf_deletes_only_its_export output_path s :
  let r := create_final_pdf env output_path s in
  (∀ p, p ∈ files s →
     p ∈ files r.2
     ∨ ∃ d, temp_dir r.2 = Some d ∧ p = joinpath d "word_document.pdf")
  ∧ ((∃ e, r.1 = Raise e) → files s ⊆ files r.2).
Proof.
  intros r. subst r. rewrite create_final_pdf_run. unfold final_error.
  destruct (_export_word_to_pdf env s) as [[w|e] s1] eqn:Hexp.
  2:{ assert (files s ⊆ files s1) as Hsub.
      { revert Hexp. unfold _export_word_to_pdf, call_export_as_pdf.
        py_unfold.
        pose proof (files_grow_create_temp_directory s) as Hgrow.
        unfold files_grow in Hgrow.
        destruct (create_temp_directory env s) as [[d|e0] s0]; simpl in *;
          [|by intros [= _ <-]].
        unfold WordManagerImpl.export_as_pdf.
        destruct (active_document (word_manager s0)); simpl;
          [|by intros [= _ <-]].
        destruct (com_available (word_manager s0)); simpl;
          [|by intros [= _ <-]].
        rewrite bool_decide_true by set_solver. simpl. done. }
      simpl. split; [|done]. intros p Hp. left. set_solver. }
  destruct (export_word_to_pdf_result s w s1 Hexp)
    as (Hsub & Hw & _ & d & Hd & ->).
  pose proof (files_grow_replace_blank_pages
                (joinpath d "word_document.pdf") output_path s1) as Hgrow.
  unfold files_grow in Hgrow.
  assert (temp_dir (_replace_blank_pages env
                      (joinpath d "word_document.pdf") output_path s1).2
          = Some d) as Hd2.
  { rewrite replace_blank_pages_run. cbv zeta.
    case_bool_decide; [|done].
    destruct (copy_error env _ _); [done|].
    destruct (appendices_added s1) eqn:Hl; [done|].
    rewrite merge_pdfs_run by done. cbv zeta.
    destruct (_ || _); [|done].
    destruct (merge_failure _ _ _); [done|].
    by destruct (write_error env _). }
  destruct (_replace_blank_pages env _ output_path s1) as [[final|e] s2];
    simpl in *.
  2:{ split; [|set_solver]. intros p Hp. left. set_solver. }
  case_bool_decide; [destruct (unlink_error env _)|]; simpl.
  - split; [|set_solver]. intros p Hp. left. set_solver.
  - split; [|by intros [? ?]]. intros p Hp.
    destruct (decide (p = joinpath d "word_document.pdf")) as [->|Hne].
    + right. by exists d.
    + left. set_solver.
  - split; [|by intros [? ?]]. intros p Hp. left. set_solver.
Qed.

(** X10: an output path that is given is used as it is, whether or not a
    file is already there, and the returned path is on disk when
    [create_final_pdf] returns, unless it is the path of the export
    itself. *)
Theorem explicit_output_path_is_used out s final :
  out ≠ [] →
  (create_final_pdf env (Some out) s).1 = Return final →
  final = out
  ∧ (out ∈ files (create_final_pdf env (Some out) s).2
     ∨ ∃ d, temp_dir (create_final_pdf env (Some out) s).2 = Some d
            ∧ out = joinpath d "word_document.pdf").
Proof.
  intros Hout. rewrite create_final_pdf_run. unfold final_error.
  destruct (_export_word_to_pdf env s) as [[w|e] s1] eqn:Hexp; [|done].
  destruct (export_word_to_pdf_result s w s1 Hexp)
    as (_ & Hw & _ & d & Hd & ->).
  assert (chosen_output env (Some out) s1 = out) as Hch
    by (unfold chosen_output; by destruct out).
  assert (∀ p s2, _replace_blank_pages env (joinpath d "word_document.pdf")
                    (Some out) s1 = (Return p, s2) →
                  p = out ∧ out ∈ files s2 ∧ temp_dir s2 = Some d) as Hrep.
  { intros p s2. rewrite replace_blank_pages_run, Hch. cbv zeta.
    case_bool_decide; [|done].
    destruct (copy_error env _ _); [done|].
    destruct (appendices_added s1) eqn:Hl.
    { intros [= <- <-]. simpl. split_and!; [done|set_solver|done]. }
    rewrite merge_pdfs_run by done. cbv zeta.
    destruct (_ || _); [|done].
    destruct (merge_failure _ _ _); [done|].
    destruct (write_error env _); [done|]. simpl.
    intros [= <- <-]. simpl. split_and!; [done|set_solver|done]. }
  destruct (_replace_blank_pages env _ (Some out) s1) as [[p|e] s2];
    [|done].
  destruct (Hrep p s2 eq_refl) as (-> & Hin & Hd2).
  case_bool_decide; [destruct (unlink_error env _)|]; simpl; [done| |].
  - intros [= <-]. split; [done|].
    destruct (decide (out = joinpath d "word_document.pdf")) as [->|Hne].
    + right. by exists d.
    + left. set_solver.
  - intros [= <-]. split; [done|]. by left.
Qed.
End FileSystemWordManager.

Lemma explicit_output_path_is_used_witness :
  (create_final_pdf Fixture.env (Some ["out.pdf"]) Fixture.s2).1
  = Return ["out.pdf"]
  ∧ ["out.pdf"]
    ∈ files (create_final_pdf Fixture.env (Some ["out.pdf"]) Fixture.s2).2.
Proof.
  assert ((create_final_pdf Fixture.env (Some ["out.pdf"]) Fixture.s2).1
          = Return ["out.pdf"]) as Hrun by (vm_compute; reflexivity).
  split; [exact Hrun|].
  destruct (explicit_output_path_is_used Fixture.env ["out.pdf"] Fixture.s2
              ["out.pdf"]) as (_ & [Hin|(d & Hd & Heq)]).
  - discriminate.
  - exact Hrun.
  - exact Hin.
  - vm_compute in Hd. injection Hd as <-. discriminate Heq.
Defined.

(** ** More about the titles *)

Lemma chr_inj (n m : nat) :
  (n < 256)%nat → (m < 256)%nat → chr n = chr m → n = m.
Proof.
  unfold chr. intros Hn Hm [= H].
  apply (f_equal Ascii.nat_of_ascii) in H.
  by rewrite !Ascii.nat_ascii_embedding in H.
Qed.

Lemma alphabet_get (k : nat) :
  (k < 26)%nat → String.get k alphabet = Some (Ascii.ascii_of_nat (65 + k)).
Proof.
  intros Hk. do 26 (destruct k as [|k]; [reflexivity|]). lia.
Qed.

Lemma generate_appendix_title_inj (style : string) (i j : nat) :
  (style ≠ "numeric" → (i < 4992 ∧ j < 4992)%nat) →
  _generate_appendix_title style i = _generate_appendix_title style j →
  i = j.
Proof.
  unfold _generate_appendix_title. intros Hb.
  destruct (decide (style = "numeric")) as [_|Hs].
  { intros H%(inj (String.app "Appendix ")). apply pretty_nat_inj in H. lia. }
  destruct (Hb Hs) as [Hi Hj]. unfold ord_A.
  pose proof (Nat.div_mod_eq i 26) as Hdi.
  pose proof (Nat.div_mod_eq j 26) as Hdj.
  pose proof (Nat.mod_upper_bound i 26 ltac:(lia)) as Hmi.
  pose proof (Nat.mod_upper_bound j 26 ltac:(lia)) as Hmj.
  destruct (decide (i < 26)%nat), (decide (j < 26)%nat);
    intros H%(inj (String.app "Appendix ")).
  - apply chr_inj in H; lia.
  - unfold chr in H. rewrite string_app_cons, string_app_nil in H.
    discriminate H.
  - unfold chr in H. rewrite string_app_cons, string_app_nil in H.
    discriminate H.
  - remember (65 + i / 26 - 1)%nat as a1 eqn:Ha1.
    remember (65 + i `mod` 26)%nat as b1 eqn:Hb1.
    remember (65 + j / 26 - 1)%nat as a2 eqn:Ha2.
    remember (65 + j `mod` 26)%nat as b2 eqn:Hb2.
    unfold chr in H. rewrite !string_app_cons, !string_app_nil in H.
    injection H as H1 H2.
    apply (f_equal Ascii.nat_of_ascii) in H1, H2.
    rewrite !Ascii.nat_ascii_embedding in H1, H2 by lia. lia.
Qed.

(** X14: no two appendices get the same title: under the numeric style
    the titles of different indices differ, and so they do under the
    alphabetical style as far as its characters are modelled (an index below
    4992, far beyond the letters). *)
Theorem generated_titles_distinct (style : string) (i j : nat) :
  (style ≠ "numeric" → (i < 4992 ∧ j < 4992)%nat) →
  i ≠ j →
  _generate_appendix_title style i ≠ _generate_appendix_title style j.
Proof.
  intros Hb Hij Heq. by apply Hij, (generate_appendix_title_inj style).
Qed.

Lemma generated_titles_distinct_witness :
  (27 < 4992 ∧ 1 < 4992)%nat
  ∧ _generate_appendix_title "alphabetical" 27
    ≠ _generate_appendix_title "alphabetical" 1.
Proof.
  assert (27 < 4992 ∧ 1 < 4992)%nat as Hb by lia.
  split; [exact Hb|].
  apply (generated_titles_distinct "alphabetical" 27 1); [|discriminate].
  intros _. exact Hb.
Defined.

(** X15: from the 27th appendix to the 702nd the alphabetical title has two
    letters: the letter number [i / 26] of the alphabet, then the letter at
    index [i mod 26], so that "AA" follows "Z" and "BA" follows "AZ". *)
Theorem two_letter_titles (i : nat) :
  (26 ≤ i < 702)%nat →
  ∃ c1 c2,
    String.get (i / 26 - 1) alphabet = Some c1
    ∧ String.get (i `mod` 26) alphabet = Some c2
    ∧ _generate_appendix_title "alphabetical" i
      = "Appendix " +:+ String c1 (String c2 "").
Proof.
  intros [Hlo Hhi].
  pose proof (Nat.div_mod_eq i 26) as Hd.
  pose proof (Nat.mod_upper_bound i 26 ltac:(lia)) as Hm.
  eexists _, _. split_and!.
  - apply alphabet_get. lia.
  - apply alphabet_get. lia.
  - unfold _generate_appendix_title, ord_A, chr.
    rewrite decide_False by done. rewrite decide_False by lia.
    rewrite (string_app_cons _ "" _), string_app_nil.
    do 3 f_equal. f_equal. lia.
Qed.

Lemma two_letter_titles_witness :
  ∃ c1 c2,
    String.get 0 alphabet = Some c1 ∧ String.get 1 alphabet = Some c2
    ∧ _generate_appendix_title "alphabetical" 27
      = "Appendix " +:+ String c1 (String c2 "").
Proof.
  apply (two_letter_titles 27). lia.
Defined.
(** ** The controller's list of appendices *)

Lemma retitle_loop_titles (style : string) (l : list AppendixEntry) : ∀ i,
  entry_title <$> retitle_loop style i l
  = _generate_appendix_title style <$> seq i (length l).
Proof. induction l as [|e l IH]; intros i; simpl; [done|]. by rewrite IH. Qed.

Lemma retitle_loop_rest (style : string) (l : list AppendixEntry) : ∀ i,
  with_title "" <$> retitle_loop style i l = with_title "" <$> l.
Proof.
  induction l as [|e l IH]; intros i; simpl; [done|]. by rewrite IH.
Qed.

Lemma retitle_loop_length (style : string) (l : list AppendixEntry) : ∀ i,
  length (retitle_loop style i l) = length l.
Proof. induction l as [|e l IH]; intros i; simpl; [done|]. by rewrite IH. Qed.

Lemma entries_from_paths {D} (env : Env) (s : State D) style l : ∀ n,
  entry_path <$> entries_from env s style n l = l.
Proof.
  induction l as [|p l IH]; intros n; simpl; [done|]. rewrite IH.
  unfold entry_of. by destruct (validate_pdf_file env p s).1.
Qed.

Lemma entries_from_titles {D} (env : Env) (s : State D) style l : ∀ n,
  entry_title <$> entries_from env s style n l
  = _generate_appendix_title style <$> seq n (length l).
Proof.
  induction l as [|p l IH]; intros n; simpl; [done|]. rewrite IH.
  unfold entry_of. by destruct (validate_pdf_file env p s).1.
Qed.

Lemma entries_from_length {D} (env : Env) (s : State D) style l n :
  length (entries_from env s style n l) = length l.
Proof. by rewrite <-(length_fmap entry_path), entries_from_paths. Qed.

Lemma process_titles_spec (style : string) (existing : nat) (l : list path) :
  ∀ acc, process_titles style existing l acc
         = acc ++ (_generate_appendix_title style
                     <$> seq (existing + length acc) (length l)).
Proof.
  induction l as [|p l IH]; intros acc; simpl; [by rewrite app_nil_r|].
  rewrite IH, <-app_assoc, length_app. simpl.
  by replace (existing + (length acc + 1))%nat
    with (S (existing + length acc)) by lia.
Qed.

Section ControllerList.
Context {D : Type} (env : Env).
Implicit Types (c : AppController D).

Lemma process_loop_spec (s0 : State D) (file_paths : list path) :
  ∀ i total processed c,
    files (core c) = files s0 →
    ∃ c', process_loop env i total file_paths processed c
          = (Return (processed ++
                     entries_from env s0 (numbering_style c)
                       (length (appendix_data c) + length processed)
                       file_paths), c')
      ∧ appendix_data c' = appendix_data c
      ∧ numbering_style c' = numbering_style c
      ∧ files (core c') = files s0.
Proof.
  induction file_paths as [|p l IH]; intros i total processed c Hfs.
  { exists c. simpl. by rewrite app_nil_r. }
  cbn [process_loop entries_from].
  unfold ui, in_core, generate_title. py_unfold. cbn [core].
  pose proof (same_files_validate_pdf_file env p (core c)) as Hsame.
  unfold same_files in Hsame.


  destruct (validate_pdf_file env p (core c)) as [[r|e] s1] eqn:Hv;
    simpl in *;
    (match goal with
     | |- context [process_loop env (S i) total l ?acc ?c1] =>
         destruct (IH (S i) total acc c1) as (c' & Hrun & H1 & H2 & H3);
           [simpl; congruence|]
     end);
    exists c'; rewrite Hrun; simpl in *;
    (split_and!; [|done..]);
    rewrite <-app_assoc, length_app; simpl;
    unfold entry_of;
    rewrite (validate_pdf_file_outcome env p s0 (core c)) by done;
    rewrite Hv; simpl; repeat f_equal; lia.
Qed.
End ControllerList.
Lemma entries_from_lookup {D} (env : Env) (s : State D) style l : ∀ n k e,
  entries_from env s style n l !! k = Some e →
  ∃ p, l !! k = Some p
       ∧ e = entry_of env s (_generate_appendix_title style (n + k)) p.
Proof.
  induction l as [|p l IH]; intros n k e; [done|].
  destruct k as [|k]; simpl.
  - intros [= <-]. exists p. by rewrite Nat.add_0_r.
  - intros (q & Hq & ->)%IH. exists q. split; [done|].
    by replace (S n + k)%nat with (n + S k)%nat by lia.
Qed.

Lemma entry_of_path {D} (env : Env) (s : State D) t p :
  entry_path (entry_of env s t p) = p.
Proof. unfold entry_of. by destruct (validate_pdf_file env p s).1. Qed.

Section ControllerProps.
Context {D : Type} (env : Env) (str_lower : string → string).
Implicit Types (c : AppController D).

(** The whole of [_process_pdf_files], as far as the list goes. *)
Lemma process_pdf_files_run file_paths c :
  ∃ c', _process_pdf_files env file_paths c = (Return tt, c')
    ∧ appendix_data c'
      = appendix_data c ++
        entries_from env (core c) (numbering_style c)
          (length (appendix_data c)) file_paths
    ∧ numbering_style c' = numbering_style c
    ∧ files (core c') = files (core c)
    ∧ SetAppendixData (appendix_data c') ∈ window c'.
Proof.
  destruct (process_loop_spec env (core c) file_paths 0 (length file_paths)
              [] c eq_refl) as (c1 & Hrun & H1 & H2 & H3).
  unfold _process_pdf_files.
  unfold Py.try_except, Py.bind at 1. rewrite Hrun.
  cbn [app length]. rewrite Nat.add_0_r.
  set (new := entries_from env (core c) (numbering_style c)
                (length (appendix_data c)) file_paths).
  unfold ui, in_core, set_appendix_data. py_unfold. cbn [appendix_data].
  destruct (decide _); cbn; eexists; (split; [reflexivity|]); cbn;
    rewrite H1; (split_and!; [done..|]); set_solver.
Qed.

(** X17: [_process_pdf_files] always returns and appends exactly one entry
    per file, in the order given, whether or not the file can be validated:
    the new titles continue the numbering after the entries already listed;
    the entry of a file that validates carries what [validate_pdf_file]
    reported and is valid; the entry of a file that does not is invalid, has
    page count 0 and one warning that quotes the error; the file system is
    not touched. *)
Theorem process_pdf_files_adds_every_file file_paths c :
  let r := _process_pdf_files env file_paths c in
  r.1 = Return tt
  ∧ files (core r.2) = files (core c)
  ∧ ∃ new,
      appendix_data r.2 = appendix_data c ++ new
      ∧ entry_path <$> new = file_paths
      ∧ entry_title <$> new
        = process_titles (numbering_style c) (length (appendix_data c))
            file_paths []
      ∧ ∀ k e, new !! k = Some e →
          match (validate_pdf_file env (entry_path e) (core c)).1 with
          | Return pdf_info =>
              entry_valid e = true
              ∧ entry_page_count e = info_page_count pdf_info
              ∧ entry_size_bytes e = size_bytes pdf_info
              ∧ entry_warnings e = warnings pdf_info
          | Raise ex =>
              entry_valid e = false ∧ entry_page_count e = 0
              ∧ entry_warnings e = ["Processing error: " +:+ str_exn ex]
          end.
Proof.
  intros r. subst r.
  destruct (process_pdf_files_run file_paths c)
    as (c' & -> & Hdata & _ & Hfs & _).
  cbn [fst snd]. split_and!; [done..|].
  eexists. split_and!; [exact Hdata| | |].
  - apply entries_from_paths.
  - rewrite process_titles_spec, entries_from_titles. simpl.
    by rewrite Nat.add_0_r.
  - intros k e (p & _ & ->)%entries_from_lookup.
    rewrite entry_of_path. unfold entry_of.
    destruct ((validate_pdf_file env p (core c)).1) as [info|ex] eqn:Hv;
      simpl; [|done].
    split_and!; [|done..]. by eapply validate_pdf_file_valid.
Qed.

(** The whole of [on_appendix_removed], as far as the list goes. *)
Lemma on_appendix_removed_run index c :
  ∃ c', on_appendix_removed index c = (Return tt, c')
    ∧ numbering_style c' = numbering_style c
    ∧ files (core c') = files (core c)
    ∧ appendix_data c'
      = (if bool_decide (0 ≤ index < Z.of_nat (length (appendix_data c)))
         then retitle_loop (numbering_style c) 0
                (delete (Z.to_nat index) (appendix_data c))
         else appendix_data c)
    ∧ (¬ (0 ≤ index < Z.of_nat (length (appendix_data c))) → c' = c).
Proof.
  unfold on_appendix_removed, ui, in_core, set_appendix_data. py_unfold.
  case_bool_decide as Hin; cbn; eexists; (split; [reflexivity|]); cbn;
    split_and!; done.
Qed.

(** X16: removing the appendix at an index that is in range takes that
    entry out, keeps the others in order and unchanged but for their titles,
    which are generated again for the positions 0, 1, ...; an index out of
    range, negative ones included, changes nothing. *)
Theorem on_appendix_removed_renumbers index c :
  let r := on_appendix_removed index c in
  r.1 = Return tt
  ∧ (0 ≤ index < Z.of_nat (length (appendix_data c)) →
       with_title "" <$> appendix_data r.2
       = delete (Z.to_nat index) (with_title "" <$> appendix_data c)
       ∧ entry_title <$> appendix_data r.2
         = _generate_appendix_title (numbering_style c)
             <$> seq 0 (length (appendix_data c) - 1)
       ∧ SetAppendixData (appendix_data r.2) ∈ window r.2)
  ∧ (¬ (0 ≤ index < Z.of_nat (length (appendix_data c))) → r.2 = c).
Proof.
  intros r. subst r.
  destruct (on_appendix_removed_run index c)
    as (c' & Hrun & _ & _ & Hdata & Hout).
  rewrite Hrun. cbn [fst snd]. split_and!; [done| |done].
  intros Hin. rewrite bool_decide_true in Hdata by done. rewrite Hdata.
  split_and!.
  - by rewrite retitle_loop_rest, list_fmap_delete.
  - rewrite retitle_loop_titles, length_delete; [done|].
    apply lookup_lt_is_Some. lia.
  - revert Hrun. unfold on_appendix_removed, ui, in_core, set_appendix_data.
    py_unfold. rewrite bool_decide_true by done. cbn.
    intros [= <-]. cbn. set_solver.
Qed.

(** X18: as long as the numbering style is not changed, the titles of the
    controller's list are the generated titles of the positions 0, 1, ...:
    adding files, removing an entry and clearing the list keep that; and
    then no two entries have the same title. *)
Theorem titles_stay_consecutive file_paths index c :
  well_titled c →
  well_titled (_process_pdf_files env file_paths c).2
  ∧ well_titled (on_appendix_removed index c).2
  ∧ well_titled (clear_appendices c).2
  ∧ (numbering_style c = "numeric"
     ∨ (length (appendix_data c) ≤ 4992)%nat →
     NoDup (entry_title <$> appendix_data c)).
Proof.
  unfold well_titled. intros Hc. split_and!.
  - destruct (process_pdf_files_run file_paths c)
      as (c' & -> & Hdata & Hstyle & _).
    cbn [snd]. rewrite Hdata, Hstyle, fmap_app, Hc, entries_from_titles.
    rewrite length_app, entries_from_length, seq_app, fmap_app. done.
  - destruct (on_appendix_removed_run index c)
      as (c' & -> & Hstyle & _ & Hdata & _).
    cbn [snd]. rewrite Hdata, Hstyle. case_bool_decide; [|done].
    by rewrite retitle_loop_titles, retitle_loop_length.
  - done.
  - intros Hb. rewrite Hc. apply NoDup_fmap_2_strong; [|apply NoDup_seq].
    intros i j Hi%elem_of_seq Hj%elem_of_seq.
    apply generate_appendix_title_inj. intros Hs.
    destruct Hb as [?|?]; [done|lia].
Qed.
End ControllerProps.
Lemma titles_stay_consecutive_witness :
  well_titled controller0
  ∧ well_titled
      (_process_pdf_files Fixture.env
         [Fixture.a_pdf; ["work"; "gone.pdf"]] controller0).2.
Proof.
  assert (well_titled controller0) as H by reflexivity.
  split; [exact H|].
  apply (titles_stay_consecutive Fixture.env
           [Fixture.a_pdf; ["work"; "gone.pdf"]] 0 controller0 H).
Defined.

Lemma on_appendix_removed_renumbers_witness :
  let c := (_process_pdf_files Fixture.env
              [Fixture.a_pdf; Fixture.b_pdf] controller0).2 in
  (entry_path <$> appendix_data c, entry_title <$> appendix_data c)
  = ([Fixture.a_pdf; Fixture.b_pdf], ["Appendix A"; "Appendix B"])
  ∧ entry_title <$> appendix_data (on_appendix_removed 0 c).2
    = ["Appendix A"]
  ∧ entry_path <$> appendix_data (on_appendix_removed 0 c).2
    = [Fixture.b_pdf].
Proof.
  intros c. split; [vm_compute; reflexivity|].
  destruct (on_appendix_removed_renumbers 0 c) as (_ & Hin & _).
  destruct Hin as (_ & Ht & _); [split; [lia|vm_compute; reflexivity]|].
  split; [rewrite Ht; reflexivity|vm_compute; reflexivity].
Defined.

(** ** The controller's validation *)

Section ControllerValidation.
Context {D : Type} (env : Env) (str_lower : string → string).
Implicit Types (c : AppController D) (e : AppendixEntry) (fs : gset path).

Lemma validate_data_loop_cons fs e data errors :
  entry_checkable env e →
  validate_data_loop env str_lower fs (e :: data) errors
  = validate_data_loop env str_lower fs data
      (errors ++ entry_errors env str_lower fs e).
Proof.
  unfold entry_errors, entry_checkable. intros He. simpl. rewrite He.
  destruct (bool_decide (entry_path e ∈ fs)),
    (bool_decide (entry_page_count e ≤ 0)), (size_mb_gt _ _);
    simpl; by rewrite <-?app_assoc.
Qed.

Lemma validate_data_loop_app fs data : ∀ errors,
  Forall (entry_checkable env) data →
  validate_data_loop env str_lower fs data errors
  = Return (errors ++ mjoin (entry_errors env str_lower fs <$> data)).
Proof.
  induction data as [|e data IH]; intros errors Hall.
  { simpl. by rewrite app_nil_r. }
  apply Forall_cons in Hall as [He Hall].
  rewrite validate_data_loop_cons, IH by done. simpl. by rewrite <-app_assoc.
Qed.

(** The check that the file is there is not guarded: its error leaves the
    loop. *)
Lemma validate_data_loop_raises fs before e after errors ex :
  Forall (entry_checkable env) before →
  exists_error env (entry_path e) = Some ex →
  validate_data_loop env str_lower fs (before ++ e :: after) errors
  = Raise ex.
Proof.
  revert errors. induction before as [|b before IH]; intros errors Hall Hex.
  { simpl. by rewrite Hex. }
  apply Forall_cons in Hall as [Hb Hall].
  cbn [app]. rewrite validate_data_loop_cons by done. by apply IH.
Qed.


Lemma entry_errors_nil fs e :
  entry_errors env str_lower fs e = [] ↔ entry_ok env str_lower fs e.
Proof.
  unfold entry_errors, entry_ok.
  destruct (bool_decide (entry_path e ∈ fs)) eqn:Hin;
    [apply bool_decide_eq_true in Hin|apply bool_decide_eq_false in Hin];
    (destruct (bool_decide (entry_page_count e ≤ 0)) eqn:Hpc;
     [apply bool_decide_eq_true in Hpc|apply bool_decide_eq_false in Hpc]);
    destruct (size_mb_gt _ _) eqn:Hsz; simpl;
    try (split; [done|intros (? & ? & ? & _); first [done|lia]]).
  split.
  - intros Hf%fmap_nil_inv. split_and!; [done|lia|done|].
    apply Forall_forall. intros w Hw.
    destruct (critical str_lower w) eqn:Hc; [|done].
    by apply (filter_nil_not_elem_of _ _ w Hf) in Hw.
  - intros (_ & _ & _ & Hall).
    induction Hall as [|w ws Hw _ IH]; [done|].
    rewrite filter_cons, decide_False by congruence. done.
Qed.

Lemma mjoin_entry_errors_nil fs data :
  mjoin (entry_errors env str_lower fs <$> data) = []
  ↔ Forall (entry_ok env str_lower fs) data.
Proof.
  induction data as [|e l IH].
  { split; [constructor|done]. }
  change (mjoin (entry_errors env str_lower fs <$> e :: l))
    with (entry_errors env str_lower fs e ++
          mjoin (entry_errors env str_lower fs <$> l)).
  rewrite Forall_cons, <-IH, <-entry_errors_nil.
  split; [by intros [? ?]%app_eq_nil|by intros [-> ->]].
Qed.


(** X19: when [exists] can check the path of every entry of its list, the
    controller's [_validate_appendices] returns and reports, for every
    entry, a file that is not there, a page count that is not positive, a
    size over the limit and every warning that mentions an error or a
    corrupted file, under the entry's title; and it reports nothing exactly
    when no entry has any of these.  The check is not guarded: when
    [exists] raises on the path of an entry, those before it being checked,
    [_validate_appendices] raises that error.  It never changes the
    controller. *)
Theorem controller_validation_reports c :
  (_validate_appendices env str_lower c).2 = c
  ∧ (Forall (entry_checkable env) (appendix_data c) →
     ∃ errors, (_validate_appendices env str_lower c).1 = Return errors
       ∧ (∀ e, e ∈ appendix_data c →
            (entry_path e ∉ files (core c) →
               entry_title e +:+ ": File not found" ∈ errors)
            ∧ (entry_page_count e ≤ 0 →
                 entry_title e +:+ ": Invalid page count" ∈ errors)
            ∧ (size_mb_gt (entry_size_bytes e) (max_size_mb env) = true →
                 entry_title e +:+ ": File too large (" +:+
                 fmt_mb_1f (entry_size_bytes e) +:+ "MB)" ∈ errors)
            ∧ (∀ w, w ∈ entry_warnings e → critical str_lower w = true →
                 entry_title e +:+ ": " +:+ w ∈ errors))
       ∧ (errors = [] ↔
          Forall (entry_ok env str_lower (files (core c)))
            (appendix_data c)))
  ∧ (∀ before e after ex,
       appendix_data c = before ++ e :: after →
       Forall (entry_checkable env) before →
       exists_error env (entry_path e) = Some ex →
       (_validate_appendices env str_lower c).1 = Raise ex).
Proof.
  unfold _validate_appendices. cbn [fst snd]. split; [done|]. split.
  - intros Hall. eexists. split; [by apply validate_data_loop_app|].
    cbn [app]. split; [|apply mjoin_entry_errors_nil].
    intros e He.
    assert (∀ x, x ∈ entry_errors env str_lower (files (core c)) e →
                 x ∈ mjoin (entry_errors env str_lower (files (core c))
                              <$> appendix_data c)) as Hsub.
    { intros x Hx. apply list_elem_of_join. eexists. split; [exact Hx|].
      apply list_elem_of_fmap. by exists e. }
    unfold entry_errors in Hsub.
    split_and!.
    + intros Hgone. apply Hsub. rewrite (bool_decide_false _ Hgone).
      set_solver.
    + intros Hpc. apply Hsub. rewrite (bool_decide_true _ Hpc).
      set_solver.
    + intros Hsz. apply Hsub. rewrite Hsz. set_solver.
    + intros w Hw Hc. apply Hsub. do 3 (apply elem_of_app; right).
      apply list_elem_of_fmap. exists w. split; [done|].
      by apply list_elem_of_filter.
  - intros before e after ex -> Hall Hex.
    by apply validate_data_loop_raises.
Qed.

End ControllerValidation.

Lemma controller_validation_reports_witness :
  let c := (_process_pdf_files Fixture.env
              [Fixture.a_pdf; ["work"; "gone.pdf"]] controller0).2 in
  Forall (entry_checkable Fixture.env) (appendix_data c)
  ∧ (∃ errors, (_validate_appendices Fixture.env ascii_lower c).1
               = Return errors)
  ∧ (_validate_appendices Fixture.vault_env ascii_lower
       (_process_pdf_files Fixture.vault_env
          [Fixture.a_pdf; Fixture.vault_pdf] controller0).2).1
    = Raise Fixture.permission_denied.
Proof.
  intros c.
  assert (Forall (entry_checkable Fixture.env) (appendix_data c)) as Hall.
  { apply Forall_forall. intros e _. reflexivity. }
  split; [exact Hall|]. split.
  - destruct (controller_validation_reports Fixture.env ascii_lower c)
      as (_ & Hret & _).
    destruct (Hret Hall) as (errors & Hrun & _). by exists errors.
  - set (c' := (_process_pdf_files Fixture.vault_env
                  [Fixture.a_pdf; Fixture.vault_pdf] controller0).2).
    destruct (controller_validation_reports Fixture.vault_env ascii_lower c')
      as (_ & _ & Hraise).
    assert (∃ e1 e2, appendix_data c' = [e1] ++ e2 :: []
                     ∧ entry_path e1 = Fixture.a_pdf
                     ∧ entry_path e2 = Fixture.vault_pdf)
      as (e1 & e2 & Hdata & H1 & H2).
    { eexists _, _. split_and!; vm_compute; reflexivity. }
    apply (Hraise [e1] e2 [] Fixture.permission_denied Hdata).
    + repeat constructor. unfold entry_checkable. rewrite H1. reflexivity.
    + rewrite H2. reflexivity.
Defined.


Example validate_after_adding :
  (_validate_appendices Fixture.env ascii_lower
     (_process_pdf_files Fixture.env
        [Fixture.a_pdf; ["work"; "gone.pdf"]] controller0).2).1
  = Return ["Appendix B: File not found"; "Appendix B: Invalid page count";
            "Appendix B: Processing error: [PDF_ERROR] PDF file not found: work/gone.pdf"].
Proof. vm_compute. reflexivity. Qed.
(** ** From the controller's list to the document *)

Section ValidatedEntries.
Context (env : Env) (str_lower : string → string).
Implicit Types (s : State WordManager) (a : AppendixData).




End ValidatedEntries.


(** ** The processing worker *)

Section WorkerProps.
Context {D : Type} `{!DocumentBackend D} `{!WorkerBackend D}.
Context (env : Env) (wenv : WorkerEnv).
Implicit Types (w : Worker D).








(** The whole of [process_with], in terms of its three phases. *)
Lemma process_with_run w :
  process_with env wenv w =
  match prepare env wenv w with
  | (Raise e, w1) => (Return tt, failed_with e w1)
  | (Return backup, w1) =>
      match process_appendices env wenv 0 (length (worker_data wenv))
              (worker_data wenv) w1 with
      | (Raise e, w2) => (Return tt, failed_with e w2)
      | (Return _, w2) =>
          match finish env wenv backup w2 with
          | (Raise e, w3) => (Return tt, failed_with e w3)
          | (Return a, w3) => (Return a, w3)
          end
      end
  end.
Proof.
  unfold process_with, Py.try_except, Py.bind, record, Py.modify, failed_with.
  destruct (prepare env wenv w) as [[backup|e] w1]; [|done].
  destruct (process_appendices env wenv 0 _ _ w1) as [[[]|e] w2]; [|done].
  by destruct (finish env wenv backup w2) as [[[]|e] w3].
Qed.



(** The loop, when the stop flag is never set. *)
Lemma process_appendices_run data : ∀ i total w,
  stop_after wenv = None →
  process_appendices env wenv i total data w
  = (match (add_each env data (managers w)).1 with
     | Some e => Raise e
     | None => Return tt
     end,
     MkWorker (add_each env data (managers w)).2
       (trace w ++ adding_signals i total (attempted env data (managers w)))
       (reads w + length (attempted env data (managers w)))).
Proof.
  induction data as [|a data IH]; intros i total w Hstop.
  { simpl. unfold Py.ret. rewrite app_nil_r, Nat.add_0_r. by destruct w. }
  cbn [process_appendices add_each attempted adding_signals].
  unfold should_stop, record, in_managers. py_unfold. rewrite Hstop.
  cbn [managers trace reads].
  destruct (add_appendix env (to_appendix_data a) (managers w))
    as [[b|e] s1]; cbn [fst snd].
  - rewrite IH by done. cbn [managers trace reads length].
    rewrite <-app_assoc. do 2 f_equal. lia.
  - cbn [length]. do 2 f_equal. lia.
Qed.
End WorkerProps.
Lemma add_each_error {D} `{!DocumentBackend D} (env : Env) data :
  ∀ (s : State D) e,
    (add_each env data s).1 = Some e → exn_class e = AppendixError.
Proof.
  induction data as [|a data IH]; intros s e; simpl; [done|].
  destruct (add_appendix env (to_appendix_data a) s) as [[b|e'] s1] eqn:Hadd.
  - apply IH.
  - intros [= <-].
    apply (add_appendix_raises_only_AppendixError env (to_appendix_data a) s).
    by rewrite Hadd.
Qed.

Lemma attempted_prefix {D} `{!DocumentBackend D} (env : Env) data :
  ∀ (s : State D), attempted env data s `prefix_of` data.
Proof.
  induction data as [|a data IH]; intros s; simpl; [done|].
  destruct (add_appendix env (to_appendix_data a) s) as [[b|e'] s1].
  - apply prefix_cons, IH.
  - apply prefix_cons, prefix_nil.
Qed.

Section WorkerRuns.
Context {D : Type} `{!DocumentBackend D} `{!WorkerBackend D}.
Context (env : Env) (wenv : WorkerEnv).
Implicit Types (w : Worker D).

(** X23: unlike [add_multiple_appendices], the worker gives up at the first
    appendix that cannot be added: the entries after it are not attempted,
    the document is not saved, no PDF is written, and the run ends with
    [processing_failed] quoting the [AppendixError]. *)
Theorem first_failure_aborts w backup w1 e :
  stop_after wenv = None →
  prepare env wenv w = (Return backup, w1) →
  (add_each env (worker_data wenv) (managers w1)).1 = Some e →
  let r := process_with env wenv w in
  let tried := attempted env (worker_data wenv) (managers w1) in
  r.1 = Return tt
  ∧ trace r.2
    = trace w1 ++ adding_signals 0 (length (worker_data wenv)) tried
      ++ [processing_failed ("Processing failed: " +:+ str_exn e)]
  ∧ managers r.2 = (add_each env (worker_data wenv) (managers w1)).2
  ∧ exn_class e = AppendixError
  ∧ tried `prefix_of` worker_data wenv.
Proof.
  intros Hstop Hprep Hfail r tried. subst r tried.
  rewrite process_with_run, Hprep, process_appendices_run by done.
  rewrite Hfail. unfold failed_with. cbn [fst snd trace managers].
  split_and!; [done|by rewrite <-app_assoc|done| |].
  - by eapply add_each_error.
  - apply attempted_prefix.
Qed.

(** X24: when every appendix was added, the document is saved and
    [create_final_pdf] is tried: if saving raises the run fails and no PDF
    is attempted; otherwise the run is reported as completed whether or not
    the PDF could be made, with the PDF's path or [None], with the backup
    path, and with the length of the list as the number of appendices
    added. *)
Theorem completed_run_reports w backup w1 :
  stop_after wenv = None →
  prepare env wenv w = (Return backup, w1) →
  (add_each env (worker_data wenv) (managers w1)).1 = None →
  let s2 := (add_each env (worker_data wenv) (managers w1)).2 in
  let saved := call_backend save_document s2 in
  let final := create_final_pdf env None saved.2 in
  let r := process_with env wenv w in
  r.1 = Return tt
  ∧ match saved.1 with
    | Raise e =>
        last (trace r.2)
        = Some (processing_failed ("Processing failed: " +:+ str_exn e))
        ∧ managers r.2 = saved.2
    | Return _ =>
        managers r.2 = final.2
        ∧ last (trace r.2)
          = Some (processing_completed
                    {| result_success := true;
                       result_document_path :=
                         match document_path_of (word_manager final.2) with
                         | Some p => path_str p
                         | None => ""
                         end;
                       result_backup_path := backup;
                       result_output_pdf :=
                         match final.1 with
                         | Return p => Some p
                         | Raise _ => None
                         end;
                       result_appendices_added :=
                         length (worker_data wenv) |})
    end.
Proof.
  intros Hstop Hprep Hok s2 saved final r. subst r final saved s2.
  rewrite process_with_run, Hprep, process_appendices_run by done.
  rewrite Hok.
  unfold finish, should_stop, record, in_managers, failed_with. py_unfold.
  rewrite Hstop. cbn [managers trace reads fst snd].
  destruct (call_backend save_document _) as [[b|e] s3];
    cbn [fst snd managers trace reads].
  2:{ rewrite last_snoc. by split_and!. }
  destruct (create_final_pdf env None s3) as [[p|e] s4];
    cbn [fst snd managers trace reads];
    rewrite last_snoc; by split_and!.
Qed.
End WorkerRuns.
Lemma first_failure_aborts_witness :
  let wenv := worker_env [entry_a; entry_gone; entry_b] None in
  let w := MkWorker (MkState [] [] None [] Fixture.wm Fixture.fs [])
             [progress_updated "Initializing..." 0] 0 in
  ∃ e, last (trace (process_with Fixture.env wenv w).2)
       = Some (processing_failed ("Processing failed: " +:+ str_exn e))
       ∧ pdf_path <$> appendices_added
                        (managers (process_with Fixture.env wenv w).2)
         = [Fixture.a_pdf].
Proof.
  intros wenv w.
  assert (prepare Fixture.env wenv w
          = (Return None, (prepare Fixture.env wenv w).2)) as Hprep
    by (vm_compute; reflexivity).
  assert (∃ e, (add_each Fixture.env (worker_data wenv)
                  (managers (prepare Fixture.env wenv w).2)).1 = Some e)
    as [e He] by (eexists; vm_compute; reflexivity).
  exists e.
  destruct (first_failure_aborts Fixture.env wenv w None _ e eq_refl Hprep He)
    as (_ & Ht & Hm & _).
  split.
  - rewrite Ht, app_assoc. apply last_snoc.
  - rewrite Hm. vm_compute. reflexivity.
Defined.

Lemma completed_run_reports_witness :
  let wenv := worker_env [entry_a; entry_b] None in
  let w := MkWorker (MkState [] [] None [] docx_word_manager Fixture.fs [])
             [progress_updated "Initializing..." 0] 0 in
  ∃ res, last (trace (process_with Fixture.env wenv w).2)
         = Some (processing_completed res)
         ∧ result_output_pdf res = None
         ∧ result_appendices_added res = 2%nat.
Proof.
  intros wenv w.
  assert (prepare Fixture.env wenv w
          = (Return None, (prepare Fixture.env wenv w).2)) as Hprep
    by (vm_compute; reflexivity).
  assert ((add_each Fixture.env (worker_data wenv)
             (managers (prepare Fixture.env wenv w).2)).1 = None) as Hok
    by (vm_compute; reflexivity).
  destruct (completed_run_reports Fixture.env wenv w None _ eq_refl Hprep Hok)
    as (_ & Hrun).
  cbv zeta in Hrun.
  assert (∃ b s3, call_backend save_document
                    (add_each Fixture.env (worker_data wenv)
                       (managers (prepare Fixture.env wenv w).2)).2
                  = (Return b, s3)) as (b & s3 & Hsave)
    by (eexists _, _; vm_compute; reflexivity).
  rewrite Hsave in Hrun. cbn [fst snd] in Hrun.
  destruct Hrun as (_ & Hlast). eexists. split; [exact Hlast|].
  split; [|reflexivity]. cbn [result_output_pdf].
  assert (∃ e, (create_final_pdf Fixture.env None s3).1 = Raise e)
    as [e ->]; [|done].
  injection Hsave as _ <-. eexists. vm_compute. reflexivity.
Defined.

(** ** The progress the worker reports *)

Lemma climbing_snoc (l : list Z) (p : Z) :
  climbing l → Forall (λ x, x ≤ p) l → climbing (l ++ [p]).
Proof.
  intros Hl Hle i j x y Hi Hj Hij.
  destruct (decide (j < length l)%nat) as [Hlt|Hge].
  - rewrite lookup_app_l in Hi, Hj by lia. by eapply Hl.
  - assert (y = p) as ->.
    { rewrite lookup_app_r in Hj by lia.
      destruct (j - length l)%nat; simpl in Hj; [congruence|done]. }
    destruct (decide (i < length l)%nat).
    + rewrite lookup_app_l in Hi by lia.
      rewrite Forall_forall in Hle. apply Hle.
      by eapply list_elem_of_lookup_2.
    + rewrite lookup_app_r in Hi by lia.
      destruct (i - length l)%nat; simpl in Hi; [|done].
      injection Hi as <-. lia.
Qed.

Section Progress.
Context {D : Type} `{!DocumentBackend D} `{!WorkerBackend D}.
Context (env : Env) (wenv : WorkerEnv).
Implicit Types (w : Worker D).

Lemma progress_upto_mono b b' w :
  b ≤ b' → progress_upto b w → progress_upto b' w.
Proof.
  intros Hb [Hc Hall]. split; [done|].
  eapply Forall_impl; [exact Hall|]. simpl. lia.
Qed.

Lemma leads_record_progress b p msg :
  0 ≤ b ≤ p →
  leads (@progress_upto D b) (record (progress_updated msg p))
    (progress_upto p).
Proof.
  intros Hb w [Hc Hall]. unfold progress_upto, record, Py.modify. simpl.
  unfold percentages in *. rewrite omap_app. simpl. split.
  - apply climbing_snoc; [done|].
    eapply Forall_impl; [exact Hall|]. simpl. lia.
  - apply Forall_app. split.
    + eapply Forall_impl; [exact Hall|]. simpl. lia.
    + repeat constructor; lia.
Qed.

Lemma leads_record_other b e :
  (∀ msg p, e ≠ progress_updated msg p) →
  leads (@progress_upto D b) (record e) (progress_upto b).
Proof.
  intros He w [Hc Hall]. unfold progress_upto, record, Py.modify. simpl.
  unfold percentages in *. rewrite omap_app. simpl.
  destruct e; try (rewrite app_nil_r; done). by destruct (He message percentage).
Qed.

Lemma leads_in_managers {A} b (m : @Py.M (State D) A) :
  leads (@progress_upto D b) (in_managers m) (progress_upto b).
Proof.
  intros w Hw. unfold in_managers. by destruct (m (managers w)).
Qed.

Lemma leads_should_stop b :
  leads (@progress_upto D b) (should_stop wenv) (progress_upto b).
Proof. by intros w Hw. Qed.

Lemma leads_bind {A B} (P Q R : Worker D → Prop)
    (m : @Py.M (Worker D) A) (k : A → @Py.M (Worker D) B) :
  leads P m Q → (∀ a, leads Q (k a) R) → (∀ w, Q w → R w) →
  leads P (Py.bind m k) R.
Proof.
  intros Hm Hk HQR w Hw. unfold Py.bind. specialize (Hm w Hw).
  destruct (m w) as [[a|e] w1]; simpl in *; [by apply Hk|by apply HQR].
Qed.

Lemma leads_weaken {A} (P Q R : Worker D → Prop) (m : @Py.M (Worker D) A) :
  leads P m Q → (∀ w, Q w → R w) → leads P m R.
Proof. intros Hm HQR w Hw. apply HQR, Hm, Hw. Qed.

Lemma leads_process_appendices data : ∀ i total,
  (i + length data = total)%nat →
  leads (progress_upto (30 + (Z.of_nat i * 50) `div` Z.of_nat total))
    (process_appendices env wenv i total data)
    (@progress_upto D 80).
Proof.
  induction data as [|a data IH]; intros i total Hlen.
  { intros w Hw. simpl. eapply progress_upto_mono; [|exact Hw].
    simpl in Hlen. assert (i = total) as -> by lia.
    destruct (decide (total = 0)%nat) as [->|Hne]; [done|].
    assert ((Z.of_nat total * 50) `div` Z.of_nat total = 50) as ->; [|lia].
    rewrite Z.mul_comm. apply Z.div_mul. lia. }
  simpl in Hlen.
  assert (0 ≤ (Z.of_nat i * 50) `div` Z.of_nat total
          ≤ (Z.of_nat (S i) * 50) `div` Z.of_nat total
          ∧ (Z.of_nat (S i) * 50) `div` Z.of_nat total ≤ 50) as [[Ha Hb] Hc].
  { split_and!.
    - apply Z.div_pos; lia.
    - apply Z.div_le_mono; lia.
    - apply Z.div_le_upper_bound; lia. }
  cbn [process_appendices].
  eapply leads_bind; [apply leads_should_stop| |].
  2:{ intros w Hw. eapply progress_upto_mono; [|exact Hw]. lia. }
  intros [|].
  { intros w Hw. simpl. eapply progress_upto_mono; [|exact Hw]. lia. }
  eapply leads_bind; [apply leads_record_progress; lia| |].
  2:{ intros w Hw. eapply progress_upto_mono; [|exact Hw]. lia. }
  intros _.
  eapply leads_bind; [apply leads_in_managers| |].
  2:{ intros w Hw. eapply progress_upto_mono; [|exact Hw]. lia. }
  intros _. eapply leads_weaken; [|intros w Hw; exact Hw].
  intros w Hw. apply IH; [lia|].
  eapply progress_upto_mono; [|exact Hw]. lia.
Qed.

Lemma leads_ret {A} b b' (a : A) :
  b ≤ b' → leads (@progress_upto D b) (Py.ret a) (progress_upto b').
Proof. intros Hb w Hw. by eapply progress_upto_mono. Qed.

Lemma leads_raise {A} b b' e :
  b ≤ b' →
  leads (@progress_upto D b) (@Py.raise (Worker D) A e) (progress_upto b').
Proof. intros Hb w Hw. by eapply progress_upto_mono. Qed.

Local Ltac upto_mono :=
  intros ? ?; eapply progress_upto_mono; [|eassumption]; lia.

Local Ltac leaf tac :=
  first [ tac | eapply leads_weaken; [tac|upto_mono] ].

Local Ltac lead :=
  lazymatch goal with
  | |- leads _ (Py.bind _ _) _ =>
      eapply leads_bind; [lead|intros ?; lead|upto_mono]
  | |- leads _ (in_managers _) _ => leaf ltac:(apply leads_in_managers)
  | |- leads _ (should_stop _) _ => leaf ltac:(apply leads_should_stop)
  | |- leads _ (record (progress_updated _ _)) _ =>
      leaf ltac:(apply leads_record_progress; lia)
  | |- leads _ (record _) _ =>
      leaf ltac:(apply leads_record_other; discriminate)
  | |- leads _ (Py.ret _) _ =>
      first [ intros ? ?; eassumption | apply leads_ret; lia ]
  | |- leads _ (Py.raise _) _ =>
      first [ intros ? ?; eassumption | apply leads_raise; lia ]
  | |- leads _ (if ?x then _ else _) _ => destruct x; lead
  | |- leads _ (match ?x with _ => _ end) _ => destruct x; lead
  end.

Lemma leads_prepare :
  leads (@progress_upto D 0) (prepare env wenv) (progress_upto 30).
Proof. unfold prepare. lead. Qed.

Lemma leads_export b :
  leads (@progress_upto D b)
    (Py.try_except
       (do p <- in_managers (create_final_pdf env None); Py.ret (Some p))
       (λ e,
          run record (print ("Warning: PDF export failed: " +:+ str_exn e));
          Py.ret None))
    (progress_upto b).
Proof.
  intros w Hw. unfold Py.try_except, Py.bind, in_managers, Py.ret.
  destruct (create_final_pdf env None (managers w)) as [[p|e] s1];
    cbn [snd]; [done|].
  exact (leads_record_other b (print _) ltac:(discriminate) _ Hw).
Qed.

Lemma leads_finish backup :
  leads (@progress_upto D 80) (finish env wenv backup) (progress_upto 100).
Proof.
  unfold finish.
  eapply leads_bind; [lead| |upto_mono]. intros [|]; [lead|].
  eapply leads_bind; [lead| |upto_mono]. intros _.
  eapply leads_bind; [lead| |upto_mono]. intros _.
  eapply leads_bind; [lead| |upto_mono]. intros _.
  eapply leads_bind; [lead| |upto_mono]. intros _.
  eapply leads_bind; [apply leads_export| |upto_mono]. intros output_path.
  eapply leads_bind; [lead| |upto_mono]. intros _.
  intros w Hw. unfold Py.bind, Py.get.
  exact (leads_record_other 100 (processing_completed _)
           ltac:(discriminate) w Hw).
Qed.

Lemma leads_process_with :
  leads (@progress_upto D 0) (process_with env wenv) (progress_upto 100).
Proof.
  intros w Hw. rewrite process_with_run.
  pose proof (leads_prepare w Hw) as H1.
  destruct (prepare env wenv w) as [[backup|e] w1]; cbn [snd] in *.
  2:{ apply (leads_record_other 100 (processing_failed
               ("Processing failed: " +:+ str_exn e)) ltac:(discriminate) w1).
      eapply progress_upto_mono; [|exact H1]. lia. }
  pose proof (leads_process_appendices (worker_data wenv) 0
                (length (worker_data wenv)) ltac:(lia) w1) as H2.
  change (Z.of_nat 0 * 50) with 0 in H2. rewrite Zdiv_0_l, Z.add_0_r in H2.
  specialize (H2 H1).
  destruct (process_appendices env wenv 0 _ _ w1) as [[[]|e] w2];
    cbn [snd] in *.
  2:{ apply (leads_record_other 100 (processing_failed
               ("Processing failed: " +:+ str_exn e)) ltac:(discriminate) w2).
      eapply progress_upto_mono; [|exact H2]. lia. }
  pose proof (leads_finish backup w2 H2) as H3.
  destruct (finish env wenv backup w2) as [[[]|e] w3]; cbn [snd] in *;
    [done|].
  exact (leads_record_other 100 (processing_failed
           ("Processing failed: " +:+ str_exn e)) ltac:(discriminate) w3 H3).
Qed.

(** X25: the percentages the worker reports with [progress_updated] never
    go down and stay between 0 and 100, however the run goes. *)
Theorem progress_never_goes_back fs :
  let t := (process env wenv fs).1 in
  climbing (percentages t) ∧ Forall (λ p, 0 ≤ p ≤ 100) (percentages t).
Proof.
  unfold process. destruct new_word_manager as [wm|e]; cbn [fst].
  2:{ split; [|repeat constructor; lia].
      intros [|[|i]] [|[|j]] x y; simpl; intros; simplify_eq; lia. }
  apply leads_process_with. split; [|repeat constructor; lia].
  intros [|[|i]] [|[|j]] x y; simpl; intros; simplify_eq; lia.
Qed.
End Progress.

Example worker_run :
  (process Fixture.env (worker_env [entry_a; entry_b] None) Fixture.fs).1
  = [progress_updated "Initializing..." 0;
     progress_updated "Opening document..." 10;
     OpenDocument ["work"; "report.docx"];
     progress_updated "Creating backup..." 20;
     progress_updated "Processing appendices..." 30;
     progress_updated "Adding Appendix A..." 30;
     progress_updated "Adding Appendix B..." 55;
     progress_updated "Finalizing document..." 90;
     SaveDocument;
     progress_updated "Exporting to PDF..." 95;
     progress_updated "Complete!" 100;
     processing_completed
       {| result_success := true;
          result_document_path := "work/report.docx";
          result_backup_path := None;
          result_output_pdf :=
            Some ["home"; "user"; "Documents"; "report_with_appendices.pdf"];
          result_appendices_added := 2 |}].
Proof. vm_compute. reflexivity. Qed.

Example worker_stopped :
  (process Fixture.env (worker_env [entry_a; entry_b] (Some 1%nat))
     Fixture.fs).1
  = [progress_updated "Initializing..." 0;
     progress_updated "Opening document..." 10;
     OpenDocument ["work"; "report.docx"];
     progress_updated "Creating backup..." 20;
     progress_updated "Processing appendices..." 30;
     progress_updated "Adding Appendix A..." 30].
Proof. vm_compute. reflexivity. Qed.
